(** * OpenManus plan execution engine: a shallow embedding

    This development embeds the core of [examples/openmanus-agent]
    (the executor, the trace model, the file tool and the shell tool)
    and settles the testable properties of its specification.

    Conventions.
    - A Python [str] is a list of Unicode code points ([pystr]); the
      literals of the source are written [py "..."].
    - A JSON-like Python value is a [value]; a [dict] value keeps its
      insertion order as an association list with unique keys.
    - A Python call that may raise returns a [result]; the host
      (filesystem, clock, subprocesses, the standard-library helpers
      [shlex.split], [str.lower], [Path.resolve] ...) is abstracted by
      records of primitives, so every theorem holds for every host.
    - Dictionaries keyed by step id or tool name, whose order is never
      observed, are [gmap]s; the allow and deny lists are [gset]s. *)

From Stdlib Require Import ZArith NArith String Ascii List Lia Bool.
From stdpp Require Import gmap.

Set Warnings "-register-all".
Local Open Scope N_scope.

(** ** Strings *)

Definition pystr := list N.

Definition py (s : string) : pystr :=
  map N_of_ascii (list_ascii_of_string s).

Definition pystr_eqb (a b : pystr) : bool := bool_decide (a = b).

(** [s.startswith(prefix)] *)
Fixpoint str_startswith (s prefix : pystr) {struct prefix} : bool :=
  match prefix, s with
  | [], _ => true
  | p :: prefix', c :: s' => N.eqb p c && str_startswith s' prefix'
  | _ :: _, [] => false
  end.

(** [pattern in s] on strings: [pattern] occurs at some offset of [s]. *)
Fixpoint str_contains (s pattern : pystr) : bool :=
  str_startswith s pattern ||
  match s with
  | [] => false
  | _ :: s' => str_contains s' pattern
  end.

(** [s.split(sep)] for a one-character separator: every occurrence of
    [sep] cuts, so a string with [n] separators has [n + 1] parts. *)
Fixpoint str_split (s : pystr) (sep : N) : list pystr :=
  match s with
  | [] => [[]]
  | c :: s' =>
      if N.eqb c sep then [] :: str_split s' sep
      else match str_split s' sep with
           | part :: parts => (c :: part) :: parts
           | [] => [[c]]
           end
  end.

Definition colon : N := 58.

(** [sep.join(parts)] *)
Fixpoint str_join (sep : pystr) (parts : list pystr) : pystr :=
  match parts with
  | [] => []
  | [p] => p
  | p :: rest => p ++ sep ++ str_join sep rest
  end.

(** *** UTF-8 *)

(** [s.encode("utf-8")]: the bytes of one code point, [None] where
    Python raises [UnicodeEncodeError] (a lone surrogate); a code point
    above U+10FFFF cannot occur in a [str]. *)
Definition utf8_char (c : N) : option (list N) :=
  if c <? 128 then Some [c]
  else if c <? 2048 then Some [192 + c / 64; 128 + c mod 64]
  else if (55296 <=? c) && (c <=? 57343) then None
  else if c <? 65536 then
    Some [224 + c / 4096; 128 + (c / 64) mod 64; 128 + c mod 64]
  else if c <? 1114112 then
    Some [240 + c / 262144; 128 + (c / 4096) mod 64;
          128 + (c / 64) mod 64; 128 + c mod 64]
  else None.

Fixpoint encode_utf8 (s : pystr) : option (list N) :=
  match s with
  | [] => Some []
  | c :: s' =>
      match utf8_char c, encode_utf8 s' with
      | Some bs, Some rest => Some (bs ++ rest)
      | _, _ => None
      end
  end.

Definition is_ascii (c : N) : bool := c <? 128.

(** ** Values *)

Inductive value : Type :=
| VNone
| VBool (b : bool)
| VInt (z : Z)
| VStr (s : pystr)
| VList (l : list value)
| VDict (d : list (pystr * value)).

Definition dict := list (pystr * value).

(** [d.get(k)] / [d[k]] *)
Fixpoint dict_get (d : dict) (k : pystr) : option value :=
  match d with
  | [] => None
  | (k', v) :: d' => if pystr_eqb k' k then Some v else dict_get d' k
  end.

(** [k in d] *)
Definition dict_has (d : dict) (k : pystr) : bool :=
  match dict_get d k with Some _ => true | None => false end.

(** [d[k] = v]: an existing key keeps its position, a new key is
    appended. *)
Fixpoint dict_set (d : dict) (k : pystr) (v : value) : dict :=
  match d with
  | [] => [(k, v)]
  | (k', v') :: d' =>
      if pystr_eqb k' k then (k, v) :: d' else (k', v') :: dict_set d' k v
  end.

Definition dict_keys (d : dict) : list pystr := map fst d.

(** Python truthiness of the values that occur as tool payloads. *)
Definition truthy (v : value) : bool :=
  match v with
  | VNone => false
  | VBool b => b
  | VInt z => negb (Z.eqb z 0)
  | VStr s => match s with [] => false | _ => true end
  | VList l => match l with [] => false | _ => true end
  | VDict d => match d with [] => false | _ => true end
  end.

(** ** Exceptions and results *)

Inductive exn_class : Type :=
| NameError | KeyError | TypeError | ValueError | AttributeError
| ToolError | FileNotFoundError | IsADirectoryError | PermissionError
| UnicodeEncodeError | TimeoutExpired | OSError | RuntimeError.

(** An exception object: its class and [str(e)]. Every class above
    derives from [Exception]. *)
Record exn : Type := mk_exn { exn_cls : exn_class; exn_str : pystr }.

Inductive result (A : Type) : Type :=
| Ok (a : A)
| Raise (e : exn).
Arguments Ok {A} a.
Arguments Raise {A} e.

Definition is_ok {A} (r : result A) : bool :=
  match r with Ok _ => true | Raise _ => false end.

Definition exn_class_eqb (a b : exn_class) : bool :=
  match a, b with
  | NameError, NameError | KeyError, KeyError | TypeError, TypeError
  | ValueError, ValueError | AttributeError, AttributeError
  | ToolError, ToolError | FileNotFoundError, FileNotFoundError
  | IsADirectoryError, IsADirectoryError
  | PermissionError, PermissionError
  | UnicodeEncodeError, UnicodeEncodeError
  | TimeoutExpired, TimeoutExpired | OSError, OSError
  | RuntimeError, RuntimeError => true
  | _, _ => false
  end.

(** [str(v)] inside an f-string: a [str] formats as itself, any other
    value through the interpreter's [repr]. *)
Definition format_value (py_repr : value -> pystr) (v : value) : pystr :=
  match v with
  | VStr s => s
  | _ => py_repr v
  end.

(** ** Paths

    An absolute POSIX path is the list of its components. *)

Definition fspath := list pystr.

Definition slash : pystr := py "/".

(** [str(path)] *)
Definition path_str (p : fspath) : pystr := slash ++ str_join slash p.

(** [str] of a relative path; the empty relative path prints as a dot. *)
Definition rel_path_str (p : fspath) : pystr :=
  match p with
  | [] => py "."
  | _ => str_join slash p
  end.

(** [path.parent] *)
Definition path_parent (p : fspath) : fspath := removelast p.

(** [path / name] *)
Definition path_child (p : fspath) (name : pystr) : fspath := p ++ [name].

(** [p.relative_to(root)]: the components of [root] must be a prefix of
    those of [p]; otherwise [ValueError]. *)
Fixpoint relative_to (p root : fspath) {struct root} : result fspath :=
  match root, p with
  | [], _ => Ok p
  | r :: root', c :: p' =>
      if pystr_eqb r c then relative_to p' root'
      else Raise (mk_exn ValueError (py "path is not in the subpath"))
  | _ :: _, [] => Raise (mk_exn ValueError (py "path is not in the subpath"))
  end.

(** [root] is [p] or one of its ancestors. *)
Definition is_descendant (p root : fspath) : bool := is_ok (relative_to p root).

(** ** The host

    Everything the code asks of the interpreter and the operating
    system. A host is arbitrary: its calls may fail with any exception
    and change the world in any way. *)

(** [subprocess.CompletedProcess] with captured text output. *)
Record completed : Type := mk_completed {
  cp_stdout : pystr;
  cp_stderr : pystr;
  cp_returncode : Z
}.

Class Host (World : Type) : Type := {
  (** [datetime.now().isoformat()] *)
  host_now : World -> pystr * World;
  (** [datetime.now().strftime("%Y%m%d-%H%M%S")] *)
  host_timestamp : World -> pystr * World;
  (** [(root / path).resolve()]: absolute and symlink-resolved *)
  host_resolve : World -> fspath -> value -> result fspath;
  (** [path.read_text(encoding="utf-8")] *)
  host_read_text : fspath -> World -> result pystr * World;
  (** [path.write_text(content, encoding="utf-8")] *)
  host_write_text : fspath -> value -> World -> result unit * World;
  (** [with path.open("a", encoding="utf-8") as f: f.write(content)] *)
  host_append_text : fspath -> value -> World -> result unit * World;
  (** [path.mkdir(parents=True, exist_ok=True)] *)
  host_mkdir : fspath -> World -> result unit * World;
  (** [path.is_dir()] *)
  host_is_dir : fspath -> World -> result bool * World;
  (** [path.is_file()] *)
  host_is_file : fspath -> World -> result bool * World;
  (** [path.stat().st_size] *)
  host_stat_size : fspath -> World -> result Z * World;
  (** [path.iterdir()]: the names of the entries, in the order of the
      listing *)
  host_iterdir : fspath -> World -> result (list pystr) * World;
  (** [fnmatch.fnmatch(name, pattern)] *)
  host_fnmatch : pystr -> value -> result bool;
  (** [shlex.split(cmd)] *)
  host_shlex_split : value -> result (list pystr);
  (** [s.lower()] *)
  host_lower : pystr -> pystr;
  (** [repr] of a value, as an f-string prints a value that is no [str] *)
  host_repr : value -> pystr;
  (** the f-string rendering of [sorted(names)] *)
  host_repr_sorted : gset pystr -> pystr;
  (** [subprocess.run(cmd, shell=True, capture_output=True, text=True,
      timeout=timeout, check=False)] *)
  host_run : pystr -> value -> World -> result completed * World;
  (** [hashlib.sha256(json.dumps(data, sort_keys=True, default=str)
      .encode()).hexdigest()[:16]] *)
  host_digest : dict -> pystr
}.

(** The calls that read, write, probe or list the filesystem or start
    a process, each with the path it is given.  [is_dir], [is_file] and
    [stat] follow a symbolic link at that path.  Resolving a path
    ([host_resolve]) and reading the clock inspect the world without
    being such a call. *)
Inductive syscall : Type :=
| SysRead (p : fspath)
| SysWrite (p : fspath) (content : value)
| SysAppend (p : fspath) (content : value)
| SysMkdir (p : fspath)
| SysIsDir (p : fspath)
| SysIsFile (p : fspath)
| SysStat (p : fspath)
| SysIterDir (p : fspath)
| SysRun (cmd : pystr).

(** The state threaded through the program: the world and the log of the
    calls made so far, most recent last. *)
Record machine (World : Type) : Type := mk_machine {
  world : World;
  calls : list syscall
}.
Arguments mk_machine {World} world calls.
Arguments world {World} m.
Arguments calls {World} m.

Section Syscalls.
Context {World : Type} `{Host World}.

Definition logged {A} (c : syscall)
    (f : World -> result A * World) (m : machine World)
    : result A * machine World :=
  let (r, w) := f (world m) in
  (r, mk_machine w (calls m ++ [c])).

Definition now (m : machine World) : pystr * machine World :=
  let (t, w) := host_now (world m) in (t, mk_machine w (calls m)).

Definition timestamp (m : machine World) : pystr * machine World :=
  let (t, w) := host_timestamp (world m) in (t, mk_machine w (calls m)).

Definition read_text (p : fspath) := logged (SysRead p) (host_read_text p).
Definition write_text (p : fspath) (content : value) :=
  logged (SysWrite p content) (host_write_text p content).
Definition append_text (p : fspath) (content : value) :=
  logged (SysAppend p content) (host_append_text p content).
Definition mkdir (p : fspath) := logged (SysMkdir p) (host_mkdir p).
Definition is_dir (p : fspath) := logged (SysIsDir p) (host_is_dir p).
Definition is_file (p : fspath) := logged (SysIsFile p) (host_is_file p).
Definition stat_size (p : fspath) := logged (SysStat p) (host_stat_size p).
Definition iterdir (p : fspath) := logged (SysIterDir p) (host_iterdir p).
Definition subprocess_run (cmd : pystr) (timeout : value) :=
  logged (SysRun cmd) (host_run cmd timeout).
End Syscalls.

(** ** models/trace.py *)

Inductive StepStatus : Type := PENDING | RUNNING | SUCCESS | FAILURE | SKIPPED.

Definition StepStatus_eqb (a b : StepStatus) : bool :=
  match a, b with
  | PENDING, PENDING | RUNNING, RUNNING | SUCCESS, SUCCESS
  | FAILURE, FAILURE | SKIPPED, SKIPPED => true
  | _, _ => false
  end.

Module TraceEntry.
Record t : Type := mk {
  step_id : pystr;
  tool : pystr;
  inputs_digest : pystr;
  output_digest : option pystr;
  start_time : pystr;
  end_time : option pystr;
  status : StepStatus;
  error : option pystr;
  inputs : dict;
  outputs : option value
}.

Section Methods.
Context {World : Type} `{Host World}.

(** The constructor call of [execute_plan]: [start_time] comes from
    its default factory, the other optional fields keep their
    defaults. *)
Definition create (step_id tool inputs_digest : pystr) (inputs : dict)
    (m : machine World) : t * machine World :=
  let (ts, m1) := now m in
  (mk step_id tool inputs_digest None ts None PENDING None inputs None, m1).

Definition mark_started (self : t) (m : machine World)
    : t * machine World :=
  let (ts, m1) := now m in
  (mk (step_id self) (tool self) (inputs_digest self)
      (output_digest self) ts (end_time self) RUNNING (error self)
      (inputs self) (outputs self), m1).

Definition mark_success (self : t) (outs : value) (m : machine World)
    : t * machine World :=
  let (ts, m1) := now m in
  (mk (step_id self) (tool self) (inputs_digest self)
      (output_digest self) (start_time self) (Some ts) SUCCESS
      (error self) (inputs self) (Some outs), m1).

Definition mark_failure (self : t) (err : pystr) (m : machine World)
    : t * machine World :=
  let (ts, m1) := now m in
  (mk (step_id self) (tool self) (inputs_digest self)
      (output_digest self) (start_time self) (Some ts) FAILURE
      (Some err) (inputs self) (outputs self), m1).
End Methods.
End TraceEntry.

(** [sum(1 for t in traces if t.status == st)] *)
Fixpoint count_status (st : StepStatus) (traces : list TraceEntry.t) : Z :=
  match traces with
  | [] => 0%Z
  | t :: rest =>
      ((if StepStatus_eqb (TraceEntry.status t) st then 1 else 0)
       + count_status st rest)%Z
  end.

Module ExecutionResult.
Record t : Type := mk {
  plan_goal : pystr;
  plan_risk_level : pystr;
  workspace_root : pystr;
  total_steps : Z;
  successful_steps : Z;
  failed_steps : Z;
  skipped_steps : Z;
  overall_status : StepStatus;
  start_time : pystr;
  end_time : option pystr;
  traces : list TraceEntry.t;
  error_summary : option pystr;
  produced_files : list value
}.

Definition with_traces (self : t) (ts : list TraceEntry.t) : t :=
  mk (plan_goal self) (plan_risk_level self) (workspace_root self)
     (total_steps self) (successful_steps self) (failed_steps self)
     (skipped_steps self) (overall_status self) (start_time self)
     (end_time self) ts (error_summary self) (produced_files self).

(** [self.traces.append(trace)] *)
Definition add_trace (self : t) (trace : TraceEntry.t) : t :=
  with_traces self (traces self ++ [trace]).

(** The entry appended last is the object [execute_plan] still holds
    and mutates through [mark_started], [mark_success] and
    [mark_failure]: a mutation of [trace] is a replacement of the last
    element of [traces]. *)
Definition set_current (self : t) (trace : TraceEntry.t) : t :=
  with_traces self (removelast (traces self) ++ [trace]).

(** [result.produced_files.append(p)] *)
Definition add_produced (self : t) (p : value) : t :=
  mk (plan_goal self) (plan_risk_level self) (workspace_root self)
     (total_steps self) (successful_steps self) (failed_steps self)
     (skipped_steps self) (overall_status self) (start_time self)
     (end_time self) (traces self) (error_summary self)
     (produced_files self ++ [p]).

Section Methods.
Context {World : Type} `{Host World}.

Definition finalize (self : t) (m : machine World) : t * machine World :=
  let (ts, m1) := now m in
  let failed := count_status FAILURE (traces self) in
  let successful := count_status SUCCESS (traces self) in
  let skipped := count_status SKIPPED (traces self) in
  let overall :=
    if (0 <? failed)%Z then FAILURE
    else if (successful =? total_steps self)%Z then SUCCESS
    else PENDING in
  (mk (plan_goal self) (plan_risk_level self) (workspace_root self)
      (total_steps self) successful failed skipped overall
      (start_time self) (Some ts) (traces self) (error_summary self)
      (produced_files self), m1).
End Methods.
End ExecutionResult.

(** ** tools/base.py *)

Record ToolOutput : Type := mk_output {
  success : bool;
  data : value;
  error : option pystr
}.

(** The abstract class [Tool]: a name and [execute]. An implementation
    may raise. *)
Record Tool (World : Type) : Type := mk_tool {
  tool_name : pystr;
  tool_execute : dict -> machine World -> result ToolOutput * machine World
}.
Arguments mk_tool {World} tool_name tool_execute.
Arguments tool_name {World} t.
Arguments tool_execute {World} t inputs m.

Module ToolRegistry.
Section Registry.
Context {World : Type}.

Definition empty : gmap pystr (Tool World) := ∅.

(** [register]: [ToolError] when the name is taken. *)
Definition register (self : gmap pystr (Tool World)) (tool : Tool World)
    : result (gmap pystr (Tool World)) :=
  match self !! tool_name tool with
  | Some _ =>
      Raise (mk_exn ToolError
               (py "Tool '" ++ tool_name tool ++ py "' is already registered"))
  | None => Ok (<[tool_name tool := tool]> self)
  end.

Definition get (self : gmap pystr (Tool World)) (name : pystr)
    : option (Tool World) := self !! name.

Definition has (self : gmap pystr (Tool World)) (name : pystr) : bool :=
  match self !! name with Some _ => true | None => false end.
End Registry.
End ToolRegistry.

Definition fail_output (msg : pystr) : ToolOutput :=
  mk_output false VNone (Some msg).

(** [d.get(k, default)] *)
Definition dict_get_default (d : dict) (k : pystr) (default : value) : value :=
  match dict_get d k with Some v => v | None => default end.

(** [v == "literal"] *)
Definition is_str (v : value) (s : pystr) : bool :=
  match v with
  | VStr s' => pystr_eqb s' s
  | _ => false
  end.

(** ** config.py: the settings the tools read *)

Record Settings : Type := mk_settings {
  settings_workspace_root : fspath;
  settings_runs_dir : fspath;
  shell_whitelist : list pystr;
  shell_blacklist : list pystr
}.

Definition default_shell_whitelist : list pystr :=
  [py "ls"; py "cat"; py "grep"; py "wc"; py "head"; py "tail";
   py "python3"; py "mkdir"].

Definition default_shell_blacklist : list pystr :=
  [py "rm"; py "mv"; py "sudo"; py "curl"; py "wget"; py "ssh";
   py "chmod"; py "chown"].

(** ** tools/file_tool.py *)

Module FileTool.
(** [workspace_root] is stored resolved by [__init__]. *)
Record t : Type := mk { workspace_root : fspath }.

Section Methods.
Context {World : Type} `{Host World}.

Definition name : pystr := py "file".

Definition outside_message (self : t) (path : value) : pystr :=
  py "Path '" ++ format_value host_repr path
    ++ py "' is outside workspace root '"
    ++ path_str (workspace_root self) ++ py "'".

Definition _resolve_path (self : t) (path : value) (m : machine World)
    : result fspath :=
  match host_resolve (world m) (workspace_root self) path with
  | Raise e => Raise e
  | Ok resolved =>
      match relative_to resolved (workspace_root self) with
      | Ok _ => Ok resolved
      | Raise _ => Raise (mk_exn ToolError (outside_message self path))
      end
  end.

(** The [except] clauses of [_read_text], in order. *)
Definition read_text_handler (path : value) (e : exn) : ToolOutput :=
  match exn_cls e with
  | ToolError => fail_output (exn_str e)
  | FileNotFoundError =>
      fail_output (py "File not found: " ++ format_value host_repr path)
  | IsADirectoryError =>
      fail_output (py "Path is a directory, not a file: "
                     ++ format_value host_repr path)
  | PermissionError =>
      fail_output (py "Permission denied: " ++ format_value host_repr path)
  | _ => fail_output (py "Error reading file: " ++ exn_str e)
  end.

Definition _read_text (self : t) (inputs : dict) (m : machine World)
    : ToolOutput * machine World :=
  match dict_get inputs (py "path") with
  | None => (fail_output (py "Missing 'path' in inputs"), m)
  | Some p =>
      match _resolve_path self p m with
      | Raise e => (read_text_handler p e, m)
      | Ok path =>
          let (r, m1) := read_text path m in
          match r with
          | Raise e => (read_text_handler p e, m1)
          | Ok content =>
              (mk_output true
                 (VDict [(py "content", VStr content);
                         (py "path", VStr (path_str path))])
                 None, m1)
          end
      end
  end.

(** The [except] clauses of [_write_text], in order. *)
Definition write_text_handler (e : exn) : ToolOutput :=
  match exn_cls e with
  | ToolError => fail_output (exn_str e)
  | _ => fail_output (py "Error writing file: " ++ exn_str e)
  end.

(** [len(content.encode("utf-8"))] *)
Definition encoded_length (content : value) : result Z :=
  match content with
  | VStr s =>
      match encode_utf8 s with
      | Some bytes => Ok (Z.of_nat (length bytes))
      | None =>
          Raise (mk_exn UnicodeEncodeError
                   (py "'utf-8' codec can't encode character: surrogates not allowed"))
      end
  | _ => Raise (mk_exn AttributeError (py "object has no attribute 'encode'"))
  end.

Definition _write_text (self : t) (inputs : dict) (m : machine World)
    : ToolOutput * machine World :=
  match dict_get inputs (py "path") with
  | None => (fail_output (py "Missing 'path' in inputs"), m)
  | Some p =>
  match dict_get inputs (py "content") with
  | None => (fail_output (py "Missing 'content' in inputs"), m)
  | Some content =>
  let mode := dict_get_default inputs (py "mode") (VStr (py "overwrite")) in
  if negb (is_str mode (py "overwrite") || is_str mode (py "append")) then
    (fail_output (py "Invalid mode: " ++ format_value host_repr mode
                    ++ py ". Must be 'overwrite' or 'append'"), m)
  else
    match _resolve_path self p m with
    | Raise e => (write_text_handler e, m)
    | Ok path =>
        let (r1, m1) := mkdir (path_parent path) m in
        match r1 with
        | Raise e => (write_text_handler e, m1)
        | Ok _ =>
            let (r2, m2) :=
              if is_str mode (py "append") then append_text path content m1
              else write_text path content m1 in
            match r2 with
            | Raise e => (write_text_handler e, m2)
            | Ok _ =>
                match encoded_length content with
                | Raise e => (write_text_handler e, m2)
                | Ok n =>
                    (mk_output true
                       (VDict [(py "path", VStr (path_str path));
                               (py "bytes_written", VInt n)])
                       None, m2)
                end
            end
        end
    end
  end
  end.

(** The [except] clauses of [_list_dir], in order. *)
Definition list_dir_handler (path : value) (e : exn) : ToolOutput :=
  match exn_cls e with
  | ToolError => fail_output (exn_str e)
  | FileNotFoundError =>
      fail_output (py "Directory not found: " ++ format_value host_repr path)
  | PermissionError =>
      fail_output (py "Permission denied: " ++ format_value host_repr path)
  | _ => fail_output (py "Error listing directory: " ++ exn_str e)
  end.

(** [entry.stat().st_size if entry.is_file() else None] *)
Definition entry_size (entry : fspath) (m : machine World)
    : result value * machine World :=
  let (r1, m1) := is_file entry m in
  match r1 with
  | Raise x => (Raise x, m1)
  | Ok false => (Ok VNone, m1)
  | Ok true =>
      let (r2, m2) := stat_size entry m1 in
      match r2 with
      | Raise x => (Raise x, m2)
      | Ok n => (Ok (VInt n), m2)
      end
  end.

(** The dictionary built for one matching entry: its items are
    evaluated in the order in which they are written, the entry being
    probed with [is_dir], [is_file], [is_file] again and, for a file,
    [stat]. *)
Definition describe_entry (self : t) (dir : fspath) (nm : pystr)
    (m : machine World) : result value * machine World :=
  let entry := path_child dir nm in
  match relative_to entry (workspace_root self) with
  | Raise x => (Raise x, m)
  | Ok rel =>
      let (r1, m1) := is_dir entry m in
      match r1 with
      | Raise x => (Raise x, m1)
      | Ok entry_is_dir =>
          let (r2, m2) := is_file entry m1 in
          match r2 with
          | Raise x => (Raise x, m2)
          | Ok entry_is_file =>
              let (r3, m3) := entry_size entry m2 in
              match r3 with
              | Raise x => (Raise x, m3)
              | Ok size =>
                  (Ok (VDict [(py "name", VStr nm);
                              (py "path", VStr (rel_path_str rel));
                              (py "is_dir", VBool entry_is_dir);
                              (py "is_file", VBool entry_is_file);
                              (py "size", size)]), m3)
              end
          end
      end
  end.

(** The loop over [path.iterdir()]. *)
Fixpoint list_entries (self : t) (dir : fspath) (pattern : value)
    (names : list pystr) (m : machine World)
    : result (list value) * machine World :=
  match names with
  | [] => (Ok [], m)
  | nm :: rest =>
      match host_fnmatch nm pattern with
      | Raise x => (Raise x, m)
      | Ok false => list_entries self dir pattern rest m
      | Ok true =>
          let (r1, m1) := describe_entry self dir nm m in
          match r1 with
          | Raise x => (Raise x, m1)
          | Ok entry =>
              let (r2, m2) := list_entries self dir pattern rest m1 in
              match r2 with
              | Raise x => (Raise x, m2)
              | Ok tl => (Ok (entry :: tl), m2)
              end
          end
      end
  end.

Definition _list_dir (self : t) (inputs : dict) (m : machine World)
    : ToolOutput * machine World :=
  match dict_get inputs (py "path") with
  | None => (fail_output (py "Missing 'path' in inputs"), m)
  | Some p =>
      match _resolve_path self p m with
      | Raise e => (list_dir_handler p e, m)
      | Ok path =>
          let (r1, m1) := is_dir path m in
          match r1 with
          | Raise e => (list_dir_handler p e, m1)
          | Ok false =>
              (fail_output (py "Path is not a directory: "
                              ++ format_value host_repr p), m1)
          | Ok true =>
              let pattern :=
                dict_get_default inputs (py "pattern") (VStr (py "*")) in
              let (r2, m2) := iterdir path m1 in
              match r2 with
              | Raise e => (list_dir_handler p e, m2)
              | Ok names =>
                  let (r3, m3) := list_entries self path pattern names m2 in
                  match r3 with
                  | Raise e => (list_dir_handler p e, m3)
                  | Ok entries =>
                      (mk_output true
                         (VDict [(py "path", VStr (path_str path));
                                 (py "entries", VList entries);
                                 (py "count",
                                  VInt (Z.of_nat (length entries)))])
                         None, m3)
                  end
              end
          end
      end
  end.

Definition execute (self : t) (inputs : dict) (m : machine World)
    : ToolOutput * machine World :=
  let action := dict_get_default inputs (py "action") VNone in
  if is_str action (py "read_text") then _read_text self inputs m
  else if is_str action (py "write_text") then _write_text self inputs m
  else if is_str action (py "list_dir") then _list_dir self inputs m
  else
    (fail_output (py "Unknown action: " ++ format_value host_repr action
                    ++ py ". Valid actions: read_text, write_text, list_dir"),
     m).

(** The tool as the registry holds it. *)
Definition as_tool (self : t) : Tool World :=
  mk_tool name (fun inputs m =>
                  let (out, m') := execute self inputs m in (Ok out, m')).
End Methods.
End FileTool.

(** ** tools/shell_tool.py *)

Module ShellTool.
Record t : Type := mk { whitelist : gset pystr; blacklist : gset pystr }.

(** [set(names or fallback)]: [None] and the empty list both fall back
    to the settings. *)
Definition names_or (names : option (list pystr)) (fallback : list pystr)
    : gset pystr :=
  match names with
  | Some (n :: ns) => list_to_set (n :: ns)
  | _ => list_to_set fallback
  end.

Definition init (whitelist blacklist : option (list pystr))
    (settings : Settings) : t :=
  mk (names_or whitelist (shell_whitelist settings))
     (names_or blacklist (shell_blacklist settings)).

Definition dangerous_patterns : list pystr :=
  [py "rm -rf /"; py "rm -rf /*"; py "> /"; py "dd if="; py "mkfs";
   py ":(){:|:&};:"].

Section Methods.
Context {World : Type} `{Host World}.

Definition name : pystr := py "shell".

Definition blacklisted_message (base_cmd : pystr) : pystr :=
  py "Command '" ++ base_cmd ++ py "' is not allowed (blacklisted)".

Definition timed_out_message (timeout : value) : pystr :=
  py "Command timed out after " ++ format_value host_repr timeout
    ++ py " seconds".

(** The statements after the three policy checks: the subprocess call
    and its [except] clauses. *)
Definition run_command (cmd : pystr) (timeout : value) (m : machine World)
    : ToolOutput * machine World :=
  let (r, m1) := subprocess_run cmd timeout m in
  match r with
  | Ok p =>
      (mk_output (Z.eqb (cp_returncode p) 0)
         (VDict [(py "stdout", VStr (cp_stdout p));
                 (py "stderr", VStr (cp_stderr p));
                 (py "return_code", VInt (cp_returncode p));
                 (py "command", VStr cmd)])
         (if negb (Z.eqb (cp_returncode p) 0) then Some (cp_stderr p)
          else None), m1)
  | Raise e =>
      match exn_cls e with
      | TimeoutExpired => (fail_output (timed_out_message timeout), m1)
      | _ => (fail_output (py "Error executing command: " ++ exn_str e), m1)
      end
  end.

Definition execute (self : t) (inputs : dict) (m : machine World)
    : result ToolOutput * machine World :=
  match dict_get inputs (py "cmd") with
  | None => (Ok (fail_output (py "Missing 'cmd' in inputs")), m)
  | Some cmd =>
      let timeout := dict_get_default inputs (py "timeout") (VInt 30) in
      match host_shlex_split cmd with
      | Raise e =>
          match exn_cls e with
          | ValueError =>
              (Ok (fail_output (py "Invalid command syntax: " ++ exn_str e)),
               m)
          | _ => (Raise e, m)
          end
      | Ok [] => (Ok (fail_output (py "Empty command")), m)
      | Ok (base_cmd :: _) =>
          if bool_decide (base_cmd ∈ blacklist self) then
            (Ok (fail_output (blacklisted_message base_cmd)), m)
          else if negb (bool_decide (base_cmd ∈ whitelist self)) then
            (Ok (fail_output
                   (py "Command '" ++ base_cmd
                      ++ py "' is not in the allowed list: "
                      ++ host_repr_sorted (whitelist self))), m)
          else
            match cmd with
            | VStr cmd_s =>
                let cmd_lower := host_lower cmd_s in
                match find (fun pattern => str_contains cmd_lower pattern)
                        dangerous_patterns with
                | Some pattern =>
                    (Ok (fail_output
                           (py "Command contains dangerous pattern: "
                              ++ pattern)), m)
                | None =>
                    let (out, m1) := run_command cmd_s timeout m in
                    (Ok out, m1)
                end
            | _ =>
                (Raise (mk_exn AttributeError
                          (py "object has no attribute 'lower'")), m)
            end
      end
  end.

Definition as_tool (self : t) : Tool World := mk_tool name (execute self).
End Methods.
End ShellTool.

(** ** models/plan.py *)

(** Modelled from the spec: [models/plan.py] ([RiskLevel], [Step],
    [Plan]) is not among the sources. The spec gives a plan as
    "{goal: string, risk_level: enum{LOW,MEDIUM,HIGH}, workspace_root:
    path, steps: ordered sequence of Step, success_criteria: sequence of
    string}" and a step as "{id: string, description: string, tool:
    string, inputs: mapping string to JSON-value, produces: optional
    string label}"; the tests build them with exactly these fields. *)
Inductive RiskLevel : Type := LOW | MEDIUM | HIGH.

(** Modelled from the spec: [risk_level.value], the name of the level
    (the example [ExecutionResult] of [models/trace.py] has
    ["plan_risk_level": "LOW"]). *)
Definition RiskLevel_value (r : RiskLevel) : pystr :=
  match r with
  | LOW => py "LOW"
  | MEDIUM => py "MEDIUM"
  | HIGH => py "HIGH"
  end.

Module Step.
Record t : Type := mk {
  id : pystr;
  description : pystr;
  tool : pystr;
  inputs : dict;
  produces : option pystr
}.
End Step.

Module Plan.
Record t : Type := mk {
  goal : pystr;
  risk_level : RiskLevel;
  workspace_root : pystr;
  steps : list Step.t;
  success_criteria : list pystr
}.
End Plan.

(** [model_dump_json] of the three pydantic models that are persisted. *)
Class Serializer : Type := {
  plan_json : Plan.t -> pystr;
  trace_json : TraceEntry.t -> pystr;
  result_json : ExecutionResult.t -> pystr
}.

(** ** executor.py *)

Definition newline : pystr := [10].

Module Executor.
Record t (World : Type) : Type := mk {
  workspace_root : fspath;
  runs_dir : fspath;
  tool_registry : gmap pystr (Tool World);
  _step_outputs : gmap pystr value
}.
Arguments mk {World} _ _ _ _.
Arguments workspace_root {World} _.
Arguments runs_dir {World} _.
Arguments tool_registry {World} _.
Arguments _step_outputs {World} _.

(** [self._step_outputs[k] = v] *)
Definition record_output {World} (self : t World) (k : pystr) (v : value)
    : t World :=
  mk (workspace_root self) (runs_dir self) (tool_registry self)
     (<[k := v]> (_step_outputs self)).

(** *** Reference resolution *)

(** The branch of [_resolve_inputs] for a [str] value: what is stored
    under the key. *)
Definition resolve_str (outs : gmap pystr value) (val : pystr) : value :=
  if str_startswith val (py "ref:step:") then
    let parts := str_split val colon in
    if (3 <=? length parts)%nat then
      let step_id := nth 2 parts [] in
      match outs !! step_id with
      | Some step_output =>
          match step_output with
          | VDict d =>
              match dict_get d (py "content") with
              | Some content => content
              | None => step_output
              end
          | _ => step_output
          end
      | None => VStr val
      end
    else VStr val
  else VStr val.

(** One element of the list comprehension
    [[self._resolve_inputs({k: v})["k"] if isinstance(v, dict) else v
      for v in value]]: for a [dict] element the display [{k: v}] is
    evaluated first, and no name [k] is bound in the comprehension, in
    [_resolve_inputs] or in the module, so the lookup of [k] raises
    [NameError]; any other element is kept as it is. *)
Definition resolve_list_element (v : value) : result value :=
  match v with
  | VDict _ => Raise (mk_exn NameError (py "name 'k' is not defined"))
  | _ => Ok v
  end.

Fixpoint resolve_list (l : list value) : result (list value) :=
  match l with
  | [] => Ok []
  | v :: rest =>
      match resolve_list_element v with
      | Raise e => Raise e
      | Ok v' =>
          match resolve_list rest with
          | Raise e => Raise e
          | Ok rest' => Ok (v' :: rest')
          end
      end
  end.

Section ResolveLoop.
Variable outs : gmap pystr value.
(** the recursive call [self._resolve_inputs(value)] on a nested
    [dict] value *)
Variable resolve_nested : value -> result dict.

(** The [for key, value in inputs.items()] loop; [resolved] is the
    dictionary being filled. *)
Fixpoint resolve_loop (items : list (pystr * value)) (resolved : dict)
    : result dict :=
  match items with
  | [] => Ok resolved
  | (key, val) :: rest =>
      match val with
      | VStr s => resolve_loop rest (dict_set resolved key (resolve_str outs s))
      | VDict _ =>
          match resolve_nested val with
          | Raise e => Raise e
          | Ok d => resolve_loop rest (dict_set resolved key (VDict d))
          end
      | VList l =>
          match resolve_list l with
          | Raise e => Raise e
          | Ok l' => resolve_loop rest (dict_set resolved key (VList l'))
          end
      | _ => resolve_loop rest (dict_set resolved key val)
      end
  end.
End ResolveLoop.

(** [_resolve_inputs] on the [dict] carried by a value; the function
    is only ever applied to a [dict]. *)
Fixpoint resolve_dict (outs : gmap pystr value) (v : value) : result dict :=
  match v with
  | VDict d => resolve_loop outs (resolve_dict outs) d []
  | _ => Ok []
  end.

Definition _resolve_inputs {World} (self : t World) (inputs : dict)
    : result dict :=
  resolve_dict (_step_outputs self) (VDict inputs).
(** *** Persistence *)

Section Run.
Context {World : Type} `{Host World} `{Serializer}.

(** [__init__], given the two directories already resolved: it creates
    [runs_dir], takes the registry or an empty one, and starts with no
    recorded output. *)
Definition init (tool_registry : option (gmap pystr (Tool World)))
    (workspace_root runs_dir : fspath) (m : machine World)
    : result (t World) * machine World :=
  let (r, m1) := mkdir runs_dir m in
  match r with
  | Raise e => (Raise e, m1)
  | Ok _ =>
      (Ok (mk workspace_root runs_dir
             (match tool_registry with Some reg => reg | None => ∅ end) ∅),
       m1)
  end.

Definition _make_digest (data : dict) : pystr := host_digest data.

Definition _save_plan (self : t World) (plan : Plan.t) (m : machine World)
    : result fspath * machine World :=
  let (ts, m1) := timestamp m in
  let run_dir := path_child (runs_dir self) ts in
  let (r1, m2) := mkdir run_dir m1 in
  match r1 with
  | Raise e => (Raise e, m2)
  | Ok _ =>
      let (r2, m3) :=
        write_text (path_child run_dir (py "plan.json"))
          (VStr (plan_json plan)) m2 in
      match r2 with
      | Raise e => (Raise e, m3)
      | Ok _ => (Ok run_dir, m3)
      end
  end.

(** The lines written to [trace.jsonl]. *)
Definition trace_lines (traces : list TraceEntry.t) : pystr :=
  concat (map (fun trace => trace_json trace ++ newline) traces).

Definition _save_traces (run_dir : fspath) (res : ExecutionResult.t)
    (m : machine World) : result unit * machine World :=
  let (r1, m1) :=
    write_text (path_child run_dir (py "trace.jsonl"))
      (VStr (trace_lines (ExecutionResult.traces res))) m in
  match r1 with
  | Raise e => (Raise e, m1)
  | Ok _ =>
      write_text (path_child run_dir (py "result.json"))
        (VStr (result_json res)) m1
  end.

(** *** The step loop *)

(** What the loop of [execute_plan] carries from one iteration to the
    next: the executor (for [_step_outputs]), the result being filled
    and the machine. *)
Record loop_state : Type := mk_loop {
  ls_self : t World;
  ls_result : ExecutionResult.t;
  ls_machine : machine World
}.

Definition dry_run_output : value := VDict [(py "dry_run", VBool true)].

(** [trace.mark_failure(msg)] followed by [break]. *)
Definition fail_step (self : t World) (res : ExecutionResult.t)
    (trace : TraceEntry.t) (msg : pystr) (m : machine World)
    : bool * loop_state :=
  let (trace', m') := TraceEntry.mark_failure trace msg m in
  (false, mk_loop self (ExecutionResult.set_current res trace') m').

(** [output.error or "Unknown error"] *)
Definition error_or_unknown (err : option pystr) : pystr :=
  match err with
  | Some (c :: s) => c :: s
  | _ => py "Unknown error"
  end.

(** [output.data or {}] *)
Definition data_or_empty (d : value) : value :=
  if truthy d then d else VDict [].

(** The [path] of a successful payload, when the payload is a non-empty
    [dict] with that key. *)
Definition produced_path (d : value) : option value :=
  match d with
  | VDict items => if truthy d then dict_get items (py "path") else None
  | _ => None
  end.

(** The body of the [for] loop. The flag is [true] when the loop goes on
    to the next step and [false] on [break]. *)
Definition run_step (dry_run : bool) (st : loop_state) (step : Step.t)
    : bool * loop_state :=
  let self := ls_self st in
  let (trace, m1) :=
    TraceEntry.create (Step.id step) (Step.tool step)
      (_make_digest (Step.inputs step)) (Step.inputs step) (ls_machine st) in
  let res := ExecutionResult.add_trace (ls_result st) trace in
  if dry_run then
    let (trace1, m2) := TraceEntry.mark_success trace dry_run_output m1 in
    (true, mk_loop (record_output self (Step.id step) dry_run_output)
             (ExecutionResult.set_current res trace1) m2)
  else
    match _resolve_inputs self (Step.inputs step) with
    | Raise e => fail_step self res trace (exn_str e) m1
    | Ok resolved_inputs =>
        match ToolRegistry.get (tool_registry self) (Step.tool step) with
        | None =>
            fail_step self res trace
              (py "Tool '" ++ Step.tool step ++ py "' not found in registry") m1
        | Some tool =>
            let (trace1, m2) := TraceEntry.mark_started trace m1 in
            let result1 := ExecutionResult.set_current res trace1 in
            let (r, m3) := tool_execute tool resolved_inputs m2 in
            match r with
            | Raise e => fail_step self result1 trace1 (exn_str e) m3
            | Ok output =>
                let self1 := record_output self (Step.id step) (data output) in
                if success output then
                  let (trace2, m4) :=
                    TraceEntry.mark_success trace1
                      (data_or_empty (data output)) m3 in
                  let result2 := ExecutionResult.set_current result1 trace2 in
                  (true,
                   mk_loop self1
                     (match produced_path (data output) with
                      | Some p => ExecutionResult.add_produced result2 p
                      | None => result2
                      end) m4)
                else
                  fail_step self1 result1 trace1
                    (error_or_unknown (error output)) m3
            end
        end
    end.

(** [for i, step in enumerate(plan.steps): ...] with its [break]. *)
Fixpoint run_steps (dry_run : bool) (steps : list Step.t) (st : loop_state)
    : loop_state :=
  match steps with
  | [] => st
  | step :: rest =>
      let (continue, st') := run_step dry_run st step in
      if continue then run_steps dry_run rest st' else st'
  end.

(** The [ExecutionResult] built at the top of [execute_plan]. *)
Definition initial_result (self : t World) (plan : Plan.t) (start : pystr)
    : ExecutionResult.t :=
  ExecutionResult.mk (Plan.goal plan) (RiskLevel_value (Plan.risk_level plan))
    (path_str (workspace_root self)) (Z.of_nat (length (Plan.steps plan)))
    0 0 0 PENDING start None [] None [].

(** [execute_plan] returns the result, or raises what [_save_plan] or
    [_save_traces] raised; the executor and the machine are returned as
    the call leaves them. *)
Definition execute_plan (self : t World) (plan : Plan.t) (dry_run : bool)
    (m : machine World)
    : result ExecutionResult.t * t World * machine World :=
  let (start, m0) := now m in
  let res := initial_result self plan start in
  let (r1, m1) := _save_plan self plan m0 in
  match r1 with
  | Raise e => (Raise e, self, m1)
  | Ok run_dir =>
      let st := run_steps dry_run (Plan.steps plan) (mk_loop self res m1) in
      let (result', m2) := ExecutionResult.finalize (ls_result st) (ls_machine st) in
      let (r2, m3) := _save_traces run_dir result' m2 in
      match r2 with
      | Raise e => (Raise e, ls_self st, m3)
      | Ok _ => (Ok result', ls_self st, m3)
      end
  end.
End Run.
End Executor.

(** ** A small concrete host

    An in-memory filesystem without symbolic links, a fixed clock and a
    three-command process table.  It instantiates the abstract host
    wherever a statement is exercised on concrete data. *)

Module SimHost.

(** The files of the world, by absolute path. *)
Definition World := list (fspath * pystr).

Fixpoint lookup_file (p : fspath) (w : World) : option pystr :=
  match w with
  | [] => None
  | (q, c) :: w' => if bool_decide (q = p) then Some c else lookup_file p w'
  end.

Fixpoint store_file (p : fspath) (c : pystr) (w : World) : World :=
  match w with
  | [] => [(p, c)]
  | (q, c') :: w' =>
      if bool_decide (q = p) then (p, c) :: w' else (q, c') :: store_file p c w'
  end.

(** [..] pops a component, [.] and the empty component vanish: what
    [resolve] computes when no component is a symbolic link. *)
Fixpoint normalize (acc : fspath) (components : list pystr) : fspath :=
  match components with
  | [] => acc
  | c :: rest =>
      if pystr_eqb c (py "..") then normalize (removelast acc) rest
      else if pystr_eqb c (py ".") || pystr_eqb c [] then normalize acc rest
      else normalize (acc ++ [c]) rest
  end.

Definition resolve (w : World) (root : fspath) (path : value) : result fspath :=
  match path with
  | VStr s =>
      if str_startswith s slash then Ok (normalize [] (str_split s 47))
      else Ok (normalize root (str_split s 47))
  | _ => Raise (mk_exn TypeError (py "unsupported operand type(s) for /"))
  end.

Definition lower_char (c : N) : N :=
  if (65 <=? c) && (c <=? 90) then c + 32 else c.

Definition shlex_split (cmd : value) : result (list pystr) :=
  match cmd with
  | VStr s =>
      Ok (filter (fun tok => negb (pystr_eqb tok [])) (str_split s 32))
  | _ => Raise (mk_exn AttributeError (py "object has no attribute 'read'"))
  end.

Definition repr (v : value) : pystr :=
  match v with
  | VNone => py "None"
  | VBool true => py "True"
  | VBool false => py "False"
  | VInt 30 => py "30"
  | VInt 5 => py "5"
  | _ => py "<value>"
  end.

(** [ls] prints and succeeds, [grep] fails with status 1, [python3]
    runs into the timeout, anything else cannot be started. *)
Definition run (cmd : pystr) (timeout : value) (w : World)
    : result completed * World :=
  if str_startswith cmd (py "ls") then
    (Ok (mk_completed (py "notes.txt") [] 0), w)
  else if str_startswith cmd (py "grep") then
    (Ok (mk_completed [] (py "grep: no match") 1), w)
  else if str_startswith cmd (py "python3") then
    (Raise (mk_exn TimeoutExpired (py "timed out")), w)
  else (Raise (mk_exn OSError (py "cannot start")), w).

#[global] Instance host : Host World := {
  host_now w := (py "2025-01-25T12:00:00", w);
  host_timestamp w := (py "20250125-120000", w);
  host_resolve := resolve;
  host_read_text p w :=
    match lookup_file p w with
    | Some c => (Ok c, w)
    | None => (Raise (mk_exn FileNotFoundError (py "No such file or directory")), w)
    end;
  host_write_text p content w :=
    match content with
    | VStr s => (Ok tt, store_file p s w)
    | _ => (Raise (mk_exn TypeError (py "data must be str")), w)
    end;
  host_append_text p content w :=
    match content with
    | VStr s =>
        (Ok tt,
         store_file p (match lookup_file p w with Some c => c | None => [] end ++ s) w)
    | _ => (Raise (mk_exn TypeError (py "write() argument must be str")), w)
    end;
  host_mkdir p w := (Ok tt, w);
  host_is_dir p w :=
    (Ok (existsb (fun f => is_descendant (path_parent (fst f)) p) w), w);
  host_is_file p w :=
    (Ok (match lookup_file p w with Some _ => true | None => false end), w);
  host_stat_size p w :=
    match lookup_file p w with
    | Some c => (Ok (Z.of_nat (length c)), w)
    | None => (Raise (mk_exn FileNotFoundError (py "No such file or directory")), w)
    end;
  host_iterdir p w :=
    (Ok (map (fun f => List.last (fst f) [])
           (filter (fun f => bool_decide (path_parent (fst f) = p)) w)), w);
  host_fnmatch nm pattern :=
    match pattern with
    | VStr s => Ok (pystr_eqb s (py "*") || pystr_eqb s nm)
    | _ => Raise (mk_exn TypeError (py "expected str"))
    end;
  host_shlex_split := shlex_split;
  host_lower := map lower_char;
  host_repr := repr;
  host_repr_sorted names := py "[...]";
  host_run := run;
  host_digest d := py "0123456789abcdef"
}.

#[global] Instance serializer : Serializer := {
  plan_json p := py "{plan}";
  trace_json t := py "{trace}";
  result_json r := py "{result}"
}.

Definition start : machine World := mk_machine [] [].

(** A tool that returns its inputs as its payload. *)
Definition echo : Tool World :=
  mk_tool (py "echo") (fun inputs m => (Ok (mk_output true (VDict inputs) None), m)).

(** A tool that reports failure through its [ToolOutput]. *)
Definition refuse : Tool World :=
  mk_tool (py "refuse")
    (fun inputs m => (Ok (fail_output (py "refused")), m)).

(** A tool that raises. *)
Definition crash : Tool World :=
  mk_tool (py "crash")
    (fun inputs m => (Raise (mk_exn RuntimeError (py "boom")), m)).

Definition registry : gmap pystr (Tool World) :=
  <[py "echo" := echo]> (<[py "refuse" := refuse]> (<[py "crash" := crash]> ∅)).

Definition executor : Executor.t World :=
  Executor.mk [py "ws"] [py "runs"] registry ∅.

Definition step (id tool : string) (inputs : dict) : Step.t :=
  Step.mk (py id) (py "a step") (py tool) inputs None.

Definition plan (steps : list Step.t) : Plan.t :=
  Plan.mk (py "goal") LOW (py "/ws") steps [].

(** Two steps; the first one is refused. *)
Definition plan_refused_first : Plan.t :=
  plan [step "1" "refuse" []; step "2" "echo" []].

(** Three steps: a success, a tool that raises, a step never reached. *)
Definition plan_crash_second : Plan.t :=
  plan [step "1" "echo" [(py "content", VStr (py "Hello"))];
        step "2" "crash" [(py "text", VStr (py "ref:step:1"))];
        step "3" "echo" []].

(** A first plan records an output under step id 1 ... *)
Definition plan_a : Plan.t :=
  plan [step "1" "echo" [(py "content", VStr (py "from plan A"))]].

(** ... and a later plan, which has no step 1, refers to it. *)
Definition plan_b : Plan.t :=
  plan [step "2" "echo" [(py "msg", VStr (py "ref:step:1"))]].

(** The executor as the run of [plan_a] leaves it. *)
Definition executor_after_a : Executor.t World :=
  snd (fst (Executor.execute_plan executor plan_a false start)).

Definition machine_after_a : machine World :=
  snd (Executor.execute_plan executor plan_a false start).

End SimHost.

(** ** Observations on a run

    The vocabulary of the statements below: when a step fails and with
    which message, and the state in which the step loop is entered. *)

Section Observations.
Context {World : Type} `{Host World} `{Serializer}.

(** The machine after one reading of the clock. *)
Definition tick (m : machine World) : machine World := snd (now m).

(** Why a step fails at the per-step boundary of [execute_plan]. *)
Inductive failure : Type :=
| InputsRaised (e : exn)          (* an exception while resolving the inputs *)
| ToolNotFound (name : pystr)     (* the registry has no tool of that name *)
| ToolRaised (e : exn)            (* an exception raised inside the tool *)
| ToolFailed (output : ToolOutput) (* the tool returned a failed output *).

(** The message that the trace entry of a failed step has to carry:
    the text of the exception, the sentence naming the missing tool,
    and for a failed [ToolOutput] the error that the tool reported; a
    tool that reports no error text, [None] or the empty string, is
    recorded as "Unknown error". *)
Definition failure_message (f : failure) : pystr :=
  match f with
  | InputsRaised e => exn_str e
  | ToolNotFound name => py "Tool '" ++ name ++ py "' not found in registry"
  | ToolRaised e => exn_str e
  | ToolFailed output =>
      match error output with
      | None => py "Unknown error"
      | Some msg => if pystr_eqb msg [] then py "Unknown error" else msg
      end
  end.

(** The outcome of dispatching [step] when the loop reaches it on
    machine [m]: [None] when the tool is found, returns without raising
    and reports success; otherwise the cause of the failure.  The tool
    runs after the two clock readings of the trace entry ([start_time]
    at construction and in [mark_started]). *)
Definition step_failure (self : Executor.t World) (step : Step.t)
    (m : machine World) : option failure :=
  match Executor._resolve_inputs self (Step.inputs step) with
  | Raise e => Some (InputsRaised e)
  | Ok resolved_inputs =>
      match ToolRegistry.get (Executor.tool_registry self) (Step.tool step) with
      | None => Some (ToolNotFound (Step.tool step))
      | Some tool =>
          match fst (tool_execute tool resolved_inputs (tick (tick m))) with
          | Raise e => Some (ToolRaised e)
          | Ok output =>
              if success output then None else Some (ToolFailed output)
          end
      end
  end.

(** The state in which [execute_plan] enters its loop. *)
Definition entry_state (self : Executor.t World) (plan : Plan.t)
    (m : machine World) : Executor.loop_state :=
  let (start, m0) := now m in
  let (_, m1) := Executor._save_plan self plan m0 in
  Executor.mk_loop self (Executor.initial_result self plan start) m1.

(** Steps [1..k] of [steps] succeed and step [k+1] fails, each step
    being dispatched in the state its predecessors leave. *)
Fixpoint succeed_then_fail (k : nat) (st : Executor.loop_state)
    (steps : list Step.t) {struct steps} : bool :=
  match steps with
  | [] => false
  | step :: rest =>
      match k, step_failure (Executor.ls_self st) step (Executor.ls_machine st) with
      | O, Some _ => true
      | S k', None =>
          succeed_then_fail k' (snd (Executor.run_step false st step)) rest
      | _, _ => false
      end
  end.

(** The first step that fails, with the cause, if any does. *)
Fixpoint first_failure (st : Executor.loop_state) (steps : list Step.t)
    : option (Step.t * failure) :=
  match steps with
  | [] => None
  | step :: rest =>
      match step_failure (Executor.ls_self st) step (Executor.ls_machine st) with
      | Some f => Some (step, f)
      | None => first_failure (snd (Executor.run_step false st step)) rest
      end
  end.

(** The persistence layer works: below [runs_dir], directories can be
    created and text can be written. *)
Definition persistence_ok (self : Executor.t World) : Prop :=
  (forall p w, is_descendant p (Executor.runs_dir self) = true ->
               exists w', host_mkdir p w = (Ok tt, w')) /\
  (forall p s w, is_descendant p (Executor.runs_dir self) = true ->
                 exists w', host_write_text p (VStr s) w = (Ok tt, w')).

(** The last entry of a trace list. *)
Definition last_trace (traces : list TraceEntry.t) : option TraceEntry.t :=
  match rev traces with
  | [] => None
  | t :: _ => Some t
  end.
End Observations.

(** The inputs a [write_text] call must carry before the path is looked
    at: a [content] and, when given, a [mode] among the two known
    ones. The other actions need nothing beyond the path. *)
Definition call_well_formed (action : pystr) (inputs : dict) : bool :=
  if pystr_eqb action (py "write_text") then
    dict_has inputs (py "content") &&
    (let mode := dict_get_default inputs (py "mode") (VStr (py "overwrite")) in
     is_str mode (py "overwrite") || is_str mode (py "append"))
  else true.

(** No [ref:step:] string among the values of the dictionaries, at any
    depth, and no [dict] inside a list. *)
Fixpoint plain (v : value) : bool :=
  match v with
  | VStr s => negb (str_startswith s (py "ref:step:"))
  | VList l => forallb (fun x => match x with VDict _ => false | _ => true end) l
  | VDict d => forallb (fun kv => plain (snd kv)) d
  | _ => true
  end.

(** No [ref:step:] string at any depth (lists included). *)
Fixpoint ref_free (v : value) : bool :=
  match v with
  | VStr s => negb (str_startswith s (py "ref:step:"))
  | VList l => forallb ref_free l
  | VDict d => forallb (fun kv => ref_free (snd kv)) d
  | _ => true
  end.

(** The keys of a [dict] value are pairwise distinct, at every depth. *)
Fixpoint keys_unique (v : value) : bool :=
  match v with
  | VList l => forallb keys_unique l
  | VDict d =>
      bool_decide (NoDup (map fst d)) && forallb (fun kv => keys_unique (snd kv)) d
  | _ => true
  end.

(** ** Further observations *)

(** The executor with another registry and everything else as it is. *)
Definition with_registry {World : Type} (self : Executor.t World)
    (registry : gmap pystr (Tool World)) : Executor.t World :=
  Executor.mk (Executor.workspace_root self) (Executor.runs_dir self)
    registry (Executor._step_outputs self).

(** What identifies a trace entry, and the same for a step. *)
Definition trace_identity (t : TraceEntry.t) : pystr * pystr * pystr * dict :=
  (TraceEntry.step_id t, TraceEntry.tool t, TraceEntry.inputs_digest t,
   TraceEntry.inputs t).

Definition step_identity {World : Type} `{Host World} (s : Step.t)
    : pystr * pystr * pystr * dict :=
  (Step.id s, Step.tool s, host_digest (Step.inputs s), Step.inputs s).

(** No list, among the values of a dictionary at any depth, holds a
    dictionary. *)
Fixpoint lists_hold_no_dict (v : value) : bool :=
  match v with
  | VList l => forallb (fun x => match x with VDict _ => false | _ => true end) l
  | VDict d => forallb (fun kv => lists_hold_no_dict (snd kv)) d
  | _ => true
  end.

(** The text of [s] before its first colon, all of [s] when it has
    none. *)
Fixpoint until_colon (s : pystr) : pystr :=
  match s with
  | [] => []
  | c :: s' => if N.eqb c colon then [] else c :: until_colon s'
  end.

(** The values that [_resolve_inputs] copies: everything but a
    reference string and a dictionary; a list is copied when it holds
    no dictionary. *)
Definition copied (v : value) : bool :=
  match v with
  | VStr s => negb (str_startswith s (py "ref:step:"))
  | VList l => forallb (fun x => match x with VDict _ => false | _ => true end) l
  | VDict _ => false
  | _ => true
  end.

(** Two items have the same key, and the same value when the value is
    one that is copied. *)
Definition item_kept (kv kv' : pystr * value) : Prop :=
  fst kv' = fst kv /\ (copied (snd kv) = true -> snd kv' = snd kv).

(** The path a call of the file tool works on: its [path] input,
    resolved against the workspace root, when the input is given and
    the resolved path passes the confinement check. *)
Definition file_target {World : Type} `{Host World} (self : FileTool.t)
    (inputs : dict) (m : machine World) : option fspath :=
  match dict_get inputs (py "path") with
  | None => None
  | Some path =>
      match FileTool._resolve_path self path m with
      | Ok resolved => Some resolved
      | Raise _ => None
      end
  end.

(** What a call of the file tool may do when its target is [p]: read,
    write, append to or list [p] itself, create the parent directory of
    [p], test [p] with [is_dir], and probe an entry of [p], that is a
    path [p / name], with [is_dir], [is_file] or [stat]. *)
Definition call_on_target (p : fspath) (c : syscall) : Prop :=
  match c with
  | SysRead q | SysWrite q _ | SysAppend q _ | SysIterDir q => q = p
  | SysMkdir q => q = path_parent p
  | SysIsDir q => q = p \/ exists name, q = path_child p name
  | SysIsFile q | SysStat q => exists name, q = path_child p name
  | SysRun _ => False
  end.

(** [m'] is reached from [m] by calls that all satisfy [ok]. *)
Definition reached_by {World : Type} (ok : syscall -> Prop)
    (m m' : machine World) : Prop :=
  exists new, calls m' = calls m ++ new /\ Forall ok new.

(** The calls that change the filesystem. *)
Definition is_mutation (c : syscall) : bool :=
  match c with
  | SysWrite _ _ | SysAppend _ _ | SysMkdir _ => true
  | _ => false
  end.

(** A call on the target [p] that changes nothing. *)
Definition probe_ok (p : fspath) (c : syscall) : Prop :=
  call_on_target p c /\ is_mutation c = false.

(** The [name] of an entry of a directory listing. *)
Definition entry_name (entry : value) : option value :=
  match entry with
  | VDict d => dict_get d (py "name")
  | _ => None
  end.

(** The names of a directory listing that match the pattern. *)
Definition matching_names {World : Type} `{Host World} (pattern : value)
    (names : list pystr) : list pystr :=
  List.filter (fun name => match host_fnmatch name pattern with
                           | Ok true => true
                           | _ => false
                           end) names.

(** [create_default_executor], given the two directories resolved and
    the settings: a new executor on a new registry, in which the file
    tool and the shell tool are registered. *)
Definition create_default_executor {World : Type} `{Host World}
    (workspace_root runs_dir : fspath) (settings : Settings)
    (m : machine World) : result (Executor.t World) * machine World :=
  let (r, m1) := Executor.init None workspace_root runs_dir m in
  match r with
  | Raise e => (Raise e, m1)
  | Ok executor =>
      match ToolRegistry.register (Executor.tool_registry executor)
              (FileTool.as_tool (FileTool.mk workspace_root)) with
      | Raise e => (Raise e, m1)
      | Ok registry1 =>
          match ToolRegistry.register registry1
                  (ShellTool.as_tool (ShellTool.init None None settings)) with
          | Raise e => (Raise e, m1)
          | Ok registry2 => (Ok (with_registry executor registry2), m1)
          end
      end
  end.

(** The inputs that the file tool refuses before it looks at the
    filesystem: an action that is none of the three, no [path], and for
    [write_text] no [content] or a [mode] that is neither [overwrite]
    nor [append]. *)
Definition file_call_malformed (inputs : dict) : bool :=
  let action := dict_get_default inputs (py "action") VNone in
  if is_str action (py "read_text") || is_str action (py "list_dir") then
    negb (dict_has inputs (py "path"))
  else if is_str action (py "write_text") then
    negb (dict_has inputs (py "path"))
    || negb (call_well_formed (py "write_text") inputs)
  else true.

(** ** executor.py: loading what was saved *)

(** [model_validate_json] of the two pydantic models that are loaded
    back. *)
Class Parser : Type := {
  plan_parse : pystr -> result Plan.t;
  result_parse : pystr -> result ExecutionResult.t
}.

Section Loading.
Context {World : Type} `{Host World} `{Parser}.

(** [load_plan]: whatever goes wrong is raised again as a
    [ValueError]. *)
Definition load_plan (plan_path : fspath) (m : machine World)
    : result Plan.t * machine World :=
  let (r, m1) := read_text plan_path m in
  match match r with
        | Raise e => Raise e
        | Ok content => plan_parse content
        end with
  | Ok plan => (Ok plan, m1)
  | Raise e =>
      (Raise (mk_exn ValueError
                (py "Failed to load plan from " ++ path_str plan_path
                   ++ py ": " ++ exn_str e)), m1)
  end.

(** [load_trace] reads the result summary [result.json] of the
    directory. *)
Definition load_trace (trace_dir : fspath) (m : machine World)
    : result ExecutionResult.t * machine World :=
  let (r, m1) := read_text (path_child trace_dir (py "result.json")) m in
  match match r with
        | Raise e => Raise e
        | Ok content => result_parse content
        end with
  | Ok res => (Ok res, m1)
  | Raise e =>
      (Raise (mk_exn ValueError
                (py "Failed to load trace from " ++ path_str trace_dir
                   ++ py ": " ++ exn_str e)), m1)
  end.
End Loading.

(** ** planner/mock_planner.py *)

Module MockPlanner.
Record t : Type := mk { _call_count : Z }.

Definition init : t := mk 0.

(** The two Chinese keywords of the source, as code points. *)
Definition kw_summarize : pystr := [24635; 32467].
Definition kw_delete : pystr := [21024; 38500].

Definition summary_plan (goal workspace_root input_path : pystr) : Plan.t :=
  Plan.mk goal LOW workspace_root
    [Step.mk (py "1") (py "Read the source file") (py "file")
       [(py "action", VStr (py "read_text")); (py "path", VStr input_path)]
       (Some (py "content:source_content"));
     Step.mk (py "2") (py "Write summary to output file") (py "file")
       [(py "action", VStr (py "write_text"));
        (py "path", VStr (py "out/summary.md"));
        (py "content",
         VStr (py "- Summary point 1" ++ newline ++ py "- Summary point 2"
                 ++ newline ++ py "- Summary point 3"))]
       (Some (py "file:out/summary.md"))]
    [py "File out/summary.md exists";
     py "File contains 3 bullet points starting with '-'";
     py "All steps completed successfully"].

Definition delete_plan (goal workspace_root : pystr) : Plan.t :=
  Plan.mk goal HIGH workspace_root
    [Step.mk (py "1") (py "Attempt to delete files") (py "shell")
       [(py "cmd", VStr (py "rm -rf *"))] (Some (py "file_deletion"))]
    [py "Files deleted"].

Definition default_plan (goal workspace_root : pystr) : Plan.t :=
  Plan.mk goal LOW workspace_root
    [Step.mk (py "1") (py "Read a file") (py "file")
       [(py "action", VStr (py "read_text")); (py "path", VStr (py "test.txt"))]
       (Some (py "content:file_content"))]
    [py "File read successfully"].

Section Methods.
Context {World : Type} `{Host World}.

Definition generate_plan (self : t) (goal workspace_root : pystr)
    : Plan.t * t :=
  let self' := mk (_call_count self + 1) in
  if str_contains goal kw_summarize
     || str_contains (host_lower goal) (py "summarize") then
    let input_path :=
      if str_contains goal (py "data/notes.txt") then py "data/notes.txt"
      else py "data/notes.txt" in
    (summary_plan goal workspace_root input_path, self')
  else if str_contains goal kw_delete
          || str_contains (host_lower goal) (py "delete")
          || str_contains goal (py "rm -rf") then
    (delete_plan goal workspace_root, self')
  else (default_plan goal workspace_root, self').
End Methods.

Definition estimate_risk_level (plan : Plan.t) : pystr :=
  RiskLevel_value (Plan.risk_level plan).

Definition call_count (self : t) : Z := _call_count self.

Definition reset (self : t) : t := mk 0.
End MockPlanner.

(** ** planner/llm_planner.py: the local checks *)

Module LLMPlanner.
Definition dangerous : list pystr :=
  [py "rm"; py "delete"; py "format"; py "shutdown"; py "reboot"].

Section Methods.
Context {World : Type} `{Host World}.

(** The loop of [estimate_risk_level]: [Ok true] when it returns HIGH
    from inside the loop.  The command defaults to the empty string;
    a command that is no [str] has no [lower]. *)
Fixpoint risk_scan (steps : list Step.t) : result bool :=
  match steps with
  | [] => Ok false
  | step :: rest =>
      if pystr_eqb (Step.tool step) (py "shell") then
        match dict_get_default (Step.inputs step) (py "cmd") (VStr []) with
        | VStr cmd =>
            if existsb (fun d => str_contains (host_lower cmd) d) dangerous
            then Ok true
            else risk_scan rest
        | _ =>
            Raise (mk_exn AttributeError (py "object has no attribute 'lower'"))
        end
      else risk_scan rest
  end.

Definition estimate_risk_level (plan : Plan.t) : result pystr :=
  match risk_scan (Plan.steps plan) with
  | Raise e => Raise e
  | Ok true => Ok (RiskLevel_value HIGH)
  | Ok false => Ok (RiskLevel_value (Plan.risk_level plan))
  end.
End Methods.
End LLMPlanner.

(** The rank of a risk level, by its name. *)
Definition risk_rank (level : pystr) : nat :=
  if pystr_eqb level (py "HIGH") then 2
  else if pystr_eqb level (py "MEDIUM") then 1
  else 0.

(** The commands of the shell steps of a plan. *)
Definition shell_commands (steps : list Step.t) : list value :=
  map (fun step => dict_get_default (Step.inputs step) (py "cmd") (VStr []))
    (List.filter (fun step => pystr_eqb (Step.tool step) (py "shell")) steps).

(** ** The default executor on the small host *)

Module SimDefault.
Definition settings : Settings :=
  mk_settings [py "ws"] [py "runs"] default_shell_whitelist
    default_shell_blacklist.

(** A workspace with the file [data/notes.txt]. *)
Definition start : machine SimHost.World :=
  mk_machine [([py "ws"; py "data"; py "notes.txt"], py "three key points")] [].

Definition executor : Executor.t SimHost.World :=
  match fst (create_default_executor [py "ws"] [py "runs"] settings start) with
  | Ok e => e
  | Raise _ => SimHost.executor
  end.

Definition ready : machine SimHost.World :=
  snd (create_default_executor [py "ws"] [py "runs"] settings start).

Definition read_notes : Step.t :=
  SimHost.step "1" "file"
    [(py "action", VStr (py "read_text")); (py "path", VStr (py "data/notes.txt"))].

End SimDefault.

(** ** A concrete JSON codec

    A serializer and a parser for the concrete host.  A model is dumped
    to a JSON value and the value is printed as compact JSON text;
    loading parses the text back into a value and validates the value
    field by field.  The status of a step is written by its value
    ([StepStatus] in [models/trace.py]). *)

Module SimJson.

(** [StepStatus.value] *)
Definition status_value (s : StepStatus) : pystr :=
  match s with
  | PENDING => py "pending"
  | RUNNING => py "running"
  | SUCCESS => py "success"
  | FAILURE => py "failure"
  | SKIPPED => py "skipped"
  end.

(** *** Printing a value *)

(** A double quote and a backslash are escaped by a backslash. *)
Fixpoint escape (s : pystr) : pystr :=
  match s with
  | [] => []
  | c :: rest =>
      if (c =? 34) || (c =? 92) then 92 :: c :: escape rest
      else c :: escape rest
  end.

Definition print_str (s : pystr) : pystr := [34] ++ escape s ++ [34].

(** The decimal digits of [n], in front of [acc]. *)
Fixpoint digits (fuel : nat) (n : N) (acc : pystr) : pystr :=
  match fuel with
  | O => acc
  | S fuel' =>
      let acc' := (48 + n mod 10) :: acc in
      if n <? 10 then acc' else digits fuel' (n / 10) acc'
  end.

Definition print_int (z : Z) : pystr :=
  (if (z <? 0)%Z then [45] else [])
  ++ digits (S (N.to_nat (N.log2 (Z.abs_N z)))) (Z.abs_N z) [].

Fixpoint print (v : value) : pystr :=
  match v with
  | VNone => py "null"
  | VBool true => py "true"
  | VBool false => py "false"
  | VInt z => print_int z
  | VStr s => print_str s
  | VList l => py "[" ++ str_join (py ",") (map print l) ++ py "]"
  | VDict d =>
      py "{"
      ++ str_join (py ",")
           (map (fun kv => print_str (fst kv) ++ py ":" ++ print (snd kv)) d)
      ++ py "}"
  end.

(** *** Parsing a text *)

(** The rest of a string literal, after its opening quote. *)
Fixpoint parse_str (s : pystr) (acc : pystr) : option (pystr * pystr) :=
  match s with
  | [] => None
  | c :: rest =>
      if c =? 34 then Some (rev acc, rest)
      else if c =? 92 then
        match rest with
        | [] => None
        | c' :: rest' => parse_str rest' (c' :: acc)
        end
      else parse_str rest (c :: acc)
  end.

Definition is_digit (c : N) : bool := (48 <=? c) && (c <=? 57).

Fixpoint parse_digits (s : pystr) (acc : N) : N * pystr :=
  match s with
  | c :: rest =>
      if is_digit c then parse_digits rest (10 * acc + (c - 48)) else (acc, s)
  | [] => (acc, [])
  end.

Definition head_is (c : N) (s : pystr) : bool :=
  match s with
  | c' :: _ => c' =? c
  | [] => false
  end.

(** One value, then the elements of a list up to its closing bracket,
    then the items of an object up to its closing brace. *)
Fixpoint parse_value (fuel : nat) (s : pystr) {struct fuel}
    : option (value * pystr) :=
  match fuel with
  | O => None
  | S fuel' =>
      match s with
      | [] => None
      | c :: rest =>
          if c =? 34 then
            match parse_str rest [] with
            | Some (str, rest') => Some (VStr str, rest')
            | None => None
            end
          else if c =? 91 then
            if head_is 93 rest then Some (VList [], List.tl rest)
            else
              match parse_elements fuel' rest with
              | Some (l, rest') => Some (VList l, rest')
              | None => None
              end
          else if c =? 123 then
            if head_is 125 rest then Some (VDict [], List.tl rest)
            else
              match parse_items fuel' rest with
              | Some (d, rest') => Some (VDict d, rest')
              | None => None
              end
          else if c =? 45 then
            if head_is 48 rest || negb (match rest with
                                        | d :: _ => is_digit d
                                        | [] => false
                                        end) then None
            else
              let (n, rest') := parse_digits rest 0 in
              Some (VInt (- Z.of_N n), rest')
          else if is_digit c then
            if (c =? 48) && (match rest with
                             | d :: _ => is_digit d
                             | [] => false
                             end) then None
            else
              let (n, rest') := parse_digits s 0 in
              Some (VInt (Z.of_N n), rest')
          else if str_startswith s (py "null") then Some (VNone, skipn 4 s)
          else if str_startswith s (py "true") then Some (VBool true, skipn 4 s)
          else if str_startswith s (py "false") then
            Some (VBool false, skipn 5 s)
          else None
      end
  end
with parse_elements (fuel : nat) (s : pystr) {struct fuel}
    : option (list value * pystr) :=
  match fuel with
  | O => None
  | S fuel' =>
      match parse_value fuel' s with
      | Some (v, rest) =>
          if head_is 44 rest then
            match parse_elements fuel' (List.tl rest) with
            | Some (l, rest') => Some (v :: l, rest')
            | None => None
            end
          else if head_is 93 rest then Some ([v], List.tl rest)
          else None
      | None => None
      end
  end
with parse_items (fuel : nat) (s : pystr) {struct fuel}
    : option (dict * pystr) :=
  match fuel with
  | O => None
  | S fuel' =>
      if head_is 34 s then
        match parse_str (List.tl s) [] with
        | Some (k, rest) =>
            if head_is 58 rest then
              match parse_value fuel' (List.tl rest) with
              | Some (v, rest') =>
                  if head_is 44 rest' then
                    match parse_items fuel' (List.tl rest') with
                    | Some (d, rest'') => Some ((k, v) :: d, rest'')
                    | None => None
                    end
                  else if head_is 125 rest' then Some ([(k, v)], List.tl rest')
                  else None
              | None => None
              end
            else None
        | None => None
        end
      else None
  end.

(** The whole text is one value. *)
Definition parse (s : pystr) : option value :=
  match parse_value (S (length s)) s with
  | Some (v, []) => Some v
  | _ => None
  end.

(** *** Dumping the models *)

Definition dump_opt (o : option pystr) : value :=
  match o with
  | Some s => VStr s
  | None => VNone
  end.

Definition dump_step (s : Step.t) : value :=
  VDict [(py "id", VStr (Step.id s));
         (py "description", VStr (Step.description s));
         (py "tool", VStr (Step.tool s));
         (py "inputs", VDict (Step.inputs s));
         (py "produces", dump_opt (Step.produces s))].

Definition dump_plan (p : Plan.t) : value :=
  VDict [(py "goal", VStr (Plan.goal p));
         (py "risk_level", VStr (RiskLevel_value (Plan.risk_level p)));
         (py "workspace_root", VStr (Plan.workspace_root p));
         (py "steps", VList (map dump_step (Plan.steps p)));
         (py "success_criteria", VList (map VStr (Plan.success_criteria p)))].

Definition dump_trace (t : TraceEntry.t) : value :=
  VDict [(py "step_id", VStr (TraceEntry.step_id t));
         (py "tool", VStr (TraceEntry.tool t));
         (py "inputs_digest", VStr (TraceEntry.inputs_digest t));
         (py "output_digest", dump_opt (TraceEntry.output_digest t));
         (py "start_time", VStr (TraceEntry.start_time t));
         (py "end_time", dump_opt (TraceEntry.end_time t));
         (py "status", VStr (status_value (TraceEntry.status t)));
         (py "error", dump_opt (TraceEntry.error t));
         (py "inputs", VDict (TraceEntry.inputs t));
         (py "outputs", match TraceEntry.outputs t with
                        | Some v => v
                        | None => VNone
                        end)].

Definition dump_result (r : ExecutionResult.t) : value :=
  VDict [(py "plan_goal", VStr (ExecutionResult.plan_goal r));
         (py "plan_risk_level", VStr (ExecutionResult.plan_risk_level r));
         (py "workspace_root", VStr (ExecutionResult.workspace_root r));
         (py "total_steps", VInt (ExecutionResult.total_steps r));
         (py "successful_steps", VInt (ExecutionResult.successful_steps r));
         (py "failed_steps", VInt (ExecutionResult.failed_steps r));
         (py "skipped_steps", VInt (ExecutionResult.skipped_steps r));
         (py "overall_status",
          VStr (status_value (ExecutionResult.overall_status r)));
         (py "start_time", VStr (ExecutionResult.start_time r));
         (py "end_time", dump_opt (ExecutionResult.end_time r));
         (py "traces", VList (map dump_trace (ExecutionResult.traces r)));
         (py "error_summary", dump_opt (ExecutionResult.error_summary r));
         (py "produced_files", VList (ExecutionResult.produced_files r))].

(** *** Validating a value *)

Definition bind {A B : Type} (o : option A) (f : A -> option B) : option B :=
  match o with
  | Some a => f a
  | None => None
  end.

Fixpoint all_some {A B : Type} (f : A -> option B) (l : list A)
    : option (list B) :=
  match l with
  | [] => Some []
  | a :: rest =>
      bind (f a) (fun b => bind (all_some f rest) (fun bs => Some (b :: bs)))
  end.

Definition as_str (v : value) : option pystr :=
  match v with
  | VStr s => Some s
  | _ => None
  end.

Definition as_int (v : value) : option Z :=
  match v with
  | VInt z => Some z
  | _ => None
  end.

Definition as_dict (v : value) : option dict :=
  match v with
  | VDict d => Some d
  | _ => None
  end.

Definition as_list (v : value) : option (list value) :=
  match v with
  | VList l => Some l
  | _ => None
  end.

(** A required field. *)
Definition field {A : Type} (d : dict) (k : string) (f : value -> option A)
    : option A :=
  bind (dict_get d (py k)) f.

(** An optional string: absent or [null] is [None]. *)
Definition opt_field (d : dict) (k : string) : option (option pystr) :=
  match dict_get d (py k) with
  | None | Some VNone => Some None
  | Some (VStr s) => Some (Some s)
  | Some _ => None
  end.

Definition load_risk (v : value) : option RiskLevel :=
  bind (as_str v) (fun s =>
    if pystr_eqb s (py "LOW") then Some LOW
    else if pystr_eqb s (py "MEDIUM") then Some MEDIUM
    else if pystr_eqb s (py "HIGH") then Some HIGH
    else None).

Definition load_status (v : value) : option StepStatus :=
  bind (as_str v) (fun s =>
    if pystr_eqb s (py "pending") then Some PENDING
    else if pystr_eqb s (py "running") then Some RUNNING
    else if pystr_eqb s (py "success") then Some SUCCESS
    else if pystr_eqb s (py "failure") then Some FAILURE
    else if pystr_eqb s (py "skipped") then Some SKIPPED
    else None).

Definition load_step (v : value) : option Step.t :=
  bind (as_dict v) (fun d =>
  bind (field d "id" as_str) (fun id =>
  bind (field d "description" as_str) (fun description =>
  bind (field d "tool" as_str) (fun tool =>
  bind (field d "inputs" as_dict) (fun inputs =>
  bind (opt_field d "produces") (fun produces =>
  Some (Step.mk id description tool inputs produces))))))).

Definition load_plan_value (v : value) : option Plan.t :=
  bind (as_dict v) (fun d =>
  bind (field d "goal" as_str) (fun goal =>
  bind (field d "risk_level" load_risk) (fun risk_level =>
  bind (field d "workspace_root" as_str) (fun workspace_root =>
  bind (field d "steps" as_list) (fun steps =>
  bind (all_some load_step steps) (fun steps' =>
  bind (field d "success_criteria" as_list) (fun criteria =>
  bind (all_some as_str criteria) (fun criteria' =>
  Some (Plan.mk goal risk_level workspace_root steps' criteria'))))))))).

Definition load_trace_value (v : value) : option TraceEntry.t :=
  bind (as_dict v) (fun d =>
  bind (field d "step_id" as_str) (fun step_id =>
  bind (field d "tool" as_str) (fun tool =>
  bind (field d "inputs_digest" as_str) (fun inputs_digest =>
  bind (opt_field d "output_digest") (fun output_digest =>
  bind (field d "start_time" as_str) (fun start_time =>
  bind (opt_field d "end_time") (fun end_time =>
  bind (field d "status" load_status) (fun status =>
  bind (opt_field d "error") (fun error =>
  bind (field d "inputs" as_dict) (fun inputs =>
  match dict_get d (py "outputs") with
  | None | Some VNone =>
      Some (TraceEntry.mk step_id tool inputs_digest output_digest start_time
              end_time status error inputs None)
  | Some (VDict outs) =>
      Some (TraceEntry.mk step_id tool inputs_digest output_digest start_time
              end_time status error inputs (Some (VDict outs)))
  | Some _ => None
  end)))))))))).

Definition load_result_value (v : value) : option ExecutionResult.t :=
  bind (as_dict v) (fun d =>
  bind (field d "plan_goal" as_str) (fun plan_goal =>
  bind (field d "plan_risk_level" as_str) (fun plan_risk_level =>
  bind (field d "workspace_root" as_str) (fun workspace_root =>
  bind (field d "total_steps" as_int) (fun total_steps =>
  bind (field d "successful_steps" as_int) (fun successful_steps =>
  bind (field d "failed_steps" as_int) (fun failed_steps =>
  bind (field d "skipped_steps" as_int) (fun skipped_steps =>
  bind (field d "overall_status" load_status) (fun overall_status =>
  bind (field d "start_time" as_str) (fun start_time =>
  bind (opt_field d "end_time") (fun end_time =>
  bind (field d "traces" as_list) (fun traces =>
  bind (all_some load_trace_value traces) (fun traces' =>
  bind (opt_field d "error_summary") (fun error_summary =>
  bind (field d "produced_files" as_list) (fun produced =>
  bind (all_some as_str produced) (fun produced' =>
  Some (ExecutionResult.mk plan_goal plan_risk_level workspace_root
          total_steps successful_steps failed_steps skipped_steps
          overall_status start_time end_time traces' error_summary
          (map VStr produced')))))))))))))))))).

Definition validation_error : exn :=
  mk_exn ValueError (py "validation error").

Definition or_raise {A : Type} (o : option A) : result A :=
  match o with
  | Some a => Ok a
  | None => Raise validation_error
  end.

(** *** The serializer and the parser *)

Definition serializer : Serializer := {|
  plan_json := fun p => print (dump_plan p);
  trace_json := fun t => print (dump_trace t);
  result_json := fun r => print (dump_result r)
|}.

Definition parser : Parser := {|
  plan_parse := fun s => or_raise (bind (parse s) load_plan_value);
  result_parse := fun s => or_raise (bind (parse s) load_result_value)
|}.

(** The plan of the mock planner for a summary, and the result of
    running the two steps [plan_crash_second] gets through. *)
Definition summary : Plan.t :=
  MockPlanner.summary_plan (py "summarize data/notes.txt") (py "/ws")
    (py "data/notes.txt").

Definition crashed : ExecutionResult.t :=
  match fst (fst (@Executor.execute_plan _ SimHost.host serializer
                    SimHost.executor SimHost.plan_crash_second false
                    SimHost.start)) with
  | Ok r => r
  | Raise _ =>
      Executor.initial_result SimHost.executor SimHost.plan_crash_second []
  end.
End SimJson.

(** The exception of the unbound [k] in the list branch of
    [_resolve_inputs]. *)
Definition name_error : exn := mk_exn NameError (py "name 'k' is not defined").

(** * Theorems *)

(** ** Strings *)

Lemma pystr_eqb_refl (s : pystr) : pystr_eqb s s = true.
Proof. unfold pystr_eqb. apply bool_decide_eq_true. reflexivity. Qed.

Lemma pystr_eqb_true (a b : pystr) : pystr_eqb a b = true -> a = b.
Proof. unfold pystr_eqb. intros E. apply bool_decide_eq_true in E. exact E. Qed.

Lemma pystr_eqb_false (a b : pystr) : pystr_eqb a b = false -> a <> b.
Proof. unfold pystr_eqb. intros E. apply bool_decide_eq_false in E. exact E. Qed.

Lemma str_startswith_app (a b p : pystr) :
  str_startswith a p = true -> str_startswith (a ++ b) p = true.
Proof.
  revert a. induction p as [|c p IH]; intros a E; [reflexivity|].
  destruct a as [|x a]; simpl in *; [discriminate|].
  apply andb_true_iff in E as [E1 E2].
  rewrite E1. simpl. apply IH. exact E2.
Qed.

Lemma str_contains_app_l (a b p : pystr) :
  str_contains a p = true -> str_contains (a ++ b) p = true.
Proof.
  induction a as [|x a IH]; simpl; intros E.
  - apply orb_true_iff in E as [E|E]; [|discriminate].
    destruct p; [|discriminate].
    destruct b; reflexivity.
  - apply orb_true_iff in E as [E|E].
    + change (x :: a ++ b) with ((x :: a) ++ b).
      rewrite (str_startswith_app (x :: a) b p E). reflexivity.
    + rewrite (IH E). apply orb_true_r.
Qed.

Lemma str_contains_app_r (a b p : pystr) :
  str_contains b p = true -> str_contains (a ++ b) p = true.
Proof.
  intros E. induction a as [|x a IH]; simpl.
  - destruct b; exact E.
  - rewrite IH. apply orb_true_r.
Qed.

(** A string without the separator is a single part. *)
Lemma str_split_no_sep (s : pystr) (sep : N) :
  ~ In sep s -> str_split s sep = [s].
Proof.
  induction s as [|c s IH]; simpl; intros Hn; [reflexivity|].
  destruct (N.eqb_spec c sep) as [->|Hc].
  - exfalso. apply Hn. left. reflexivity.
  - rewrite IH; [reflexivity|]. intros Hin. apply Hn. right. exact Hin.
Qed.

(** ** UTF-8 lengths *)

Lemma utf8_char_length (c : N) (bs : list N) :
  utf8_char c = Some bs ->
  (is_ascii c = true -> length bs = 1%nat) /\
  (is_ascii c = false -> (2 <= length bs)%nat).
Proof.
  unfold utf8_char, is_ascii. intros E.
  destruct (c <? 128) eqn:E1.
  - injection E as <-. split; [reflexivity | discriminate].
  - split; [discriminate | intros _].
    destruct (c <? 2048); [injection E as <-; simpl; lia|].
    destruct ((55296 <=? c) && (c <=? 57343)); [discriminate|].
    destruct (c <? 65536); [injection E as <-; simpl; lia|].
    destruct (c <? 1114112); [injection E as <-; simpl; lia | discriminate].
Qed.

Lemma encode_utf8_length (s : pystr) (bytes : list N) :
  encode_utf8 s = Some bytes ->
  (length s <= length bytes)%nat /\
  (forallb is_ascii s = true -> length bytes = length s) /\
  (existsb (fun c => negb (is_ascii c)) s = true ->
   (length s < length bytes)%nat).
Proof.
  revert bytes. induction s as [|c s IH]; simpl; intros bytes E.
  - injection E as <-. repeat split; [lia | discriminate].
  - destruct (utf8_char c) as [bs|] eqn:Ec; [|discriminate].
    destruct (encode_utf8 s) as [rest|] eqn:Es; [|discriminate].
    injection E as <-.
    destruct (IH rest eq_refl) as (Hle & Hascii & Hmulti).
    destruct (utf8_char_length c bs Ec) as (H1 & H2).
    rewrite length_app.
    destruct (is_ascii c) eqn:Ea; simpl.
    + rewrite (H1 eq_refl). repeat split.
      * lia.
      * intros Hall. rewrite (Hascii Hall). reflexivity.
      * intros Hex. specialize (Hmulti Hex). lia.
    + specialize (H2 eq_refl). repeat split.
      * lia.
      * discriminate.
      * intros _. lia.
Qed.

(** Splits a conjunction into its parts, and nothing else. *)
Ltac conjs := repeat match goal with |- _ /\ _ => split end.

(** Membership in a concrete set, settled by evaluation. *)
Ltac in_set := apply (bool_decide_unpack _); vm_compute; exact I.
Ltac not_in_set :=
  let Hin := fresh "Hin" in
  intros Hin; apply (bool_decide_pack _) in Hin; vm_compute in Hin; exact Hin.

(** ** The shell tool *)

(** C6. A command line whose base command is in the deny-list is
    rejected with the "blacklisted" error whatever the allow-list
    contains (no hypothesis is made on it, so also when it holds the
    same base command), and the machine is returned as it was: no
    process is started and nothing is logged. *)
Theorem shell_deny_list_precedence {World : Type} `{Host World}
    (self : ShellTool.t) (inputs : dict) (cmd : value)
    (base_cmd : pystr) (args : list pystr) (m : machine World) :
  dict_get inputs (py "cmd") = Some cmd ->
  host_shlex_split cmd = Ok (base_cmd :: args) ->
  base_cmd ∈ ShellTool.blacklist self ->
  ShellTool.execute self inputs m
    = (Ok (fail_output (ShellTool.blacklisted_message base_cmd)), m)
  /\ success (fail_output (ShellTool.blacklisted_message base_cmd)) = false
  /\ str_contains (ShellTool.blacklisted_message base_cmd) (py "blacklisted")
     = true.
Proof.
  intros Hcmd Hsplit Hdeny. split; [|split].
  - unfold ShellTool.execute. rewrite Hcmd, Hsplit.
    rewrite bool_decide_eq_true_2 by exact Hdeny. reflexivity.
  - reflexivity.
  - unfold ShellTool.blacklisted_message.
    apply str_contains_app_r, str_contains_app_r. reflexivity.
Qed.

(** The deny-list wins over the allow-list: [rm] is in both. *)
Lemma shell_deny_list_precedence_witness :
  let self := ShellTool.mk (list_to_set [py "ls"; py "rm"]) (list_to_set [py "rm"]) in
  let inputs := [(py "cmd", VStr (py "rm -rf build"))] in
  py "rm" ∈ ShellTool.whitelist self /\
  ShellTool.execute self inputs SimHost.start
    = (Ok (fail_output (ShellTool.blacklisted_message (py "rm"))), SimHost.start)
  /\ success (fail_output (ShellTool.blacklisted_message (py "rm"))) = false
  /\ str_contains (ShellTool.blacklisted_message (py "rm")) (py "blacklisted")
     = true.
Proof.
  intros self inputs. split.
  - in_set.
  - apply (shell_deny_list_precedence self inputs (VStr (py "rm -rf build"))
             (py "rm") [py "-rf"; py "build"] SimHost.start).
    + reflexivity.
    + vm_compute. reflexivity.
    + in_set.
Defined.

(** C8. A command that passes the deny-list, the allow-list and the
    dangerous-pattern scan is run once; when it completes, [success] is
    the test [return_code == 0], [data] is the mapping of [stdout],
    [stderr], [return_code] and [command], and [error] is the captured
    [stderr] exactly when the exit code is not zero; when the run
    exceeds the timeout the output is a failure without data whose
    error is the "timed out" message. *)
Theorem shell_run_result {World : Type} `{Host World}
    (self : ShellTool.t) (inputs : dict) (cmd base_cmd : pystr)
    (args : list pystr) (m : machine World) :
  dict_get inputs (py "cmd") = Some (VStr cmd) ->
  host_shlex_split (VStr cmd) = Ok (base_cmd :: args) ->
  base_cmd ∉ ShellTool.blacklist self ->
  base_cmd ∈ ShellTool.whitelist self ->
  find (fun pattern => str_contains (host_lower cmd) pattern)
    ShellTool.dangerous_patterns = None ->
  let timeout := dict_get_default inputs (py "timeout") (VInt 30) in
  ShellTool.execute self inputs m
    = (let (r, w) := host_run cmd timeout (world m) in
       let m1 := mk_machine w (calls m ++ [SysRun cmd]) in
       match r with
       | Ok p =>
           (Ok (mk_output (Z.eqb (cp_returncode p) 0)
                  (VDict [(py "stdout", VStr (cp_stdout p));
                          (py "stderr", VStr (cp_stderr p));
                          (py "return_code", VInt (cp_returncode p));
                          (py "command", VStr cmd)])
                  (if Z.eqb (cp_returncode p) 0 then None
                   else Some (cp_stderr p))), m1)
       | Raise e =>
           match exn_cls e with
           | TimeoutExpired =>
               (Ok (mk_output false VNone
                      (Some (ShellTool.timed_out_message timeout))), m1)
           | _ =>
               (Ok (mk_output false VNone
                      (Some (py "Error executing command: " ++ exn_str e))), m1)
           end
       end)
  /\ str_contains (ShellTool.timed_out_message timeout) (py "timed out") = true.
Proof.
  intros Hcmd Hsplit Hdeny Hallow Hscan timeout. split.
  - unfold ShellTool.execute. rewrite Hcmd, Hsplit.
    rewrite bool_decide_eq_false_2 by exact Hdeny.
    rewrite bool_decide_eq_true_2 by exact Hallow.
    cbn [negb]. rewrite Hscan.
    unfold ShellTool.run_command, subprocess_run, logged.
    fold timeout.
    destruct (host_run cmd timeout (world m)) as [[p|e] w].
    + destruct (Z.eqb (cp_returncode p) 0); reflexivity.
    + destruct (exn_cls e); reflexivity.
  - unfold ShellTool.timed_out_message.
    apply str_contains_app_l. reflexivity.
Qed.

(** [grep] is allowed, runs and exits with status 1. *)
Lemma shell_run_result_witness :
  let self := ShellTool.init None None
                (mk_settings [] [] default_shell_whitelist default_shell_blacklist) in
  let cmd := py "grep needle notes.txt" in
  ShellTool.execute self [(py "cmd", VStr cmd)] SimHost.start
    = (Ok (mk_output false
             (VDict [(py "stdout", VStr []);
                     (py "stderr", VStr (py "grep: no match"));
                     (py "return_code", VInt 1);
                     (py "command", VStr cmd)])
             (Some (py "grep: no match"))),
       mk_machine [] [SysRun cmd])
  /\ str_contains (ShellTool.timed_out_message (VInt 30)) (py "timed out") = true.
Proof.
  intros self cmd.
  assert (W := shell_run_result self [(py "cmd", VStr cmd)] cmd (py "grep")
                 [py "needle"; py "notes.txt"] SimHost.start).
  vm_compute in W |- *. apply W.
  - reflexivity.
  - reflexivity.
  - not_in_set.
  - in_set.
  - reflexivity.
Defined.

(** ** The file tool *)

Section FileToolFacts.
Context {World : Type} `{Host World}.

Lemma relative_to_not_descendant (p root : fspath) :
  is_descendant p root = false -> exists e, relative_to p root = Raise e.
Proof.
  unfold is_descendant. destruct (relative_to p root) as [q|e]; simpl.
  - discriminate.
  - intros _. exists e. reflexivity.
Qed.

(** The confinement check itself: a path that resolves outside the
    root raises [ToolError] with the "outside workspace" message. *)
Lemma resolve_path_outside (self : FileTool.t) (path : value)
    (resolved : fspath) (m : machine World) :
  host_resolve (world m) (FileTool.workspace_root self) path = Ok resolved ->
  is_descendant resolved (FileTool.workspace_root self) = false ->
  FileTool._resolve_path self path m
    = Raise (mk_exn ToolError (FileTool.outside_message self path)).
Proof.
  intros Hres Hout. unfold FileTool._resolve_path. rewrite Hres.
  destruct (relative_to_not_descendant _ _ Hout) as [e ->]. reflexivity.
Qed.

Lemma resolve_path_inside (self : FileTool.t) (path : value)
    (resolved : fspath) (m : machine World) :
  FileTool._resolve_path self path m = Ok resolved ->
  is_descendant resolved (FileTool.workspace_root self) = true.
Proof.
  unfold FileTool._resolve_path, is_descendant.
  destruct (host_resolve _ _ _) as [r|e]; [|discriminate].
  destruct (relative_to r _) eqn:E; [|discriminate].
  intros [= <-]. rewrite E. reflexivity.
Qed.

Lemma outside_message_says_so (self : FileTool.t) (path : value) :
  str_contains (FileTool.outside_message self path) (py "outside workspace")
  = true.
Proof.
  unfold FileTool.outside_message.
  apply str_contains_app_r, str_contains_app_r, str_contains_app_l.
  reflexivity.
Qed.

Lemma write_text_handler_fails (e : exn) :
  success (FileTool.write_text_handler e) = false.
Proof. unfold FileTool.write_text_handler. destruct (exn_cls e); reflexivity. Qed.
End FileToolFacts.

(** C2, as the code has it.  For each of the three actions, a path
    string that resolves outside the workspace root makes the tool
    return (not raise) a failed [ToolOutput] and the machine comes back
    unchanged: the world is the same and no read, write, append,
    directory creation, probe or listing was logged, whatever else the
    inputs hold.  The error is the "outside workspace" message when the
    call carries the inputs that the action checks before it looks at
    the path; a [write_text] call without [content], or with a [mode]
    that is neither [overwrite] nor [append], is answered with the
    message of that check instead. *)
Theorem file_tool_path_confinement {World : Type} `{Host World}
    (self : FileTool.t) (inputs : dict) (action path : pystr)
    (resolved : fspath) (m : machine World) :
  In action [py "read_text"; py "write_text"; py "list_dir"] ->
  dict_get inputs (py "action") = Some (VStr action) ->
  dict_get inputs (py "path") = Some (VStr path) ->
  host_resolve (world m) (FileTool.workspace_root self) (VStr path) = Ok resolved ->
  is_descendant resolved (FileTool.workspace_root self) = false ->
  exists msg,
    FileTool.execute self inputs m = (mk_output false VNone (Some msg), m)
    /\ (call_well_formed action inputs = true ->
        msg = FileTool.outside_message self (VStr path)
        /\ str_contains msg (py "outside workspace") = true)
    /\ (call_well_formed action inputs = false ->
        action = py "write_text"
        /\ msg = if dict_has inputs (py "content") then
                   py "Invalid mode: "
                     ++ format_value host_repr
                          (dict_get_default inputs (py "mode")
                             (VStr (py "overwrite")))
                     ++ py ". Must be 'overwrite' or 'append'"
                 else py "Missing 'content' in inputs").
Proof.
  intros Hact Haction Hpath Hres Hout.
  pose proof (resolve_path_outside self (VStr path) resolved m Hres Hout) as Hrp.
  unfold FileTool.execute, dict_get_default, call_well_formed. rewrite Haction.
  destruct Hact as [<-|[<-|[<-|[]]]]; cbn [is_str].
  - replace (pystr_eqb (py "read_text") (py "read_text")) with true by reflexivity.
    replace (pystr_eqb (py "read_text") (py "write_text")) with false by reflexivity.
    cbn iota. unfold FileTool._read_text. rewrite Hpath, Hrp.
    eexists. split; [reflexivity|]. split.
    + intros _. split; [reflexivity | apply outside_message_says_so].
    + discriminate.
  - replace (pystr_eqb (py "write_text") (py "read_text")) with false by reflexivity.
    replace (pystr_eqb (py "write_text") (py "write_text")) with true by reflexivity.
    cbn iota. unfold FileTool._write_text, dict_has, dict_get_default. rewrite Hpath.
    destruct (dict_get inputs (py "content")) as [content|]; cbn [andb].
    + destruct (is_str _ (py "overwrite") || is_str _ (py "append")) eqn:Hmode;
        cbn [negb].
      * rewrite Hrp. eexists. split; [reflexivity|]. split.
        -- intros _. split; [reflexivity | apply outside_message_says_so].
        -- discriminate.
      * eexists. split; [reflexivity|]. split.
        -- discriminate.
        -- intros _. split; reflexivity.
    + eexists. split; [reflexivity|]. split.
      * discriminate.
      * intros _. split; reflexivity.
  - replace (pystr_eqb (py "list_dir") (py "read_text")) with false by reflexivity.
    replace (pystr_eqb (py "list_dir") (py "write_text")) with false by reflexivity.
    replace (pystr_eqb (py "list_dir") (py "list_dir")) with true by reflexivity.
    cbn iota. unfold FileTool._list_dir. rewrite Hpath, Hrp.
    eexists. split; [reflexivity|]. split.
    + intros _. split; [reflexivity | apply outside_message_says_so].
    + discriminate.
Qed.

(** Appending to [../../etc/passwd] from the workspace [/ws]. *)
Lemma file_tool_path_confinement_witness :
  let self := FileTool.mk [py "ws"] in
  let inputs := [(py "action", VStr (py "write_text"));
                 (py "path", VStr (py "../../etc/passwd"));
                 (py "content", VStr (py "x"));
                 (py "mode", VStr (py "append"))] in
  exists msg,
    FileTool.execute self inputs SimHost.start
      = (mk_output false VNone (Some msg), SimHost.start)
    /\ (call_well_formed (py "write_text") inputs = true ->
        msg = FileTool.outside_message self (VStr (py "../../etc/passwd"))
        /\ str_contains msg (py "outside workspace") = true)
    /\ (call_well_formed (py "write_text") inputs = false ->
        py "write_text" = py "write_text"
        /\ msg = if dict_has inputs (py "content") then
                   py "Invalid mode: "
                     ++ format_value host_repr
                          (dict_get_default inputs (py "mode")
                             (VStr (py "overwrite")))
                     ++ py ". Must be 'overwrite' or 'append'"
                 else py "Missing 'content' in inputs").
Proof.
  intros self inputs.
  apply (file_tool_path_confinement self inputs (py "write_text")
           (py "../../etc/passwd") [py "etc"; py "passwd"] SimHost.start).
  - right. left. reflexivity.
  - reflexivity.
  - reflexivity.
  - vm_compute. reflexivity.
  - reflexivity.
Defined.

(** C2 as stated fails for a [write_text] call that carries no
    [content]: the path [../../etc/passwd] resolves outside [/ws], yet
    the error returned is that of the missing input, which says nothing
    of the workspace.  The check of the inputs comes before the
    confinement check. *)
Lemma path_confinement_counterexample :
  let self := FileTool.mk [py "ws"] in
  let inputs := [(py "action", VStr (py "write_text"));
                 (py "path", VStr (py "../../etc/passwd"))] in
  host_resolve (world SimHost.start) (FileTool.workspace_root self)
    (VStr (py "../../etc/passwd")) = Ok [py "etc"; py "passwd"]
  /\ is_descendant [py "etc"; py "passwd"] (FileTool.workspace_root self) = false
  /\ FileTool.execute self inputs SimHost.start
     = (mk_output false VNone (Some (py "Missing 'content' in inputs")),
        SimHost.start)
  /\ str_contains (py "Missing 'content' in inputs") (py "outside workspace")
     = false
  /\ py "Missing 'content' in inputs"
     <> FileTool.outside_message self (VStr (py "../../etc/passwd")).
Proof.
  intros self inputs. conjs; try (vm_compute; reflexivity).
  intros E. vm_compute in E. discriminate.
Qed.

(** C10. A successful [write_text], in either mode, reports as
    [bytes_written] the length of the UTF-8 encoding of the content,
    which is at least the number of characters, equal to it when every
    character is ASCII and larger as soon as one character is not. *)
Theorem write_text_bytes_written {World : Type} `{Host World}
    (self : FileTool.t) (inputs : dict) (m m' : machine World)
    (out : ToolOutput) :
  FileTool._write_text self inputs m = (out, m') ->
  success out = true ->
  exists (content : pystr) (bytes : list N) (path : fspath),
    dict_get inputs (py "content") = Some (VStr content) /\
    encode_utf8 content = Some bytes /\
    data out = VDict [(py "path", VStr (path_str path));
                      (py "bytes_written", VInt (Z.of_nat (length bytes)))] /\
    (length content <= length bytes)%nat /\
    (forallb is_ascii content = true -> length bytes = length content) /\
    (existsb (fun c => negb (is_ascii c)) content = true ->
     (length content < length bytes)%nat).
Proof.
  unfold FileTool._write_text. intros Hrun Hok.
  destruct (dict_get inputs (py "path")) as [p|];
    [|injection Hrun as <- _; discriminate].
  destruct (dict_get inputs (py "content")) as [content|];
    [|injection Hrun as <- _; discriminate].
  destruct (negb _); [injection Hrun as <- _; discriminate|].
  destruct (FileTool._resolve_path self p m) as [path|e];
    [|injection Hrun as <- _; rewrite write_text_handler_fails in Hok; discriminate].
  destruct (mkdir (path_parent path) m) as [[[]|e] m1];
    [|injection Hrun as <- _; rewrite write_text_handler_fails in Hok; discriminate].
  destruct (if is_str _ _ then _ else _) as [[[]|e] m2];
    [|injection Hrun as <- _; rewrite write_text_handler_fails in Hok; discriminate].
  unfold FileTool.encoded_length in Hrun.
  destruct content as [| | |s| |];
    try (injection Hrun as <- _; rewrite write_text_handler_fails in Hok; discriminate).
  destruct (encode_utf8 s) as [bytes|] eqn:Hs;
    [|injection Hrun as <- _; rewrite write_text_handler_fails in Hok; discriminate].
  injection Hrun as <- _.
  exists s, bytes, path.
  destruct (encode_utf8_length s bytes Hs) as (Hle & Hascii & Hmulti).
  repeat split; assumption.
Qed.

(** Appending a five-character string with one non-ASCII character
    writes six bytes. *)
Lemma write_text_bytes_written_witness :
  exists (content : pystr) (bytes : list N) (path : fspath),
    dict_get [(py "path", VStr (py "out/note.txt"));
              (py "content", VStr [104; 233; 108; 108; 111]);
              (py "mode", VStr (py "append"))] (py "content")
      = Some (VStr content) /\
    encode_utf8 content = Some bytes /\
    data (fst (FileTool._write_text (FileTool.mk [py "ws"])
                 [(py "path", VStr (py "out/note.txt"));
                  (py "content", VStr [104; 233; 108; 108; 111]);
                  (py "mode", VStr (py "append"))] SimHost.start))
      = VDict [(py "path", VStr (path_str path));
               (py "bytes_written", VInt (Z.of_nat (length bytes)))] /\
    (length content <= length bytes)%nat /\
    (forallb is_ascii content = true -> length bytes = length content) /\
    (existsb (fun c => negb (is_ascii c)) content = true ->
     (length content < length bytes)%nat).
Proof.
  apply (write_text_bytes_written (FileTool.mk [py "ws"]) _ SimHost.start
           (snd (FileTool._write_text (FileTool.mk [py "ws"])
                   [(py "path", VStr (py "out/note.txt"));
                    (py "content", VStr [104; 233; 108; 108; 111]);
                    (py "mode", VStr (py "append"))] SimHost.start))).
  - apply surjective_pairing.
  - vm_compute. reflexivity.
Defined.

(** ** The executor *)

Section ExecutorFacts.
Context {World : Type} `{Host World} `{Serializer}.

Lemma set_current_add_trace (r : ExecutionResult.t) (t t' : TraceEntry.t) :
  ExecutionResult.traces
    (ExecutionResult.set_current (ExecutionResult.add_trace r t) t')
  = ExecutionResult.traces r ++ [t'].
Proof. simpl. rewrite removelast_last. reflexivity. Qed.

Lemma set_current_twice (r : ExecutionResult.t) (t t' : TraceEntry.t) :
  ExecutionResult.set_current (ExecutionResult.set_current r t) t'
  = ExecutionResult.set_current r t'.
Proof.
  unfold ExecutionResult.set_current, ExecutionResult.with_traces. simpl.
  rewrite removelast_last. reflexivity.
Qed.

(** The text recorded for a failed [ToolOutput] is the error that the
    tool reported, or "Unknown error" when it reported none. *)
Lemma error_or_unknown_spec (output : ToolOutput) :
  Executor.error_or_unknown (error output) = failure_message (ToolFailed output).
Proof.
  unfold Executor.error_or_unknown, failure_message.
  destruct (error output) as [[|c s]|]; reflexivity.
Qed.

(** What one iteration of the loop does to the trace list: it appends
    exactly one entry, for the step at hand, which ends as a SUCCESS
    (and the loop goes on) or as a FAILURE carrying the message of the
    failure (and the loop stops). *)
Lemma run_step_spec (st : Executor.loop_state) (step : Step.t) :
  exists tr,
    ExecutionResult.traces (Executor.ls_result (snd (Executor.run_step false st step)))
      = ExecutionResult.traces (Executor.ls_result st) ++ [tr]
    /\ TraceEntry.step_id tr = Step.id step
    /\ ExecutionResult.total_steps (Executor.ls_result (snd (Executor.run_step false st step)))
       = ExecutionResult.total_steps (Executor.ls_result st)
    /\ match step_failure (Executor.ls_self st) step (Executor.ls_machine st) with
       | Some f =>
           fst (Executor.run_step false st step) = false
           /\ TraceEntry.status tr = FAILURE
           /\ TraceEntry.error tr = Some (failure_message f)
       | None =>
           fst (Executor.run_step false st step) = true
           /\ TraceEntry.status tr = SUCCESS
       end.
Proof.
  unfold Executor.run_step, step_failure, tick, TraceEntry.create.
  destruct (now (Executor.ls_machine st)) as [ts m1]. cbn [snd].
  destruct (Executor._resolve_inputs (Executor.ls_self st) (Step.inputs step))
    as [resolved|e].
  2: { unfold Executor.fail_step, TraceEntry.mark_failure.
       destruct (now m1) as [ts2 m2]. eexists. cbn [snd fst Executor.ls_result].
       rewrite set_current_add_trace. repeat split. }
  destruct (ToolRegistry.get _ _) as [tool|].
  2: { unfold Executor.fail_step, TraceEntry.mark_failure.
       destruct (now m1) as [ts2 m2]. eexists. cbn [snd fst Executor.ls_result].
       rewrite set_current_add_trace. repeat split. }
  unfold TraceEntry.mark_started.
  destruct (now m1) as [ts1 m2]. cbn [snd].
  destruct (tool_execute tool resolved m2) as [[output|e] m3]; cbn [fst].
  2: { unfold Executor.fail_step, TraceEntry.mark_failure.
       destruct (now m3) as [ts3 m4]. eexists. cbn [snd fst Executor.ls_result].
       rewrite set_current_twice, set_current_add_trace. repeat split. }
  destruct (success output).
  - unfold TraceEntry.mark_success. destruct (now m3) as [ts3 m4].
    eexists. cbn [snd fst Executor.ls_result].
    destruct (Executor.produced_path (data output));
      cbn [ExecutionResult.add_produced ExecutionResult.traces
           ExecutionResult.total_steps];
      rewrite ?set_current_twice, set_current_add_trace; repeat split.
  - rewrite (error_or_unknown_spec output).
    unfold Executor.fail_step, TraceEntry.mark_failure.
    destruct (now m3) as [ts3 m4]. eexists. cbn [snd fst Executor.ls_result].
    rewrite set_current_twice, set_current_add_trace. repeat split.
Qed.

Lemma count_status_app (st : StepStatus) (a b : list TraceEntry.t) :
  count_status st (a ++ b) = (count_status st a + count_status st b)%Z.
Proof. induction a as [|t a IH]; simpl; [reflexivity | rewrite IH; lia]. Qed.

Lemma count_status_uniform (st' st : StepStatus) (trs : list TraceEntry.t) :
  Forall (fun t => TraceEntry.status t = st') trs ->
  count_status st trs
  = if StepStatus_eqb st' st then Z.of_nat (length trs) else 0%Z.
Proof.
  induction 1 as [|t trs Ht _ IH]; simpl.
  - destruct (StepStatus_eqb st' st); reflexivity.
  - rewrite Ht, IH. destruct (StepStatus_eqb st' st); lia.
Qed.

(** The whole loop: the entries appended are SUCCESS entries for the
    steps run, closed by one FAILURE entry when a step fails. *)
Lemma run_steps_spec (steps : list Step.t) (st : Executor.loop_state) :
  exists trs,
    ExecutionResult.traces (Executor.ls_result (Executor.run_steps false steps st))
      = ExecutionResult.traces (Executor.ls_result st) ++ trs
    /\ ExecutionResult.total_steps (Executor.ls_result (Executor.run_steps false steps st))
       = ExecutionResult.total_steps (Executor.ls_result st)
    /\ match first_failure st steps with
       | None =>
           map TraceEntry.step_id trs = map Step.id steps
           /\ Forall (fun t => TraceEntry.status t = SUCCESS) trs
       | Some (step, f) =>
           exists ok tr,
             trs = ok ++ [tr]
             /\ Forall (fun t => TraceEntry.status t = SUCCESS) ok
             /\ TraceEntry.status tr = FAILURE
             /\ TraceEntry.error tr = Some (failure_message f)
             /\ TraceEntry.step_id tr = Step.id step
       end.
Proof.
  revert st. induction steps as [|step rest IH]; intros st.
  - exists []. simpl. rewrite app_nil_r. repeat split. constructor.
  - destruct (run_step_spec st step) as (tr & Htr & Hid & Htot & Hcase).
    simpl. destruct (Executor.run_step false st step) as [continue st'].
    cbn [fst snd] in *.
    destruct (step_failure (Executor.ls_self st) step (Executor.ls_machine st))
      as [f|].
    + destruct Hcase as (-> & Hst & Herr).
      exists [tr]. repeat split; try assumption.
      exists [], tr. repeat split; try assumption. constructor.
    + destruct Hcase as (-> & Hst).
      destruct (IH st') as (trs & Htrs & Htot' & Hrest).
      exists (tr :: trs). rewrite Htrs, Htr, <- app_assoc. split; [reflexivity|].
      split; [congruence|].
      destruct (first_failure st' rest) as [[s f]|].
      * destruct Hrest as (ok & tr' & -> & Hok & Hst' & Herr & Hid').
        exists (tr :: ok), tr'. repeat split; try assumption.
        constructor; assumption.
      * destruct Hrest as (Hids & Hall). split.
        -- simpl. rewrite Hid, Hids. reflexivity.
        -- constructor; assumption.
Qed.

(** The loop when steps [1..k] succeed and step [k+1] fails. *)
Lemma run_steps_succeed_then_fail (k : nat) (steps : list Step.t)
    (st : Executor.loop_state) :
  succeed_then_fail k st steps = true ->
  exists ok tr,
    ExecutionResult.traces (Executor.ls_result (Executor.run_steps false steps st))
      = ExecutionResult.traces (Executor.ls_result st) ++ ok ++ [tr]
    /\ ExecutionResult.total_steps (Executor.ls_result (Executor.run_steps false steps st))
       = ExecutionResult.total_steps (Executor.ls_result st)
    /\ length ok = k
    /\ Forall (fun t => TraceEntry.status t = SUCCESS) ok
    /\ TraceEntry.status tr = FAILURE
    /\ map TraceEntry.step_id (ok ++ [tr]) = map Step.id (firstn (S k) steps).
Proof.
  revert k st. induction steps as [|step rest IH]; intros k st Hk.
  - simpl in Hk. discriminate.
  - destruct (run_step_spec st step) as (tr & Htr & Hid & Htot & Hcase).
    simpl in Hk |- *.
    destruct (Executor.run_step false st step) as [continue st'].
    cbn [fst snd] in *.
    destruct (step_failure (Executor.ls_self st) step (Executor.ls_machine st))
      as [f|]; destruct k as [|k]; try discriminate.
    + destruct Hcase as (-> & Hst & Herr).
      exists [], tr. simpl. rewrite Hid.
      split; [assumption|]. split; [assumption|]. split; [reflexivity|].
      split; [constructor|]. split; [assumption|]. reflexivity.
    + destruct Hcase as (-> & Hst).
      destruct (IH k st' Hk) as (ok & tr' & Htrs & Htot' & Hlen & Hok & Hst' & Hids).
      exists (tr :: ok), tr'. rewrite Htrs, Htr, <- app_assoc.
      repeat split; try assumption.
      * congruence.
      * simpl. rewrite Hlen. reflexivity.
      * constructor; assumption.
      * change (map TraceEntry.step_id ((tr :: ok) ++ [tr']))
          with (TraceEntry.step_id tr :: map TraceEntry.step_id (ok ++ [tr'])).
        rewrite Hid, Hids. reflexivity.
Qed.

(** [finalize] recomputes the counts and the overall status from the
    trace list and leaves the list alone. *)
Lemma finalize_spec (r : ExecutionResult.t) (m : machine World) :
  let r' := fst (ExecutionResult.finalize r m) in
  ExecutionResult.traces r' = ExecutionResult.traces r
  /\ ExecutionResult.total_steps r' = ExecutionResult.total_steps r
  /\ ExecutionResult.successful_steps r' = count_status SUCCESS (ExecutionResult.traces r)
  /\ ExecutionResult.failed_steps r' = count_status FAILURE (ExecutionResult.traces r)
  /\ ExecutionResult.skipped_steps r' = count_status SKIPPED (ExecutionResult.traces r)
  /\ ExecutionResult.overall_status r'
     = if (0 <? count_status FAILURE (ExecutionResult.traces r))%Z then FAILURE
       else if (count_status SUCCESS (ExecutionResult.traces r)
                  =? ExecutionResult.total_steps r)%Z then SUCCESS
       else PENDING.
Proof.
  unfold ExecutionResult.finalize. destruct (now m) as [ts m1]. simpl.
  repeat split.
Qed.

(** *** Persistence under a working runs directory *)

Lemma relative_to_app (root rest : fspath) :
  relative_to (root ++ rest) root = Ok rest.
Proof.
  induction root as [|c root IH]; simpl; [reflexivity|].
  rewrite pystr_eqb_refl. exact IH.
Qed.

Lemma is_descendant_app (root rest : fspath) :
  is_descendant (root ++ rest) root = true.
Proof. unfold is_descendant. rewrite relative_to_app. reflexivity. Qed.

Lemma save_plan_ok (self : Executor.t World) (plan : Plan.t) (m : machine World) :
  persistence_ok self ->
  exists ts m1,
    Executor._save_plan self plan m
      = (Ok (path_child (Executor.runs_dir self) ts), m1).
Proof.
  intros [Hmk Hwr]. unfold Executor._save_plan, timestamp.
  destruct (host_timestamp (world m)) as [ts w0].
  unfold mkdir, write_text, logged. cbn [world calls].
  destruct (Hmk (path_child (Executor.runs_dir self) ts) w0) as [w1 ->].
  { apply is_descendant_app. }
  cbv beta iota zeta. cbn [world calls].
  destruct (Hwr (path_child (path_child (Executor.runs_dir self) ts) (py "plan.json"))
              (plan_json plan) w1) as [w2 ->].
  { unfold path_child. rewrite <- app_assoc. apply is_descendant_app. }
  eexists _, _. reflexivity.
Qed.

Lemma save_traces_ok (self : Executor.t World) (ts : pystr)
    (r : ExecutionResult.t) (m : machine World) :
  persistence_ok self ->
  exists m1,
    Executor._save_traces (path_child (Executor.runs_dir self) ts) r m
      = (Ok tt, m1).
Proof.
  intros [Hmk Hwr]. unfold Executor._save_traces, write_text, logged.
  destruct (Hwr (path_child (path_child (Executor.runs_dir self) ts) (py "trace.jsonl"))
              (Executor.trace_lines (ExecutionResult.traces r)) (world m))
    as [w1 ->].
  { unfold path_child. rewrite <- app_assoc. apply is_descendant_app. }
  cbv beta iota zeta. cbn [world calls].
  destruct (Hwr (path_child (path_child (Executor.runs_dir self) ts) (py "result.json"))
              (result_json r) w1) as [w2 ->].
  { unfold path_child. rewrite <- app_assoc. apply is_descendant_app. }
  eexists. reflexivity.
Qed.

(** With a working runs directory [execute_plan] returns the finalized
    result of the loop run from the entry state. *)
Lemma execute_plan_returns (self : Executor.t World) (plan : Plan.t)
    (dry_run : bool) (m : machine World) :
  persistence_ok self ->
  let st := Executor.run_steps dry_run (Plan.steps plan) (entry_state self plan m) in
  exists m',
    Executor.execute_plan self plan dry_run m
      = (Ok (fst (ExecutionResult.finalize (Executor.ls_result st)
                    (Executor.ls_machine st))),
         Executor.ls_self st, m').
Proof.
  intros Hp. unfold Executor.execute_plan, entry_state.
  destruct (now m) as [start m0].
  destruct (save_plan_ok self plan m0 Hp) as (ts & m1 & ->).
  cbn zeta.
  set (st := Executor.run_steps dry_run (Plan.steps plan) _).
  destruct (ExecutionResult.finalize (Executor.ls_result st) (Executor.ls_machine st))
    as [r' m2].
  destruct (save_traces_ok self ts r' m2 Hp) as (m3 & ->).
  exists m3. reflexivity.
Qed.

(** [execute_plan], unfolded around its loop: what it returns is read
    off the state in which the loop ends. *)
Lemma execute_plan_unfold (self : Executor.t World) (plan : Plan.t)
    (dry_run : bool) (m : machine World) :
  persistence_ok self ->
  let st := Executor.run_steps dry_run (Plan.steps plan) (entry_state self plan m) in
  let fin := ExecutionResult.finalize (Executor.ls_result st) (Executor.ls_machine st) in
  exists run_dir,
    fst (Executor._save_plan self plan (tick m)) = Ok run_dir
    /\ Executor.execute_plan self plan dry_run m
       = (Ok (fst fin), Executor.ls_self st,
          snd (Executor._save_traces run_dir (fst fin) (snd fin))).
Proof.
  intros Hp. unfold Executor.execute_plan, entry_state, tick.
  destruct (now m) as [start m0]. cbn [snd].
  destruct (save_plan_ok self plan m0 Hp) as (ts & m1 & ->).
  cbn zeta. cbn [fst].
  set (st := Executor.run_steps dry_run (Plan.steps plan) _).
  destruct (ExecutionResult.finalize (Executor.ls_result st) (Executor.ls_machine st))
    as [r' m2].
  cbn [fst snd].
  destruct (save_traces_ok self ts r' m2 Hp) as (m3 & E).
  exists (path_child (Executor.runs_dir self) ts). split; [reflexivity|].
  rewrite E. reflexivity.
Qed.

(** The loop stops at the first failure: when steps [1..k] succeed and
    step [k+1] fails, the loop over all the steps ends in the state in
    which the loop over the first [k+1] steps ends. *)
Lemma run_steps_stop (k : nat) (steps : list Step.t) (st : Executor.loop_state) :
  succeed_then_fail k st steps = true ->
  Executor.run_steps false steps st
  = Executor.run_steps false (firstn (S k) steps) st.
Proof.
  revert k st. induction steps as [|step rest IH]; intros k st Hk.
  - simpl in Hk. discriminate.
  - destruct (run_step_spec st step) as (tr & _ & _ & _ & Hcase).
    cbn [succeed_then_fail] in Hk.
    cbn [firstn Executor.run_steps].
    destruct (Executor.run_step false st step) as [continue st'].
    cbn [fst snd] in *.
    destruct (step_failure (Executor.ls_self st) step (Executor.ls_machine st))
      as [f|]; destruct k as [|k]; try discriminate.
    + destruct Hcase as (-> & _). reflexivity.
    + destruct Hcase as (-> & _). apply IH. exact Hk.
Qed.

Lemma entry_state_result (self : Executor.t World) (plan : Plan.t)
    (m : machine World) :
  ExecutionResult.traces (Executor.ls_result (entry_state self plan m)) = []
  /\ ExecutionResult.total_steps (Executor.ls_result (entry_state self plan m))
     = Z.of_nat (length (Plan.steps plan))
  /\ Executor.ls_self (entry_state self plan m) = self.
Proof.
  unfold entry_state. destruct (now m) as [start m0].
  destruct (Executor._save_plan self plan m0) as [r m1]. repeat split.
Qed.
End ExecutorFacts.

Lemma sim_persistence_ok (self : Executor.t SimHost.World) : persistence_ok self.
Proof. split; intros; eexists; reflexivity. Qed.

(** C1, as the code has it. When steps [1..k] succeed and step [k+1]
    fails, [execute_plan] returns a result with [successful_steps = k],
    [failed_steps = 1], [overall_status = FAILURE] and exactly the
    [k + 1] trace entries of steps [1..k+1], in order.  Steps
    [k+2..N] are never dispatched: the result, the executor (with its
    recorded outputs) and the machine (the world and the log of calls)
    that the call returns are those that the loop over steps [1..k+1]
    alone leaves, once finalized and saved.  The later steps are not
    recorded either, and [skipped_steps], which counts the trace
    entries of status SKIPPED, is [0]. *)
Theorem execute_plan_stops_at_first_failure {World : Type} `{Host World}
    `{Serializer} (self : Executor.t World) (plan : Plan.t) (k : nat)
    (m : machine World) :
  persistence_ok self ->
  succeed_then_fail k (entry_state self plan m) (Plan.steps plan) = true ->
  exists res self' m' run_dir,
    let st :=
      Executor.run_steps false (firstn (S k) (Plan.steps plan))
        (entry_state self plan m) in
    let fin :=
      ExecutionResult.finalize (Executor.ls_result st) (Executor.ls_machine st) in
    Executor.execute_plan self plan false m = (Ok res, self', m')
    /\ ExecutionResult.successful_steps res = Z.of_nat k
    /\ ExecutionResult.failed_steps res = 1%Z
    /\ ExecutionResult.skipped_steps res = 0%Z
    /\ ExecutionResult.overall_status res = FAILURE
    /\ map TraceEntry.step_id (ExecutionResult.traces res)
       = map Step.id (firstn (S k) (Plan.steps plan))
    /\ length (ExecutionResult.traces res) = S k
    /\ fst (Executor._save_plan self plan (tick m)) = Ok run_dir
    /\ res = fst fin
    /\ self' = Executor.ls_self st
    /\ m' = snd (Executor._save_traces run_dir res (snd fin)).
Proof.
  intros Hp Hk.
  destruct (execute_plan_unfold self plan false m Hp) as (run_dir & Hdir & Hrun).
  destruct (run_steps_succeed_then_fail k _ _ Hk)
    as (ok & tr & Htrs & Htot & Hlen & Hok & Hst & Hids).
  destruct (entry_state_result self plan m) as (Hnil & _ & _).
  rewrite Hnil in Htrs. cbn [app] in Htrs.
  pose proof (run_steps_stop k _ _ Hk) as Hstop.
  set (st := Executor.run_steps false (Plan.steps plan) (entry_state self plan m)) in *.
  destruct (finalize_spec (Executor.ls_result st) (Executor.ls_machine st))
    as (Ftr & _ & Fs & Ff & Fk & Fo).
  assert (Hfail : count_status FAILURE (ok ++ [tr]) = 1%Z).
  { rewrite count_status_app, (count_status_uniform SUCCESS FAILURE ok Hok).
    simpl. rewrite Hst. reflexivity. }
  assert (Hsucc : count_status SUCCESS (ok ++ [tr]) = Z.of_nat k).
  { rewrite count_status_app, (count_status_uniform SUCCESS SUCCESS ok Hok).
    simpl. rewrite Hst, Hlen. simpl. lia. }
  assert (Hskip : count_status SKIPPED (ok ++ [tr]) = 0%Z).
  { rewrite count_status_app, (count_status_uniform SUCCESS SKIPPED ok Hok).
    simpl. rewrite Hst. reflexivity. }
  eexists _, _, _, run_dir. cbv zeta. split; [exact Hrun|].
  rewrite Fs, Ff, Fk, Fo, Ftr, Htrs, Hfail, Hsucc, Hskip.
  conjs; try reflexivity.
  - exact Hids.
  - rewrite length_app, Hlen. simpl. lia.
  - exact Hdir.
  - rewrite <- Hstop. reflexivity.
  - rewrite <- Hstop. reflexivity.
  - rewrite <- Hstop. reflexivity.
Qed.

(** One success, then a tool that raises, then a step never reached. *)
Lemma execute_plan_stops_at_first_failure_witness :
  exists res self' m' run_dir,
    let st :=
      Executor.run_steps false (firstn 2 (Plan.steps SimHost.plan_crash_second))
        (entry_state SimHost.executor SimHost.plan_crash_second SimHost.start) in
    let fin :=
      ExecutionResult.finalize (Executor.ls_result st) (Executor.ls_machine st) in
    Executor.execute_plan SimHost.executor SimHost.plan_crash_second false
      SimHost.start = (Ok res, self', m')
    /\ ExecutionResult.successful_steps res = 1%Z
    /\ ExecutionResult.failed_steps res = 1%Z
    /\ ExecutionResult.skipped_steps res = 0%Z
    /\ ExecutionResult.overall_status res = FAILURE
    /\ map TraceEntry.step_id (ExecutionResult.traces res)
       = map Step.id (firstn 2 (Plan.steps SimHost.plan_crash_second))
    /\ length (ExecutionResult.traces res) = 2%nat
    /\ fst (Executor._save_plan SimHost.executor SimHost.plan_crash_second
              (tick SimHost.start)) = Ok run_dir
    /\ res = fst fin
    /\ self' = Executor.ls_self st
    /\ m' = snd (Executor._save_traces run_dir res (snd fin)).
Proof.
  apply (execute_plan_stops_at_first_failure SimHost.executor
           SimHost.plan_crash_second 1 SimHost.start).
  - apply sim_persistence_ok.
  - vm_compute. reflexivity.
Defined.

(** C1 as stated fails: of two steps the first is refused, so [N = 2]
    and [k = 0], and the claim asks for [skipped_steps = N-k-1 = 1];
    the result has [skipped_steps = 0]. *)
Lemma skipped_steps_counterexample :
  succeed_then_fail 0 (entry_state SimHost.executor SimHost.plan_refused_first
                         SimHost.start)
    (Plan.steps SimHost.plan_refused_first) = true
  /\ exists res,
       fst (fst (Executor.execute_plan SimHost.executor
                   SimHost.plan_refused_first false SimHost.start)) = Ok res
       /\ ExecutionResult.total_steps res = 2%Z
       /\ ExecutionResult.failed_steps res = 1%Z
       /\ ExecutionResult.skipped_steps res = 0%Z
       /\ ExecutionResult.skipped_steps res <> (2 - 0 - 1)%Z.
Proof.
  split; [vm_compute; reflexivity|].
  eexists. split; [vm_compute; reflexivity|].
  repeat split. discriminate.
Qed.

(** C7. With a working runs directory [execute_plan] returns an
    [ExecutionResult], in dry-run mode or not, whatever the tools do.
    When a step fails, by an exception while its inputs are resolved,
    by a tool name absent from the registry, by an exception raised
    inside the tool or by a failed [ToolOutput], the call still returns:
    the result has [overall_status = FAILURE] and its last trace entry
    is the entry of that step, of status FAILURE, carrying the message
    of the failure.  When no step fails the result is a SUCCESS. *)
Theorem execute_plan_captures_step_failures {World : Type} `{Host World}
    `{Serializer} (self : Executor.t World) (plan : Plan.t)
    (m : machine World) :
  persistence_ok self ->
  (forall dry_run, exists res self' m',
      Executor.execute_plan self plan dry_run m = (Ok res, self', m'))
  /\ exists res self' m',
       Executor.execute_plan self plan false m = (Ok res, self', m')
       /\ match first_failure (entry_state self plan m) (Plan.steps plan) with
          | Some (step, f) =>
              ExecutionResult.overall_status res = FAILURE
              /\ exists tr,
                   last_trace (ExecutionResult.traces res) = Some tr
                   /\ TraceEntry.step_id tr = Step.id step
                   /\ TraceEntry.status tr = FAILURE
                   /\ TraceEntry.error tr = Some (failure_message f)
          | None =>
              ExecutionResult.overall_status res = SUCCESS
              /\ Forall (fun tr => TraceEntry.status tr = SUCCESS)
                   (ExecutionResult.traces res)
          end.
Proof.
  intros Hp. split.
  - intros dry_run.
    destruct (execute_plan_returns self plan dry_run m Hp) as (m' & Hrun).
    eexists _, _, _. exact Hrun.
  - destruct (execute_plan_returns self plan false m Hp) as (m' & Hrun).
    eexists _, _, _. split; [exact Hrun|].
    destruct (run_steps_spec (Plan.steps plan) (entry_state self plan m))
      as (trs & Htrs & Htot & Hcase).
    destruct (entry_state_result self plan m) as (Hnil & Hn & _).
    rewrite Hnil in Htrs. cbn [app] in Htrs. rewrite Hn in Htot.
    set (st := Executor.run_steps false (Plan.steps plan) (entry_state self plan m)) in *.
    destruct (finalize_spec (Executor.ls_result st) (Executor.ls_machine st))
      as (Ftr & _ & _ & _ & _ & Fo).
    rewrite Fo, Ftr, Htrs, Htot.
    destruct (first_failure (entry_state self plan m) (Plan.steps plan))
      as [[step f]|].
    + destruct Hcase as (ok & tr & -> & Hok & Hst & Herr & Hid).
      split.
      * rewrite count_status_app, (count_status_uniform SUCCESS FAILURE ok Hok).
        simpl. rewrite Hst. reflexivity.
      * exists tr. unfold last_trace. rewrite rev_app_distr. simpl.
        repeat split; assumption.
    + destruct Hcase as (Hids & Hall). split; [|exact Hall].
      rewrite (count_status_uniform SUCCESS FAILURE trs Hall),
              (count_status_uniform SUCCESS SUCCESS trs Hall).
      simpl.
      assert (Hlen : length trs = length (Plan.steps plan)).
      { rewrite <- (length_map TraceEntry.step_id trs), Hids, length_map.
        reflexivity. }
      rewrite Hlen, Z.eqb_refl. reflexivity.
Qed.

(** The first step of the plan is refused by its tool, which reports
    the error "refused" in its [ToolOutput]. *)
Lemma execute_plan_captures_step_failures_witness :
  (forall dry_run, exists res self' m',
      Executor.execute_plan SimHost.executor SimHost.plan_refused_first dry_run
        SimHost.start = (Ok res, self', m'))
  /\ exists res self' m',
       Executor.execute_plan SimHost.executor SimHost.plan_refused_first false
         SimHost.start = (Ok res, self', m')
       /\ ExecutionResult.overall_status res = FAILURE
       /\ exists tr,
            last_trace (ExecutionResult.traces res) = Some tr
            /\ TraceEntry.step_id tr = py "1"
            /\ TraceEntry.status tr = FAILURE
            /\ TraceEntry.error tr = Some (py "refused").
Proof.
  exact (execute_plan_captures_step_failures SimHost.executor
           SimHost.plan_refused_first SimHost.start
           (sim_persistence_ok SimHost.executor)).
Defined.

(** The three infrastructure and tool failures of C7, each with the
    message its trace entry carries. *)
Example failure_messages :
  failure_message (ToolNotFound (py "browser"))
    = py "Tool 'browser' not found in registry"
  /\ failure_message (ToolRaised (mk_exn RuntimeError (py "boom"))) = py "boom"
  /\ failure_message (ToolFailed (fail_output (py "refused"))) = py "refused"
  /\ failure_message (ToolFailed (mk_output false VNone None))
     = py "Unknown error".
Proof. repeat split. Qed.

(** C9. A plan without steps yields a result with [total_steps = 0],
    all three counts at [0], no trace entry and [overall_status =
    SUCCESS]: zero successes out of zero steps is a full success. *)
Theorem execute_plan_empty {World : Type} `{Host World} `{Serializer}
    (self : Executor.t World) (plan : Plan.t) (dry_run : bool)
    (m : machine World) :
  persistence_ok self ->
  Plan.steps plan = [] ->
  exists res self' m',
    Executor.execute_plan self plan dry_run m = (Ok res, self', m')
    /\ ExecutionResult.total_steps res = 0%Z
    /\ ExecutionResult.successful_steps res = 0%Z
    /\ ExecutionResult.failed_steps res = 0%Z
    /\ ExecutionResult.skipped_steps res = 0%Z
    /\ ExecutionResult.traces res = []
    /\ ExecutionResult.overall_status res = SUCCESS.
Proof.
  intros Hp Hnil.
  destruct (execute_plan_returns self plan dry_run m Hp) as (m' & Hrun).
  eexists _, _, _. split; [exact Hrun|].
  destruct (entry_state_result self plan m) as (Htr & Hn & _).
  rewrite Hnil in *. cbn [Executor.run_steps length Z.of_nat] in *.
  destruct (finalize_spec (Executor.ls_result (entry_state self plan m))
              (Executor.ls_machine (entry_state self plan m)))
    as (Ftr & Ft & Fs & Ff & Fk & Fo).
  rewrite Ftr, Ft, Fs, Ff, Fk, Fo, Htr, Hn. repeat split.
Qed.

Lemma execute_plan_empty_witness :
  exists res self' m',
    Executor.execute_plan SimHost.executor (SimHost.plan []) false SimHost.start
      = (Ok res, self', m')
    /\ ExecutionResult.total_steps res = 0%Z
    /\ ExecutionResult.successful_steps res = 0%Z
    /\ ExecutionResult.failed_steps res = 0%Z
    /\ ExecutionResult.skipped_steps res = 0%Z
    /\ ExecutionResult.traces res = []
    /\ ExecutionResult.overall_status res = SUCCESS.
Proof.
  apply (execute_plan_empty SimHost.executor (SimHost.plan []) false SimHost.start).
  - apply sim_persistence_ok.
  - reflexivity.
Defined.

(** ** The recorded outputs *)

Section StepOutputs.
Context {World : Type} `{Host World} `{Serializer}.

(** One iteration writes at most the entry of its own step. *)
Lemma run_step_outputs_other (dry_run : bool) (st : Executor.loop_state)
    (step : Step.t) (id : pystr) :
  id <> Step.id step ->
  Executor._step_outputs (Executor.ls_self (snd (Executor.run_step dry_run st step))) !! id
  = Executor._step_outputs (Executor.ls_self st) !! id.
Proof.
  intros Hne. unfold Executor.run_step.
  destruct (TraceEntry.create _ _ _ _ _) as [trace m1].
  destruct dry_run.
  - destruct (TraceEntry.mark_success _ _ _) as [trace1 m2]. cbn.
    apply lookup_insert_ne. congruence.
  - unfold Executor.fail_step.
    destruct (Executor._resolve_inputs _ _) as [resolved|e].
    2: { destruct (TraceEntry.mark_failure _ _ _). reflexivity. }
    destruct (ToolRegistry.get _ _) as [tool|].
    2: { destruct (TraceEntry.mark_failure _ _ _). reflexivity. }
    destruct (TraceEntry.mark_started _ _) as [trace1 m2].
    destruct (tool_execute tool resolved m2) as [[output|e] m3].
    2: { destruct (TraceEntry.mark_failure _ _ _). reflexivity. }
    destruct (success output).
    + destruct (TraceEntry.mark_success _ _ _). cbn.
      apply lookup_insert_ne. congruence.
    + destruct (TraceEntry.mark_failure _ _ _). cbn.
      apply lookup_insert_ne. congruence.
Qed.

Lemma run_steps_outputs_other (dry_run : bool) (steps : list Step.t)
    (st : Executor.loop_state) (id : pystr) :
  ~ In id (map Step.id steps) ->
  Executor._step_outputs (Executor.ls_self (Executor.run_steps dry_run steps st)) !! id
  = Executor._step_outputs (Executor.ls_self st) !! id.
Proof.
  revert st. induction steps as [|step rest IH]; intros st Hnot; [reflexivity|].
  simpl in Hnot |- *.
  pose proof (run_step_outputs_other dry_run st step id) as Hstep.
  destruct (Executor.run_step dry_run st step) as [continue st'].
  cbn [snd] in Hstep.
  destruct continue.
  - rewrite IH by tauto. apply Hstep. intros ->. tauto.
  - apply Hstep. intros ->. tauto.
Qed.
End StepOutputs.

(** C3, as the code has it.  The mapping from step id to output belongs
    to the [Executor] instance: it is empty when the instance is
    constructed, [execute_plan] enters its loop with the mapping as the
    instance holds it (nothing resets it), and a call only writes the
    entries of the steps of its own plan, so that every other entry is
    after the call what it was before. *)
Theorem step_outputs_persist_across_calls {World : Type} `{Host World}
    `{Serializer} (registry : option (gmap pystr (Tool World)))
    (workspace_root runs_dir : fspath) (m0 : machine World)
    (self : Executor.t World) (plan : Plan.t) (dry_run : bool)
    (m : machine World) (id : pystr) :
  ~ In id (map Step.id (Plan.steps plan)) ->
  match fst (Executor.init registry workspace_root runs_dir m0) with
  | Ok fresh => Executor._step_outputs fresh = ∅
  | Raise _ => True
  end
  /\ Executor._step_outputs (Executor.ls_self (entry_state self plan m))
     = Executor._step_outputs self
  /\ Executor._step_outputs
       (snd (fst (Executor.execute_plan self plan dry_run m))) !! id
     = Executor._step_outputs self !! id.
Proof.
  intros Hnot. split; [|split].
  - unfold Executor.init. destruct (mkdir runs_dir m0) as [[[]|e] m1]; exact I || reflexivity.
  - destruct (entry_state_result self plan m) as (_ & _ & ->). reflexivity.
  - unfold Executor.execute_plan.
    destruct (now m) as [start m1].
    destruct (Executor._save_plan self plan m1) as [[run_dir|e] m2];
      [|reflexivity].
    set (st := Executor.run_steps dry_run (Plan.steps plan) _).
    destruct (ExecutionResult.finalize _ _) as [res m3].
    assert (Hst : Executor._step_outputs (Executor.ls_self st) !! id
                  = Executor._step_outputs self !! id).
    { unfold st. rewrite run_steps_outputs_other by exact Hnot. reflexivity. }
    destruct (Executor._save_traces run_dir res m3) as [[[]|e] m4]; exact Hst.
Qed.

(** The output that [plan_a] recorded under step id 1 is still there
    after [plan_b], which has no step 1, has run on the same
    executor. *)
Lemma step_outputs_persist_across_calls_witness :
  match fst (Executor.init None [py "ws"] [py "runs"] SimHost.start) with
  | Ok fresh => Executor._step_outputs fresh = ∅
  | Raise _ => True
  end
  /\ Executor._step_outputs
       (Executor.ls_self (entry_state SimHost.executor_after_a SimHost.plan_b
                            SimHost.machine_after_a))
     = Executor._step_outputs SimHost.executor_after_a
  /\ Executor._step_outputs
       (snd (fst (Executor.execute_plan SimHost.executor_after_a SimHost.plan_b
                    false SimHost.machine_after_a))) !! py "1"
     = Executor._step_outputs SimHost.executor_after_a !! py "1".
Proof.
  apply (step_outputs_persist_across_calls None [py "ws"] [py "runs"]
           SimHost.start SimHost.executor_after_a SimHost.plan_b false
           SimHost.machine_after_a (py "1")).
  simpl. intros [Heq|[]]. vm_compute in Heq. discriminate.
Defined.

(** C3 as stated fails.  On a fresh executor [plan_a] runs first; when
    [plan_b] is then run on the same instance, the mapping it starts
    with holds the output of step 1 of [plan_a], and the reference
    [ref:step:1] of [plan_b] resolves to it. *)
Lemma step_outputs_scope_counterexample :
  Executor._step_outputs SimHost.executor = ∅
  /\ Executor._step_outputs
       (Executor.ls_self (entry_state SimHost.executor_after_a SimHost.plan_b
                            SimHost.machine_after_a)) !! py "1"
     = Some (VDict [(py "content", VStr (py "from plan A"))])
  /\ Executor._resolve_inputs SimHost.executor_after_a
       [(py "msg", VStr (py "ref:step:1"))]
     = Ok [(py "msg", VStr (py "from plan A"))]
  /\ exists res,
       fst (fst (Executor.execute_plan SimHost.executor_after_a SimHost.plan_b
                   false SimHost.machine_after_a)) = Ok res
       /\ map TraceEntry.outputs (ExecutionResult.traces res)
          = [Some (VDict [(py "msg", VStr (py "from plan A"))])].
Proof.
  split; [reflexivity|].
  split; [vm_compute; reflexivity|].
  split; [vm_compute; reflexivity|].
  eexists. split; vm_compute; reflexivity.
Qed.

(** ** Reference resolution *)

Section ValueInduction.
Variable P : value -> Prop.
Hypothesis HNone : P VNone.
Hypothesis HBool : forall b, P (VBool b).
Hypothesis HInt : forall z, P (VInt z).
Hypothesis HStr : forall s, P (VStr s).
Hypothesis HList : forall l, Forall P l -> P (VList l).
Hypothesis HDict : forall d, Forall (fun kv => P (snd kv)) d -> P (VDict d).

(** Induction on values with the hypotheses for the elements of a list
    and for the values of a dictionary. *)
Lemma value_nested_ind : forall v, P v.
Proof.
  fix IH 1. intros [ | b | z | s | l | d].
  - exact HNone.
  - apply HBool.
  - apply HInt.
  - apply HStr.
  - apply HList. induction l as [|x l IHl]; constructor; [apply IH | exact IHl].
  - apply HDict. induction d as [|[k x] d IHd]; constructor; [apply IH | exact IHd].
Qed.
End ValueInduction.

Lemma dict_set_fresh (d : dict) (k : pystr) (v : value) :
  ~ In k (map fst d) -> dict_set d k v = d ++ [(k, v)].
Proof.
  induction d as [|[k' v'] d IH]; simpl; intros Hn; [reflexivity|].
  destruct (pystr_eqb k' k) eqn:E.
  - apply pystr_eqb_true in E. tauto.
  - rewrite IH by tauto. reflexivity.
Qed.

Lemma resolve_str_plain (outs : gmap pystr value) (s : pystr) :
  str_startswith s (py "ref:step:") = false ->
  Executor.resolve_str outs s = VStr s.
Proof. intros E. unfold Executor.resolve_str. rewrite E. reflexivity. Qed.

Lemma resolve_list_no_dict (l : list value) :
  forallb (fun x => match x with VDict _ => false | _ => true end) l = true ->
  Executor.resolve_list l = Ok l.
Proof.
  induction l as [|x l IH]; simpl; intros E; [reflexivity|].
  apply andb_true_iff in E as [Ex El].
  rewrite (IH El). destruct x; try reflexivity. discriminate.
Qed.

(** The loop copies its items when every string is reference-free, no
    list holds a dictionary and the nested call copies the nested
    dictionaries. *)
Lemma resolve_loop_plain (outs : gmap pystr value)
    (rec : value -> result dict) (items resolved : dict) :
  Forall (fun kv => plain (snd kv) = true) items ->
  Forall (fun kv => forall d, snd kv = VDict d -> rec (VDict d) = Ok d) items ->
  NoDup (map fst (resolved ++ items)) ->
  Executor.resolve_loop outs rec items resolved = Ok (resolved ++ items).
Proof.
  revert resolved. induction items as [|[k v] items IH]; intros resolved Hp Hr Hk.
  - simpl. rewrite app_nil_r. reflexivity.
  - inversion Hp as [|? ? Hpv Hp']; subst. inversion Hr as [|? ? Hrv Hr']; subst.
    cbn [snd] in Hpv, Hrv.
    assert (Hfresh : ~ In k (map fst resolved)).
    { rewrite map_app in Hk. apply NoDup_app in Hk as (_ & Hdisj & _).
      intros Hin. apply (Hdisj k).
      - apply list_elem_of_In. exact Hin.
      - simpl. left. }
    assert (Hnext : forall v', Executor.resolve_loop outs rec items
                                 (dict_set resolved k v')
                               = Ok (resolved ++ (k, v') :: items)).
    { intros v'. rewrite dict_set_fresh by exact Hfresh.
      rewrite IH; try assumption.
      - rewrite <- app_assoc. reflexivity.
      - rewrite <- app_assoc. simpl.
        rewrite !map_app in *. simpl in *. exact Hk. }
    simpl. destruct v as [ | b | z | s | l | d]; try apply Hnext.
    + simpl in Hpv. apply negb_true_iff in Hpv.
      rewrite (resolve_str_plain outs s Hpv). apply Hnext.
    + simpl in Hpv. rewrite (resolve_list_no_dict l Hpv). apply Hnext.
    + rewrite (Hrv d eq_refl). apply Hnext.
Qed.

Lemma resolve_dict_plain (outs : gmap pystr value) (v : value) :
  plain v = true -> keys_unique v = true ->
  forall d, v = VDict d -> Executor.resolve_dict outs v = Ok d.
Proof.
  induction v as [ | b | z | s | l _ | items IH] using value_nested_ind;
    intros Hp Hk d Hv; try discriminate.
  injection Hv as <-. simpl.
  simpl in Hp, Hk. apply andb_true_iff in Hk as [Hnd Hks].
  apply bool_decide_eq_true in Hnd.
  apply (resolve_loop_plain outs (Executor.resolve_dict outs) items []).
  - apply List.Forall_forall. intros kv Hin.
    rewrite forallb_forall in Hp. apply Hp. exact Hin.
  - rewrite List.Forall_forall in IH. apply List.Forall_forall.
    intros kv Hin d' Hd'.
    rewrite <- Hd'. apply IH.
    + exact Hin.
    + rewrite forallb_forall in Hp. apply Hp. exact Hin.
    + rewrite forallb_forall in Hks. apply Hks. exact Hin.
    + exact Hd'.
  - exact Hnd.
Qed.

(** Where C4 holds: a dictionary with no [ref:step:] string and no
    dictionary inside a list resolves to itself. *)
Lemma resolve_inputs_plain_identity {World : Type} (self : Executor.t World)
    (inputs : dict) :
  plain (VDict inputs) = true ->
  keys_unique (VDict inputs) = true ->
  Executor._resolve_inputs self inputs = Ok inputs.
Proof.
  intros Hp Hk. unfold Executor._resolve_inputs.
  apply (resolve_dict_plain _ (VDict inputs) Hp Hk). reflexivity.
Qed.

(** C4 at a failing input.  The inputs [{"items": [{"a": 1}]}] hold no
    [ref:step:] string at any depth, yet resolving them raises
    [NameError] on every executor: the list comprehension names an
    unbound [k]. *)
Theorem resolve_inputs_dict_in_list_raises {World : Type}
    (self : Executor.t World) :
  ref_free (VDict [(py "items", VList [VDict [(py "a", VInt 1)]])]) = true
  /\ Executor._resolve_inputs self
       [(py "items", VList [VDict [(py "a", VInt 1)]])]
     = Raise (mk_exn NameError (py "name 'k' is not defined")).
Proof. split; reflexivity. Qed.

(** The step that carries such inputs fails before its tool is
    looked up. *)
Example dict_in_list_fails_the_step :
  step_failure SimHost.executor
    (SimHost.step "1" "echo" [(py "items", VList [VDict [(py "a", VInt 1)]])])
    SimHost.start
  = Some (InputsRaised (mk_exn NameError (py "name 'k' is not defined"))).
Proof. reflexivity. Qed.

Lemma split_reference (rest : pystr) :
  ~ In colon rest ->
  str_split (py "ref:step:" ++ rest) colon = [py "ref"; py "step"; rest].
Proof.
  intros Hn. change (py "ref:step:" ++ rest)
    with (114 :: 101 :: 102 :: 58 :: 115 :: 116 :: 101 :: 112 :: 58 :: rest)%N.
  cbn [str_split N.eqb Pos.eqb colon].
  rewrite (str_split_no_sep rest colon Hn). reflexivity.
Qed.

(** What a reference without a further colon resolves to: the step id
    looked up is everything after [ref:step:]. *)
Lemma resolve_str_reference (outs : gmap pystr value) (rest : pystr) :
  ~ In colon rest ->
  Executor.resolve_str outs (py "ref:step:" ++ rest)
  = match outs !! rest with
    | Some (VDict d) =>
        match dict_get d (py "content") with
        | Some content => content
        | None => VDict d
        end
    | Some step_output => step_output
    | None => VStr (py "ref:step:" ++ rest)
    end.
Proof.
  intros Hn. unfold Executor.resolve_str.
  rewrite (str_startswith_app (py "ref:step:") rest (py "ref:step:") eq_refl).
  rewrite (split_reference rest Hn). cbn [length Nat.leb nth].
  destruct (outs !! rest) as [[ | | | | |d]|]; reflexivity.
Qed.

(** Scenario 4: step 1 produced [{content: "Hello"}], and the input
    [ref:step:1] resolves to the string [Hello]. *)
Example resolve_scenario_4 :
  Executor._resolve_inputs
    (Executor.record_output SimHost.executor (py "1")
       (VDict [(py "content", VStr (py "Hello"))]))
    [(py "action", VStr (py "write_text")); (py "content", VStr (py "ref:step:1"))]
  = Ok [(py "action", VStr (py "write_text")); (py "content", VStr (py "Hello"))].
Proof. vm_compute. reflexivity. Qed.

(** C5 at a failing input.  Step 1 has the recorded output
    [{content: "Hello"}]; the reference [ref:step:1] resolves to
    [Hello], but the documented form [ref:step:1.output] is left
    verbatim, because the step id looked up is [1.output]. *)
Theorem resolve_output_suffix_left_verbatim :
  let self := Executor.record_output SimHost.executor (py "1")
                (VDict [(py "content", VStr (py "Hello"))]) in
  Executor._step_outputs self !! py "1"
    = Some (VDict [(py "content", VStr (py "Hello"))])
  /\ Executor._resolve_inputs self [(py "content", VStr (py "ref:step:1"))]
     = Ok [(py "content", VStr (py "Hello"))]
  /\ Executor._resolve_inputs self [(py "content", VStr (py "ref:step:1.output"))]
     = Ok [(py "content", VStr (py "ref:step:1.output"))].
Proof. repeat split; vm_compute; reflexivity. Qed.

(** Five characters, one of them outside ASCII: six bytes are reported,
    in overwrite mode as in append mode. *)
Example write_text_six_bytes :
  let inputs mode := [(py "path", VStr (py "out/note.txt"));
                      (py "content", VStr [104; 233; 108; 108; 111]);
                      (py "mode", VStr mode)] in
  fst (FileTool._write_text (FileTool.mk [py "ws"]) (inputs (py "overwrite")) SimHost.start)
    = mk_output true
        (VDict [(py "path", VStr (py "/ws/out/note.txt"));
                (py "bytes_written", VInt 6)]) None
  /\ fst (FileTool._write_text (FileTool.mk [py "ws"]) (inputs (py "append")) SimHost.start)
     = mk_output true
         (VDict [(py "path", VStr (py "/ws/out/note.txt"));
                 (py "bytes_written", VInt 6)]) None.
Proof. split; vm_compute; reflexivity. Qed.


(** * Further properties of the code *)

(** ** The executor: dry runs, invariants of the result, persistence *)

Section ExecutorMore.
Context {World : Type} `{Host World} `{Serializer}.

Lemma now_calls (m : machine World) : calls (snd (now m)) = calls m.
Proof. unfold now. destruct (host_now (world m)). reflexivity. Qed.

Lemma timestamp_calls (m : machine World) : calls (snd (timestamp m)) = calls m.
Proof. unfold timestamp. destruct (host_timestamp (world m)). reflexivity. Qed.

Lemma tick_calls (m : machine World) : calls (tick m) = calls m.
Proof. apply now_calls. Qed.

(** In any mode an iteration appends one entry that carries the id, the
    tool name, the digest and the inputs of the step as the plan gives
    them. *)
Lemma run_step_identity (dry_run : bool) (st : Executor.loop_state)
    (step : Step.t) :
  exists tr,
    ExecutionResult.traces (Executor.ls_result (snd (Executor.run_step dry_run st step)))
      = ExecutionResult.traces (Executor.ls_result st) ++ [tr]
    /\ trace_identity tr = step_identity step
    /\ ExecutionResult.total_steps (Executor.ls_result (snd (Executor.run_step dry_run st step)))
       = ExecutionResult.total_steps (Executor.ls_result st).
Proof.
  unfold Executor.run_step, TraceEntry.create, Executor._make_digest.
  destruct (now (Executor.ls_machine st)) as [ts m1].
  destruct dry_run.
  { unfold TraceEntry.mark_success. destruct (now m1) as [ts1 m2].
    eexists. cbn [snd Executor.ls_result].
    rewrite set_current_add_trace. repeat split. }
  unfold Executor.fail_step.
  destruct (Executor._resolve_inputs _ _) as [resolved|e].
  2: { unfold TraceEntry.mark_failure. destruct (now m1) as [ts2 m2].
       eexists. cbn [snd Executor.ls_result].
       rewrite set_current_add_trace. repeat split. }
  destruct (ToolRegistry.get _ _) as [tool|].
  2: { unfold TraceEntry.mark_failure. destruct (now m1) as [ts2 m2].
       eexists. cbn [snd Executor.ls_result].
       rewrite set_current_add_trace. repeat split. }
  unfold TraceEntry.mark_started. destruct (now m1) as [ts1 m2].
  destruct (tool_execute tool resolved m2) as [[output|e] m3].
  2: { unfold TraceEntry.mark_failure. destruct (now m3) as [ts3 m4].
       eexists. cbn [snd Executor.ls_result].
       rewrite set_current_twice, set_current_add_trace. repeat split. }
  destruct (success output).
  - unfold TraceEntry.mark_success. destruct (now m3) as [ts3 m4].
    eexists. cbn [snd Executor.ls_result].
    destruct (Executor.produced_path (data output));
      cbn [ExecutionResult.add_produced ExecutionResult.traces
           ExecutionResult.total_steps];
      rewrite ?set_current_twice, set_current_add_trace; repeat split.
  - unfold TraceEntry.mark_failure. destruct (now m3) as [ts3 m4].
    eexists. cbn [snd Executor.ls_result].
    rewrite set_current_twice, set_current_add_trace. repeat split.
Qed.

Lemma run_steps_identity (dry_run : bool) (steps : list Step.t)
    (st : Executor.loop_state) :
  exists trs,
    ExecutionResult.traces (Executor.ls_result (Executor.run_steps dry_run steps st))
      = ExecutionResult.traces (Executor.ls_result st) ++ trs
    /\ map trace_identity trs = map step_identity (firstn (length trs) steps)
    /\ (length trs <= length steps)%nat.
Proof.
  revert st. induction steps as [|step rest IH]; intros st.
  - exists []. simpl. rewrite app_nil_r. repeat split. lia.
  - destruct (run_step_identity dry_run st step) as (tr & Htr & Hid & _).
    simpl. destruct (Executor.run_step dry_run st step) as [continue st'].
    cbn [snd] in *. destruct continue.
    + destruct (IH st') as (trs & Htrs & Hids & Hlen).
      exists (tr :: trs). rewrite Htrs, Htr, <- app_assoc.
      split; [reflexivity|]. split.
      * simpl. rewrite Hid, Hids. reflexivity.
      * simpl. lia.
    + exists [tr]. split; [exact Htr|]. split.
      * simpl. rewrite Hid. reflexivity.
      * simpl. lia.
Qed.

(** *** Dry runs *)

(** One dry iteration: it records the placeholder, succeeds, and
    neither consults the registry nor logs a call. *)
Lemma run_step_dry (st : Executor.loop_state) (step : Step.t) :
  exists tr m',
    Executor.run_step true st step
      = (true,
         Executor.mk_loop
           (Executor.record_output (Executor.ls_self st) (Step.id step)
              Executor.dry_run_output)
           (ExecutionResult.with_traces (Executor.ls_result st)
              (ExecutionResult.traces (Executor.ls_result st) ++ [tr]))
           m')
    /\ TraceEntry.step_id tr = Step.id step
    /\ TraceEntry.status tr = SUCCESS
    /\ TraceEntry.outputs tr = Some Executor.dry_run_output
    /\ calls m' = calls (Executor.ls_machine st).
Proof.
  unfold Executor.run_step, TraceEntry.create, TraceEntry.mark_success.
  pose proof (now_calls (Executor.ls_machine st)) as C1.
  destruct (now (Executor.ls_machine st)) as [ts m1].
  pose proof (now_calls m1) as C2.
  destruct (now m1) as [ts1 m2]. cbn [snd] in C1, C2.
  eexists _, _. split.
  - unfold ExecutionResult.set_current, ExecutionResult.add_trace.
    cbn [ExecutionResult.traces ExecutionResult.with_traces
         ExecutionResult.plan_goal ExecutionResult.plan_risk_level
         ExecutionResult.workspace_root ExecutionResult.total_steps
         ExecutionResult.successful_steps ExecutionResult.failed_steps
         ExecutionResult.skipped_steps ExecutionResult.overall_status
         ExecutionResult.start_time ExecutionResult.end_time
         ExecutionResult.error_summary ExecutionResult.produced_files].
    rewrite removelast_last. reflexivity.
  - repeat split. congruence.
Qed.

Lemma run_steps_dry (steps : list Step.t) (st : Executor.loop_state) :
  exists trs,
    ExecutionResult.traces (Executor.ls_result (Executor.run_steps true steps st))
      = ExecutionResult.traces (Executor.ls_result st) ++ trs
    /\ ExecutionResult.total_steps (Executor.ls_result (Executor.run_steps true steps st))
       = ExecutionResult.total_steps (Executor.ls_result st)
    /\ ExecutionResult.produced_files (Executor.ls_result (Executor.run_steps true steps st))
       = ExecutionResult.produced_files (Executor.ls_result st)
    /\ map TraceEntry.step_id trs = map Step.id steps
    /\ Forall (fun tr => TraceEntry.status tr = SUCCESS
                         /\ TraceEntry.outputs tr = Some Executor.dry_run_output) trs
    /\ calls (Executor.ls_machine (Executor.run_steps true steps st))
       = calls (Executor.ls_machine st)
    /\ forall id, In id (map Step.id steps) ->
         Executor._step_outputs (Executor.ls_self (Executor.run_steps true steps st)) !! id
         = Some Executor.dry_run_output.
Proof.
  revert st. induction steps as [|step rest IH]; intros st.
  - exists []. simpl. rewrite app_nil_r. repeat split; try constructor.
    intros id [].
  - destruct (run_step_dry st step) as (tr & m' & Hrun & Hid & Hst & Hout & Hc).
    simpl. rewrite Hrun.
    destruct (IH (Executor.mk_loop
                    (Executor.record_output (Executor.ls_self st) (Step.id step)
                       Executor.dry_run_output)
                    (ExecutionResult.with_traces (Executor.ls_result st)
                       (ExecutionResult.traces (Executor.ls_result st) ++ [tr]))
                    m'))
      as (trs & Htrs & Htot & Hprod & Hids & Hall & Hcalls & Hrec).
    exists (tr :: trs). rewrite Htrs, Htot, Hprod, Hcalls.
    cbn [Executor.ls_result Executor.ls_machine ExecutionResult.traces
         ExecutionResult.with_traces ExecutionResult.total_steps
         ExecutionResult.produced_files].
    rewrite <- app_assoc.
    split; [reflexivity|]. split; [reflexivity|]. split; [reflexivity|].
    split; [simpl; rewrite Hid, Hids; reflexivity|].
    split; [constructor; [split; assumption | exact Hall]|].
    split; [exact Hc|].
    intros id [<-|Hin].
    + destruct (in_dec (fun a b : pystr => decide (a = b)) (Step.id step)
                  (map Step.id rest))
        as [Hin|Hnot].
      * apply Hrec. exact Hin.
      * rewrite (run_steps_outputs_other true rest _ (Step.id step) Hnot).
        cbn. apply lookup_insert_eq.
    + apply Hrec. exact Hin.
Qed.
End ExecutorMore.

Section ExecutorResults.
Context {World : Type} `{Host World} `{Serializer}.

Lemma save_plan_calls (self : Executor.t World) (plan : Plan.t)
    (m : machine World) :
  persistence_ok self ->
  exists ts m1,
    Executor._save_plan self plan m
      = (Ok (path_child (Executor.runs_dir self) ts), m1)
    /\ calls m1
       = calls m
         ++ [SysMkdir (path_child (Executor.runs_dir self) ts);
             SysWrite (path_child (path_child (Executor.runs_dir self) ts)
                         (py "plan.json")) (VStr (plan_json plan))].
Proof.
  intros [Hmk Hwr]. unfold Executor._save_plan, timestamp.
  destruct (host_timestamp (world m)) as [ts w0].
  unfold mkdir, write_text, logged. cbn [world calls].
  destruct (Hmk (path_child (Executor.runs_dir self) ts) w0) as [w1 ->].
  { apply is_descendant_app. }
  cbv beta iota zeta. cbn [world calls].
  destruct (Hwr (path_child (path_child (Executor.runs_dir self) ts) (py "plan.json"))
              (plan_json plan) w1) as [w2 ->].
  { unfold path_child. rewrite <- app_assoc. apply is_descendant_app. }
  eexists _, _. split; [reflexivity|]. cbn [calls].
  rewrite <- app_assoc. reflexivity.
Qed.

Lemma save_traces_calls (self : Executor.t World) (ts : pystr)
    (r : ExecutionResult.t) (m : machine World) :
  persistence_ok self ->
  exists m1,
    Executor._save_traces (path_child (Executor.runs_dir self) ts) r m
      = (Ok tt, m1)
    /\ calls m1
       = calls m
         ++ [SysWrite (path_child (path_child (Executor.runs_dir self) ts)
                         (py "trace.jsonl"))
               (VStr (Executor.trace_lines (ExecutionResult.traces r)));
             SysWrite (path_child (path_child (Executor.runs_dir self) ts)
                         (py "result.json")) (VStr (result_json r))].
Proof.
  intros [Hmk Hwr]. unfold Executor._save_traces, write_text, logged.
  destruct (Hwr (path_child (path_child (Executor.runs_dir self) ts) (py "trace.jsonl"))
              (Executor.trace_lines (ExecutionResult.traces r)) (world m))
    as [w1 ->].
  { unfold path_child. rewrite <- app_assoc. apply is_descendant_app. }
  cbv beta iota zeta. cbn [world calls].
  destruct (Hwr (path_child (path_child (Executor.runs_dir self) ts) (py "result.json"))
              (result_json r) w1) as [w2 ->].
  { unfold path_child. rewrite <- app_assoc. apply is_descendant_app. }
  eexists. split; [reflexivity|]. cbn [calls].
  rewrite <- app_assoc. reflexivity.
Qed.

Lemma finalize_calls (r : ExecutionResult.t) (m : machine World) :
  calls (snd (ExecutionResult.finalize r m)) = calls m.
Proof.
  unfold ExecutionResult.finalize.
  pose proof (now_calls m) as C. destruct (now m) as [ts m1]. exact C.
Qed.

Lemma finalize_produced (r : ExecutionResult.t) (m : machine World) :
  ExecutionResult.produced_files (fst (ExecutionResult.finalize r m))
  = ExecutionResult.produced_files r.
Proof. unfold ExecutionResult.finalize. destruct (now m). reflexivity. Qed.

(** [execute_plan] with the calls it logs around the loop: the run
    directory and [plan.json] before the first step, [trace.jsonl] and
    [result.json] after the last. *)
Lemma execute_plan_logged (self : Executor.t World) (plan : Plan.t)
    (dry_run : bool) (m : machine World) :
  persistence_ok self ->
  exists ts m',
    let run_dir := path_child (Executor.runs_dir self) ts in
    let st := Executor.run_steps dry_run (Plan.steps plan) (entry_state self plan m) in
    let res := fst (ExecutionResult.finalize (Executor.ls_result st)
                      (Executor.ls_machine st)) in
    Executor.execute_plan self plan dry_run m = (Ok res, Executor.ls_self st, m')
    /\ calls (Executor.ls_machine (entry_state self plan m))
       = calls m ++ [SysMkdir run_dir;
                     SysWrite (path_child run_dir (py "plan.json"))
                       (VStr (plan_json plan))]
    /\ calls m'
       = calls (Executor.ls_machine st)
         ++ [SysWrite (path_child run_dir (py "trace.jsonl"))
               (VStr (Executor.trace_lines (ExecutionResult.traces res)));
             SysWrite (path_child run_dir (py "result.json"))
               (VStr (result_json res))].
Proof.
  intros Hp. unfold Executor.execute_plan, entry_state.
  pose proof (now_calls m) as C0.
  destruct (now m) as [start m0]. cbn [snd] in C0.
  destruct (save_plan_calls self plan m0 Hp) as (ts & m1 & -> & C1).
  cbv zeta.
  set (st := Executor.run_steps dry_run (Plan.steps plan) _).
  pose proof (finalize_calls (Executor.ls_result st) (Executor.ls_machine st)) as C2.
  destruct (ExecutionResult.finalize (Executor.ls_result st) (Executor.ls_machine st))
    as [r' m2]. cbn [fst snd] in *.
  destruct (save_traces_calls self ts r' m2 Hp) as (m3 & -> & C3).
  exists ts, m3. split; [reflexivity|]. split.
  - cbn [Executor.ls_machine]. rewrite C1, C0. reflexivity.
  - rewrite C3, C2. reflexivity.
Qed.

(** The shape of the entries a run appends: successes, closed by at
    most one failure, never more entries than steps. *)
Lemma run_steps_shape (dry_run : bool) (steps : list Step.t)
    (st : Executor.loop_state) :
  exists ok failed,
    ExecutionResult.traces (Executor.ls_result (Executor.run_steps dry_run steps st))
      = ExecutionResult.traces (Executor.ls_result st) ++ ok ++ failed
    /\ ExecutionResult.total_steps (Executor.ls_result (Executor.run_steps dry_run steps st))
       = ExecutionResult.total_steps (Executor.ls_result st)
    /\ Forall (fun t => TraceEntry.status t = SUCCESS) ok
    /\ Forall (fun t => TraceEntry.status t = FAILURE) failed
    /\ (length failed <= 1)%nat
    /\ (length (ok ++ failed) <= length steps)%nat
    /\ (failed = [] -> length ok = length steps).
Proof.
  destruct dry_run.
  - destruct (run_steps_dry steps st)
      as (trs & Htrs & Htot & _ & Hids & Hall & _ & _).
    exists trs, []. rewrite app_nil_r.
    assert (Hlen : length trs = length steps).
    { rewrite <- (length_map TraceEntry.step_id trs), Hids, length_map.
      reflexivity. }
    conjs;
      [ assumption | assumption
      | eapply Forall_impl; [exact Hall|]; intros t [Ht _]; exact Ht
      | apply List.Forall_nil | simpl; lia | lia
      | intros _; exact Hlen ].
  - destruct (run_steps_spec steps st) as (trs & Htrs & Htot & Hcase).
    destruct (run_steps_identity false steps st) as (trs' & Htrs' & _ & Hlen).
    assert (trs' = trs) as ->.
    { rewrite Htrs in Htrs'. apply app_inv_head in Htrs'. congruence. }
    destruct (first_failure st steps) as [[step f]|].
    + destruct Hcase as (ok & tr & -> & Hok & Hst & _ & _).
      exists ok, [tr].
      conjs;
        [ assumption | assumption | assumption
        | constructor; [exact Hst | constructor]
        | simpl; lia | lia | discriminate ].
    + destruct Hcase as (Hids & Hall).
      exists trs, []. rewrite app_nil_r.
      assert (Hl : length trs = length steps).
      { rewrite <- (length_map TraceEntry.step_id trs), Hids, length_map.
        reflexivity. }
      conjs;
        [ assumption | assumption | assumption | apply List.Forall_nil
        | simpl; lia | lia | intros _; exact Hl ].
Qed.
End ExecutorResults.

(** X1. A dry run invokes no tool.  Every step gets a SUCCESS entry
    whose output is the placeholder [{dry_run: true}], the result is a
    SUCCESS with all [N] steps counted, no file is listed as produced,
    and the only calls that reach the filesystem are the four of the
    persistence layer, on files of one fresh directory below
    [runs_dir]. *)
Theorem dry_run_touches_only_the_run_directory {World : Type} `{Host World}
    `{Serializer} (self : Executor.t World) (plan : Plan.t)
    (m : machine World) :
  persistence_ok self ->
  exists res self' m' ts,
    let run_dir := path_child (Executor.runs_dir self) ts in
    Executor.execute_plan self plan true m = (Ok res, self', m')
    /\ ExecutionResult.overall_status res = SUCCESS
    /\ ExecutionResult.successful_steps res = Z.of_nat (length (Plan.steps plan))
    /\ ExecutionResult.failed_steps res = 0%Z
    /\ map TraceEntry.step_id (ExecutionResult.traces res)
       = map Step.id (Plan.steps plan)
    /\ Forall (fun tr => TraceEntry.status tr = SUCCESS
                         /\ TraceEntry.outputs tr = Some Executor.dry_run_output)
         (ExecutionResult.traces res)
    /\ ExecutionResult.produced_files res = []
    /\ calls m'
       = calls m
         ++ [SysMkdir run_dir;
             SysWrite (path_child run_dir (py "plan.json")) (VStr (plan_json plan));
             SysWrite (path_child run_dir (py "trace.jsonl"))
               (VStr (Executor.trace_lines (ExecutionResult.traces res)));
             SysWrite (path_child run_dir (py "result.json"))
               (VStr (result_json res))].
Proof.
  intros Hp.
  destruct (execute_plan_logged self plan true m Hp) as (ts & m' & Hrun & C1 & C2).
  cbv zeta in Hrun, C1, C2.
  destruct (run_steps_dry (Plan.steps plan) (entry_state self plan m))
    as (trs & Htrs & Htot & Hprod & Hids & Hall & Hcalls & _).
  destruct (entry_state_result self plan m) as (Hnil & Hn & _).
  rewrite Hnil in Htrs. cbn [app] in Htrs. rewrite Hn in Htot.
  set (st := Executor.run_steps true (Plan.steps plan) (entry_state self plan m)) in *.
  destruct (finalize_spec (Executor.ls_result st) (Executor.ls_machine st))
    as (Ftr & _ & Fs & Ff & _ & Fo).
  assert (Hsucc : Forall (fun t => TraceEntry.status t = SUCCESS) trs).
  { eapply Forall_impl; [exact Hall|]. intros t [Ht _]. exact Ht. }
  assert (Hlen : length trs = length (Plan.steps plan)).
  { rewrite <- (length_map TraceEntry.step_id trs), Hids, length_map. reflexivity. }
  eexists _, _, m', ts. cbv zeta. split; [exact Hrun|].
  rewrite Fo, Fs, Ff, Ftr, Htrs, Htot.
  rewrite (count_status_uniform SUCCESS FAILURE trs Hsucc),
          (count_status_uniform SUCCESS SUCCESS trs Hsucc).
  cbn [StepStatus_eqb Z.ltb Z.compare]. rewrite Hlen, Z.eqb_refl.
  conjs; try assumption; try reflexivity.
  - rewrite finalize_produced, Hprod.
    unfold entry_state. destruct (now m) as [s0 m0].
    destruct (Executor._save_plan self plan m0). reflexivity.
  - rewrite C2, Hcalls, C1, <- app_assoc. rewrite Ftr, Htrs. reflexivity.
Qed.

Lemma dry_run_touches_only_the_run_directory_witness :
  exists res self' m' ts,
    let run_dir := path_child [py "runs"] ts in
    Executor.execute_plan SimHost.executor SimHost.plan_crash_second true
      SimHost.start = (Ok res, self', m')
    /\ ExecutionResult.overall_status res = SUCCESS
    /\ ExecutionResult.successful_steps res = 3%Z
    /\ ExecutionResult.failed_steps res = 0%Z
    /\ map TraceEntry.step_id (ExecutionResult.traces res)
       = [py "1"; py "2"; py "3"]
    /\ Forall (fun tr => TraceEntry.status tr = SUCCESS
                         /\ TraceEntry.outputs tr = Some Executor.dry_run_output)
         (ExecutionResult.traces res)
    /\ ExecutionResult.produced_files res = []
    /\ calls m'
       = [SysMkdir run_dir;
          SysWrite (path_child run_dir (py "plan.json")) (VStr (py "{plan}"));
          SysWrite (path_child run_dir (py "trace.jsonl"))
            (VStr (Executor.trace_lines (ExecutionResult.traces res)));
          SysWrite (path_child run_dir (py "result.json")) (VStr (py "{result}"))].
Proof.
  exact (dry_run_touches_only_the_run_directory SimHost.executor
           SimHost.plan_crash_second SimHost.start
           (sim_persistence_ok SimHost.executor)).
Defined.

(** X2. A dry run never consults the tool registry: with any other
    registry the call returns the same result and leaves the same
    machine and the same recorded outputs. *)
Theorem dry_run_ignores_the_registry {World : Type} `{Host World}
    `{Serializer} (self : Executor.t World)
    (registry : gmap pystr (Tool World)) (plan : Plan.t) (m : machine World) :
  Executor.execute_plan (with_registry self registry) plan true m
  = (fst (fst (Executor.execute_plan self plan true m)),
     with_registry (snd (fst (Executor.execute_plan self plan true m))) registry,
     snd (Executor.execute_plan self plan true m)).
Proof.
  assert (Hstep : forall steps self0 r0 m0,
    Executor.run_steps true steps (Executor.mk_loop (with_registry self0 registry) r0 m0)
    = Executor.mk_loop
        (with_registry (Executor.ls_self (Executor.run_steps true steps
                                            (Executor.mk_loop self0 r0 m0))) registry)
        (Executor.ls_result (Executor.run_steps true steps (Executor.mk_loop self0 r0 m0)))
        (Executor.ls_machine (Executor.run_steps true steps (Executor.mk_loop self0 r0 m0)))).
  { induction steps as [|step rest IH]; intros self0 r0 m0; [reflexivity|].
    simpl. unfold Executor.run_step. cbn [Executor.ls_self Executor.ls_result Executor.ls_machine].
    destruct (TraceEntry.create _ _ _ _ m0) as [trace m1].
    destruct (TraceEntry.mark_success trace Executor.dry_run_output m1) as [trace1 m2].
    apply (IH (Executor.record_output self0 (Step.id step) Executor.dry_run_output)). }
  unfold Executor.execute_plan.
  destruct (now m) as [start m0].
  change (Executor._save_plan (with_registry self registry) plan m0)
    with (Executor._save_plan self plan m0).
  change (Executor.initial_result (with_registry self registry) plan start)
    with (Executor.initial_result self plan start).
  destruct (Executor._save_plan self plan m0) as [[run_dir|e] m1]; [|reflexivity].
  rewrite Hstep.
  cbn [Executor.ls_self Executor.ls_result Executor.ls_machine].
  destruct (ExecutionResult.finalize _ _) as [res m2].
  destruct (Executor._save_traces run_dir res m2) as [[[]|e] m3]; reflexivity.
Qed.

(** X3. Whatever the plan, the tools and the mode, the result that
    [execute_plan] returns is a SUCCESS or a FAILURE, never PENDING;
    [total_steps] is the length of the plan, [skipped_steps] is [0],
    at most one step is counted as failed, every trace entry is counted
    as successful or failed, there are never more entries than steps,
    and the result is a SUCCESS exactly when all steps are counted as
    successful, a FAILURE exactly when one is counted as failed. *)
Theorem execute_plan_result_invariants {World : Type} `{Host World}
    `{Serializer} (self : Executor.t World) (plan : Plan.t) (dry_run : bool)
    (m : machine World) :
  persistence_ok self ->
  exists res self' m',
    Executor.execute_plan self plan dry_run m = (Ok res, self', m')
    /\ ExecutionResult.total_steps res = Z.of_nat (length (Plan.steps plan))
    /\ (ExecutionResult.overall_status res = SUCCESS
        \/ ExecutionResult.overall_status res = FAILURE)
    /\ ExecutionResult.skipped_steps res = 0%Z
    /\ (0 <= ExecutionResult.failed_steps res <= 1)%Z
    /\ (ExecutionResult.successful_steps res + ExecutionResult.failed_steps res
        = Z.of_nat (length (ExecutionResult.traces res)))%Z
    /\ (length (ExecutionResult.traces res) <= length (Plan.steps plan))%nat
    /\ (ExecutionResult.overall_status res = SUCCESS
        <-> ExecutionResult.successful_steps res
            = Z.of_nat (length (Plan.steps plan)))
    /\ (ExecutionResult.overall_status res = FAILURE
        <-> ExecutionResult.failed_steps res = 1%Z).
Proof.
  intros Hp.
  destruct (execute_plan_returns self plan dry_run m Hp) as (m' & Hrun).
  cbv zeta in Hrun. eexists _, _, _. split; [exact Hrun|].
  destruct (run_steps_shape dry_run (Plan.steps plan) (entry_state self plan m))
    as (ok & failed & Htrs & Htot & Hok & Hfl & Hone & Hlen & Hall).
  destruct (entry_state_result self plan m) as (Hnil & Hn & _).
  rewrite Hnil in Htrs. cbn [app] in Htrs. rewrite Hn in Htot.
  set (st := Executor.run_steps dry_run (Plan.steps plan) (entry_state self plan m)) in *.
  destruct (finalize_spec (Executor.ls_result st) (Executor.ls_machine st))
    as (Ftr & Ft & Fs & Ff & Fk & Fo).
  rewrite Ftr, Ft, Fs, Ff, Fk, Fo, Htrs, Htot.
  rewrite !count_status_app.
  rewrite (count_status_uniform SUCCESS SUCCESS ok Hok),
          (count_status_uniform SUCCESS FAILURE ok Hok),
          (count_status_uniform SUCCESS SKIPPED ok Hok),
          (count_status_uniform FAILURE SUCCESS failed Hfl),
          (count_status_uniform FAILURE FAILURE failed Hfl),
          (count_status_uniform FAILURE SKIPPED failed Hfl).
  cbn [StepStatus_eqb]. rewrite length_app in *.
  destruct failed as [|tr [|tr' failed]]; cbn [length] in *; [| |lia].
  - specialize (Hall eq_refl).
    replace (0 <? 0 + 0)%Z with false by reflexivity.
    replace (Z.of_nat (length ok) + 0 =? Z.of_nat (length (Plan.steps plan)))%Z
      with true by (symmetry; apply Z.eqb_eq; lia).
    conjs; try reflexivity; try lia; try (left; reflexivity).
    + split; intros _; [lia | reflexivity].
    + split; [discriminate | lia].
  - replace (0 <? 0 + Z.of_nat 1)%Z with true by reflexivity.
    conjs; try reflexivity; try lia; try (right; reflexivity).
    + split; [discriminate | lia].
    + split; intros _; reflexivity.
Qed.

Lemma execute_plan_result_invariants_witness :
  exists res self' m',
    Executor.execute_plan SimHost.executor SimHost.plan_crash_second false
      SimHost.start = (Ok res, self', m')
    /\ ExecutionResult.total_steps res = 3%Z
    /\ (ExecutionResult.overall_status res = SUCCESS
        \/ ExecutionResult.overall_status res = FAILURE)
    /\ ExecutionResult.skipped_steps res = 0%Z
    /\ (0 <= ExecutionResult.failed_steps res <= 1)%Z
    /\ (ExecutionResult.successful_steps res + ExecutionResult.failed_steps res
        = Z.of_nat (length (ExecutionResult.traces res)))%Z
    /\ (length (ExecutionResult.traces res) <= 3)%nat
    /\ (ExecutionResult.overall_status res = SUCCESS
        <-> ExecutionResult.successful_steps res = 3%Z)
    /\ (ExecutionResult.overall_status res = FAILURE
        <-> ExecutionResult.failed_steps res = 1%Z).
Proof.
  exact (execute_plan_result_invariants SimHost.executor
           SimHost.plan_crash_second false SimHost.start
           (sim_persistence_ok SimHost.executor)).
Defined.

(** X4. The trace entries follow the plan: the entries of the result
    are, in order, those of an initial segment of the steps, and each
    carries the id and the tool name of its step, the digest of the
    step's inputs as the plan gives them, and these inputs themselves,
    before any reference is resolved. *)
Theorem traces_follow_the_plan {World : Type} `{Host World} `{Serializer}
    (self : Executor.t World) (plan : Plan.t) (dry_run : bool)
    (m : machine World) :
  persistence_ok self ->
  exists res self' m',
    Executor.execute_plan self plan dry_run m = (Ok res, self', m')
    /\ map trace_identity (ExecutionResult.traces res)
       = map step_identity
           (firstn (length (ExecutionResult.traces res)) (Plan.steps plan)).
Proof.
  intros Hp.
  destruct (execute_plan_returns self plan dry_run m Hp) as (m' & Hrun).
  cbv zeta in Hrun. eexists _, _, _. split; [exact Hrun|].
  destruct (run_steps_identity dry_run (Plan.steps plan) (entry_state self plan m))
    as (trs & Htrs & Hids & _).
  destruct (entry_state_result self plan m) as (Hnil & _ & _).
  rewrite Hnil in Htrs. cbn [app] in Htrs.
  set (st := Executor.run_steps dry_run (Plan.steps plan) (entry_state self plan m)) in *.
  destruct (finalize_spec (Executor.ls_result st) (Executor.ls_machine st))
    as (Ftr & _).
  rewrite Ftr, Htrs. exact Hids.
Qed.

(** The second step refers to the first; its trace entry keeps the
    reference as written. *)
Lemma traces_follow_the_plan_witness :
  exists res self' m',
    Executor.execute_plan SimHost.executor SimHost.plan_crash_second false
      SimHost.start = (Ok res, self', m')
    /\ map trace_identity (ExecutionResult.traces res)
       = map step_identity
           (firstn (length (ExecutionResult.traces res))
              (Plan.steps SimHost.plan_crash_second)).
Proof.
  exact (traces_follow_the_plan SimHost.executor SimHost.plan_crash_second false
           SimHost.start (sim_persistence_ok SimHost.executor)).
Defined.

(** X5. What a step leaves in the mapping of recorded outputs.  When
    the inputs of the step resolve and the registry holds its tool, the
    tool is called on the resolved inputs, and if it returns a
    [ToolOutput], the data of that very output is recorded under the
    step id, whether the output reports success or failure.  When the
    inputs cannot be resolved, the tool is missing or the tool raises,
    the mapping is left as it was. *)
Theorem run_step_records_the_tool_output {World : Type} `{Host World}
    `{Serializer} (st : Executor.loop_state) (step : Step.t) :
  let self := Executor.ls_self st in
  let outs := Executor._step_outputs self in
  let outs' :=
    Executor._step_outputs (Executor.ls_self (snd (Executor.run_step false st step))) in
  match Executor._resolve_inputs self (Step.inputs step),
        ToolRegistry.get (Executor.tool_registry self) (Step.tool step) with
  | Ok resolved, Some tool =>
      match fst (tool_execute tool resolved
                   (tick (tick (Executor.ls_machine st)))) with
      | Ok output => outs' = <[Step.id step := data output]> outs
      | Raise _ => outs' = outs
      end
  | _, _ => outs' = outs
  end.
Proof.
  unfold Executor.run_step, tick, TraceEntry.create.
  destruct (now (Executor.ls_machine st)) as [ts m1]. cbn [snd].
  unfold Executor.fail_step. cbv zeta.
  destruct (Executor._resolve_inputs _ _) as [resolved|e].
  2: { destruct (TraceEntry.mark_failure _ _ _). reflexivity. }
  destruct (ToolRegistry.get _ _) as [tool|].
  2: { destruct (TraceEntry.mark_failure _ _ _). reflexivity. }
  unfold TraceEntry.mark_started. destruct (now m1) as [ts1 m2]. cbn [snd].
  destruct (tool_execute tool resolved m2) as [[output|e] m3]; cbn [fst].
  2: { destruct (TraceEntry.mark_failure _ _ _). reflexivity. }
  destruct (success output) eqn:Hs.
  - destruct (TraceEntry.mark_success _ _ _). reflexivity.
  - destruct (TraceEntry.mark_failure _ _ _). reflexivity.
Qed.

(** X6. The persistence of a run.  The run directory
    [runs_dir/<timestamp>] is created and [plan.json] is written
    before the first step is dispatched; [trace.jsonl], one line per
    entry of the result, and then [result.json] are written to the same
    directory after the last step and the finalization. *)
Theorem execute_plan_persists_around_the_loop {World : Type} `{Host World}
    `{Serializer} (self : Executor.t World) (plan : Plan.t) (dry_run : bool)
    (m : machine World) :
  persistence_ok self ->
  exists res self' m' ts,
    let run_dir := path_child (Executor.runs_dir self) ts in
    let loop_end :=
      Executor.ls_machine
        (Executor.run_steps dry_run (Plan.steps plan) (entry_state self plan m)) in
    Executor.execute_plan self plan dry_run m = (Ok res, self', m')
    /\ calls (Executor.ls_machine (entry_state self plan m))
       = calls m ++ [SysMkdir run_dir;
                     SysWrite (path_child run_dir (py "plan.json"))
                       (VStr (plan_json plan))]
    /\ calls m'
       = calls loop_end
         ++ [SysWrite (path_child run_dir (py "trace.jsonl"))
               (VStr (Executor.trace_lines (ExecutionResult.traces res)));
             SysWrite (path_child run_dir (py "result.json"))
               (VStr (result_json res))].
Proof.
  intros Hp.
  destruct (execute_plan_logged self plan dry_run m Hp) as (ts & m' & Hrun & C1 & C2).
  eexists _, _, m', ts. cbv zeta in *. split; [exact Hrun|]. split; assumption.
Qed.

Lemma execute_plan_persists_around_the_loop_witness :
  exists res self' m' ts,
    let run_dir := path_child [py "runs"] ts in
    let loop_end :=
      Executor.ls_machine
        (Executor.run_steps false (Plan.steps SimHost.plan_a)
           (entry_state SimHost.executor SimHost.plan_a SimHost.start)) in
    Executor.execute_plan SimHost.executor SimHost.plan_a false SimHost.start
      = (Ok res, self', m')
    /\ calls (Executor.ls_machine
                (entry_state SimHost.executor SimHost.plan_a SimHost.start))
       = [SysMkdir run_dir;
          SysWrite (path_child run_dir (py "plan.json")) (VStr (py "{plan}"))]
    /\ calls m'
       = calls loop_end
         ++ [SysWrite (path_child run_dir (py "trace.jsonl"))
               (VStr (Executor.trace_lines (ExecutionResult.traces res)));
             SysWrite (path_child run_dir (py "result.json"))
               (VStr (py "{result}"))].
Proof.
  exact (execute_plan_persists_around_the_loop SimHost.executor SimHost.plan_a
           false SimHost.start (sim_persistence_ok SimHost.executor)).
Defined.

(** ** Reference resolution *)

Lemma resolve_list_outcome (l : list value) :
  match Executor.resolve_list l with
  | Ok l' =>
      l' = l
      /\ forallb (fun x => match x with VDict _ => false | _ => true end) l = true
  | Raise e =>
      e = name_error
      /\ forallb (fun x => match x with VDict _ => false | _ => true end) l = false
  end.
Proof.
  induction l as [|x l IH]; simpl; [split; reflexivity|].
  destruct x; simpl;
    try (destruct (Executor.resolve_list l) as [l'|e];
         [destruct IH as [-> IH]; split; [reflexivity | exact IH]
         | exact IH]).
  split; reflexivity.
Qed.

Lemma resolve_loop_outcome (outs : gmap pystr value) (items resolved : dict) :
  Forall (fun kv => forall d, snd kv = VDict d ->
            match Executor.resolve_dict outs (VDict d) with
            | Ok _ => lists_hold_no_dict (VDict d) = true
            | Raise e => e = name_error /\ lists_hold_no_dict (VDict d) = false
            end) items ->
  match Executor.resolve_loop outs (Executor.resolve_dict outs) items resolved with
  | Ok _ => forallb (fun kv => lists_hold_no_dict (snd kv)) items = true
  | Raise e =>
      e = name_error
      /\ forallb (fun kv => lists_hold_no_dict (snd kv)) items = false
  end.
Proof.
  revert resolved. induction items as [|[k v] items IH]; intros resolved Hrec.
  - reflexivity.
  - inversion Hrec as [|? ? Hv Hrec']; subst. cbn [snd] in Hv.
    cbn [Executor.resolve_loop forallb snd].
    destruct v as [ | b | z | s | l | d];
      try (specialize (IH (dict_set resolved k VNone) Hrec'); exact IH);
      try (apply IH; exact Hrec').
    + pose proof (resolve_list_outcome l) as Hl.
      destruct (Executor.resolve_list l) as [l'|e].
      * destruct Hl as [_ Hl]. cbn [lists_hold_no_dict]. rewrite Hl.
        apply IH. exact Hrec'.
      * destruct Hl as [-> Hl]. cbn [lists_hold_no_dict]. rewrite Hl.
        split; reflexivity.
    + specialize (Hv d eq_refl).
      destruct (Executor.resolve_dict outs (VDict d)) as [d'|e].
      * rewrite Hv. apply IH. exact Hrec'.
      * destruct Hv as [-> Hv]. rewrite Hv. split; reflexivity.
Qed.

Lemma resolve_dict_outcome (outs : gmap pystr value) (v : value) :
  forall d, v = VDict d ->
    match Executor.resolve_dict outs (VDict d) with
    | Ok _ => lists_hold_no_dict (VDict d) = true
    | Raise e => e = name_error /\ lists_hold_no_dict (VDict d) = false
    end.
Proof.
  induction v as [ | b | z | s | l _ | items IH] using value_nested_ind;
    intros d Hv; try discriminate.
  injection Hv as <-.
  apply (resolve_loop_outcome outs items []).
  rewrite List.Forall_forall in IH. apply List.Forall_forall.
  intros kv Hin d' Hd'. apply (IH kv Hin d' Hd').
Qed.

(** X7. [_resolve_inputs] fails exactly when some list, among the
    values of the inputs or of a dictionary nested in them, holds a
    dictionary; the exception is then the [NameError] on [k].  On all
    other inputs it returns. *)
Theorem resolve_inputs_fails_exactly_on_a_dict_in_a_list {World : Type}
    (self : Executor.t World) (inputs : dict) :
  match Executor._resolve_inputs self inputs with
  | Ok _ => lists_hold_no_dict (VDict inputs) = true
  | Raise e =>
      e = mk_exn NameError (py "name 'k' is not defined")
      /\ lists_hold_no_dict (VDict inputs) = false
  end.
Proof.
  unfold Executor._resolve_inputs.
  apply (resolve_dict_outcome (Executor._step_outputs self) (VDict inputs)).
  reflexivity.
Qed.

Lemma dict_set_fresh_keys (d : dict) (k : pystr) (v : value) :
  ~ In k (map fst d) -> dict_set d k v = d ++ [(k, v)].
Proof. apply dict_set_fresh. Qed.

Lemma resolve_loop_keeps (outs : gmap pystr value)
    (rec : value -> result dict) (items resolved r : dict) :
  NoDup (map fst (resolved ++ items)) ->
  Executor.resolve_loop outs rec items resolved = Ok r ->
  exists items', r = resolved ++ items' /\ Forall2 item_kept items items'.
Proof.
  revert resolved. induction items as [|[k v] items IH]; intros resolved Hk Hr.
  - simpl in Hr. injection Hr as <-. exists []. rewrite app_nil_r.
    split; [reflexivity | constructor].
  - assert (Hfresh : ~ In k (map fst resolved)).
    { rewrite map_app in Hk. apply NoDup_app in Hk as (_ & Hdisj & _).
      intros Hin. apply (Hdisj k).
      - apply list_elem_of_In. exact Hin.
      - simpl. left. }
    assert (Hnext : forall v',
      (copied v = true -> v' = v) ->
      Executor.resolve_loop outs rec items (dict_set resolved k v') = Ok r ->
      exists items', r = resolved ++ items'
                     /\ Forall2 item_kept ((k, v) :: items) items').
    { intros v' Hv' Hloop. rewrite dict_set_fresh in Hloop by exact Hfresh.
      destruct (IH (resolved ++ [(k, v')])) as (items' & -> & Hkept).
      - rewrite <- app_assoc. simpl. rewrite !map_app in *. simpl in *. exact Hk.
      - exact Hloop.
      - exists ((k, v') :: items'). rewrite <- app_assoc. split; [reflexivity|].
        constructor; [|exact Hkept]. split; [reflexivity | exact Hv']. }
    cbn [Executor.resolve_loop] in Hr.
    destruct v as [ | b | z | s | l | d].
    + apply (Hnext VNone); [reflexivity | exact Hr].
    + apply (Hnext (VBool b)); [reflexivity | exact Hr].
    + apply (Hnext (VInt z)); [reflexivity | exact Hr].
    + apply (Hnext (Executor.resolve_str outs s)); [|exact Hr].
      simpl. intros Hs. apply negb_true_iff in Hs.
      apply resolve_str_plain. exact Hs.
    + pose proof (resolve_list_outcome l) as Hl.
      destruct (Executor.resolve_list l) as [l'|e]; [|discriminate].
      destruct Hl as [-> _]. apply (Hnext (VList l)); [reflexivity | exact Hr].
    + destruct (rec (VDict d)) as [d'|e]; [|discriminate].
      apply (Hnext (VDict d')); [discriminate | exact Hr].
Qed.

(** X8. When [_resolve_inputs] returns, the mapping it returns has the
    keys of its argument, in the same order, and differs from it at
    most in the values that are reference strings or dictionaries:
    [None], booleans, numbers, strings that do not start with
    [ref:step:] and lists are copied as they are. *)
Theorem resolve_inputs_keeps_keys_and_plain_values {World : Type}
    (self : Executor.t World) (inputs resolved : dict) :
  NoDup (map fst inputs) ->
  Executor._resolve_inputs self inputs = Ok resolved ->
  Forall2 item_kept inputs resolved.
Proof.
  intros Hk Hr. unfold Executor._resolve_inputs in Hr. cbn [Executor.resolve_dict] in Hr.
  destruct (resolve_loop_keeps _ _ inputs [] resolved Hk Hr) as (items' & -> & Hkept).
  exact Hkept.
Qed.

Lemma resolve_inputs_keeps_keys_and_plain_values_witness :
  Forall2 item_kept
    [(py "action", VStr (py "write_text")); (py "content", VStr (py "ref:step:1"));
     (py "retries", VInt 3)]
    [(py "action", VStr (py "write_text")); (py "content", VStr (py "Hello"));
     (py "retries", VInt 3)].
Proof.
  apply (resolve_inputs_keeps_keys_and_plain_values
           (Executor.record_output SimHost.executor (py "1")
              (VDict [(py "content", VStr (py "Hello"))]))).
  - apply (bool_decide_unpack _). vm_compute. exact I.
  - vm_compute. reflexivity.
Defined.

Lemma until_colon_split (s : pystr) :
  exists parts, str_split s colon = until_colon s :: parts.
Proof.
  induction s as [|c s [parts IH]]; simpl.
  - exists []. reflexivity.
  - destruct (N.eqb c colon).
    + eexists. reflexivity.
    + rewrite IH. exists parts. reflexivity.
Qed.

(** X9. The rule of a reference.  For a string [ref:step:<rest>] the
    step id looked up is the text of [rest] before its first colon
    (all of [rest] when it has none, so a suffix such as [.output] is
    part of the id).  If that step has a recorded output, the value
    substituted is its [content] when the output is a mapping with
    that key and the whole output otherwise; if it has none, the string
    stays as written. *)
Theorem reference_resolution_rule (outs : gmap pystr value) (rest : pystr) :
  Executor.resolve_str outs (py "ref:step:" ++ rest)
  = match outs !! until_colon rest with
    | Some (VDict d) =>
        match dict_get d (py "content") with
        | Some content => content
        | None => VDict d
        end
    | Some step_output => step_output
    | None => VStr (py "ref:step:" ++ rest)
    end.
Proof.
  unfold Executor.resolve_str.
  rewrite (str_startswith_app (py "ref:step:") rest (py "ref:step:") eq_refl).
  destruct (until_colon_split rest) as [parts Hparts].
  assert (Hsplit : str_split (py "ref:step:" ++ rest) colon
                   = py "ref" :: py "step" :: until_colon rest :: parts).
  { change (py "ref:step:" ++ rest)
      with (114 :: 101 :: 102 :: 58 :: 115 :: 116 :: 101 :: 112 :: 58 :: rest)%N.
    cbn [str_split N.eqb Pos.eqb colon]. rewrite Hparts. reflexivity. }
  rewrite Hsplit. cbn [length Nat.leb nth].
  destruct (outs !! until_colon rest) as [[ | | | | |d]|]; reflexivity.
Qed.

(** X10. Inputs without references resolve to themselves: when no
    value of the inputs or of a nested dictionary is a string starting
    with [ref:step:] and no list holds a dictionary, [_resolve_inputs]
    returns a mapping equal to its argument. *)
Theorem plain_inputs_resolve_to_themselves {World : Type}
    (self : Executor.t World) (inputs : dict) :
  plain (VDict inputs) = true ->
  keys_unique (VDict inputs) = true ->
  Executor._resolve_inputs self inputs = Ok inputs.
Proof.
  intros Hp Hk. unfold Executor._resolve_inputs.
  apply (resolve_dict_plain _ (VDict inputs) Hp Hk). reflexivity.
Qed.

Lemma plain_inputs_resolve_to_themselves_witness :
  Executor._resolve_inputs SimHost.executor_after_a
    [(py "action", VStr (py "list_dir"));
     (py "options", VDict [(py "depth", VInt 2); (py "hidden", VBool false)]);
     (py "patterns", VList [VStr (py "*.txt"); VNone])]
  = Ok [(py "action", VStr (py "list_dir"));
        (py "options", VDict [(py "depth", VInt 2); (py "hidden", VBool false)]);
        (py "patterns", VList [VStr (py "*.txt"); VNone])].
Proof.
  apply (plain_inputs_resolve_to_themselves SimHost.executor_after_a).
  - reflexivity.
  - vm_compute. reflexivity.
Defined.

(** X11. A reference string inside a list is not resolved: a list that
    holds no dictionary is stored as it is, whatever its strings. *)
Theorem references_in_lists_stay_unresolved {World : Type}
    (self : Executor.t World) (key : pystr) (l : list value) :
  forallb (fun x => match x with VDict _ => false | _ => true end) l = true ->
  Executor._resolve_inputs self [(key, VList l)] = Ok [(key, VList l)].
Proof.
  intros Hl. unfold Executor._resolve_inputs.
  cbn [Executor.resolve_dict Executor.resolve_loop].
  rewrite (resolve_list_no_dict l Hl). reflexivity.
Qed.

(** Step 1 has a recorded output, and still the reference to it stays
    in the list. *)
Lemma references_in_lists_stay_unresolved_witness :
  Executor._step_outputs SimHost.executor_after_a !! py "1"
    = Some (VDict [(py "content", VStr (py "from plan A"))])
  /\ Executor._resolve_inputs SimHost.executor_after_a
       [(py "args", VList [VStr (py "ref:step:1"); VInt 2])]
     = Ok [(py "args", VList [VStr (py "ref:step:1"); VInt 2])].
Proof.
  split; [vm_compute; reflexivity|].
  apply (references_in_lists_stay_unresolved SimHost.executor_after_a).
  reflexivity.
Defined.

(** ** The file tool *)

Section FileToolMore.
Context {World : Type} `{Host World}.

Lemma logged_calls {A : Type} (c : syscall) (f : World -> result A * World)
    (m : machine World) :
  calls (snd (logged c f m)) = calls m ++ [c].
Proof. unfold logged. destruct (f (world m)). reflexivity. Qed.

Lemma reached_refl (ok : syscall -> Prop) (m : machine World) :
  reached_by ok m m.
Proof. exists []. rewrite app_nil_r. split; [reflexivity | apply List.Forall_nil]. Qed.

Lemma reached_trans (ok : syscall -> Prop) (m1 m2 m3 : machine World) :
  reached_by ok m1 m2 -> reached_by ok m2 m3 -> reached_by ok m1 m3.
Proof.
  intros (a & Ha & Hoka) (b & Hb & Hokb). exists (a ++ b).
  rewrite Hb, Ha, <- app_assoc. split; [reflexivity|].
  apply List.Forall_app. split; assumption.
Qed.

Lemma reached_logged {A : Type} (ok : syscall -> Prop) (c : syscall)
    (f : World -> result A * World) (m : machine World) :
  ok c -> reached_by ok m (snd (logged c f m)).
Proof.
  intros Hc. exists [c]. split; [apply logged_calls|].
  constructor; [exact Hc | apply List.Forall_nil].
Qed.

Lemma reached_split (p : fspath) (m m' : machine World) :
  reached_by (probe_ok p) m m' ->
  exists new,
    calls m' = calls m ++ new
    /\ Forall (call_on_target p) new
    /\ Forall (fun c => is_mutation c = false) new.
Proof.
  intros (new & Hc & Hok). exists new. split; [exact Hc|].
  split; apply List.Forall_forall; intros c Hin;
    apply (proj1 (List.Forall_forall _ _) Hok c Hin).
Qed.

Lemma read_text_handler_fails (p : value) (e : exn) :
  exists msg, FileTool.read_text_handler p e = fail_output msg.
Proof.
  unfold FileTool.read_text_handler. destruct (exn_cls e); eexists; reflexivity.
Qed.

Lemma write_text_handler_message (e : exn) :
  exists msg, FileTool.write_text_handler e = fail_output msg.
Proof.
  unfold FileTool.write_text_handler. destruct (exn_cls e); eexists; reflexivity.
Qed.

Lemma list_dir_handler_fails (p : value) (e : exn) :
  exists msg, FileTool.list_dir_handler p e = fail_output msg.
Proof.
  unfold FileTool.list_dir_handler. destruct (exn_cls e); eexists; reflexivity.
Qed.

Lemma file_target_inside (self : FileTool.t) (inputs : dict)
    (m : machine World) (p : fspath) :
  file_target self inputs m = Some p ->
  is_descendant p (FileTool.workspace_root self) = true.
Proof.
  unfold file_target. destruct (dict_get inputs (py "path")) as [pv|]; [|discriminate].
  destruct (FileTool._resolve_path self pv m) as [q|e] eqn:Hres; [|discriminate].
  intros [= <-]. apply (resolve_path_inside self pv q m Hres).
Qed.

(** What [_read_text] returns and logs. *)
Lemma read_text_outcome (self : FileTool.t) (inputs : dict) (m : machine World) :
  exists new,
    calls (snd (FileTool._read_text self inputs m)) = calls m ++ new
    /\ Forall (fun c => is_mutation c = false) new
    /\ match file_target self inputs m with
       | None =>
           new = []
           /\ exists msg, fst (FileTool._read_text self inputs m) = fail_output msg
       | Some p =>
           Forall (call_on_target p) new
           /\ ((exists msg, fst (FileTool._read_text self inputs m) = fail_output msg)
               \/ exists content,
                    fst (FileTool._read_text self inputs m)
                    = mk_output true
                        (VDict [(py "content", VStr content);
                                (py "path", VStr (path_str p))]) None)
       end.
Proof.
  unfold FileTool._read_text, file_target.
  destruct (dict_get inputs (py "path")) as [p|].
  2: { exists []. rewrite app_nil_r. conjs; try reflexivity; try apply List.Forall_nil.
       eexists. reflexivity. }
  destruct (FileTool._resolve_path self p m) as [path|e] eqn:Hres.
  2: { exists []. rewrite app_nil_r. conjs; try reflexivity; try apply List.Forall_nil.
       apply read_text_handler_fails. }
  pose proof (logged_calls (SysRead path) (host_read_text path) m) as Hc.
  fold (read_text path m) in Hc.
  destruct (read_text path m) as [[content|e] m1]; cbn [fst snd] in *.
  - exists [SysRead path]. conjs; try assumption.
    + constructor; [reflexivity | constructor].
    + constructor; [reflexivity | constructor].
    + right. exists content. reflexivity.
  - exists [SysRead path]. conjs; try assumption.
    + constructor; [reflexivity | constructor].
    + constructor; [reflexivity | constructor].
    + left. apply read_text_handler_fails.
Qed.

(** What [_write_text] returns and logs. *)
Lemma write_text_outcome (self : FileTool.t) (inputs : dict) (m : machine World) :
  exists new,
    calls (snd (FileTool._write_text self inputs m)) = calls m ++ new
    /\ match file_target self inputs m with
       | None =>
           new = []
           /\ exists msg, fst (FileTool._write_text self inputs m) = fail_output msg
       | Some p =>
           Forall (call_on_target p) new
           /\ ((exists msg, fst (FileTool._write_text self inputs m) = fail_output msg)
               \/ exists content n,
                    dict_get inputs (py "content") = Some content
                    /\ new = [SysMkdir (path_parent p);
                              if is_str (dict_get_default inputs (py "mode")
                                           (VStr (py "overwrite"))) (py "append")
                              then SysAppend p content else SysWrite p content]
                    /\ fst (FileTool._write_text self inputs m)
                       = mk_output true
                           (VDict [(py "path", VStr (path_str p));
                                   (py "bytes_written", VInt n)]) None)
       end.
Proof.
  unfold FileTool._write_text, file_target.
  destruct (dict_get inputs (py "path")) as [p|].
  2: { exists []. rewrite app_nil_r. conjs; try reflexivity. eexists. reflexivity. }
  destruct (dict_get inputs (py "content")) as [content|].
  2: { exists []. rewrite app_nil_r. split; [reflexivity|].
       destruct (FileTool._resolve_path self p m).
       - split; [apply List.Forall_nil|]. left. eexists. reflexivity.
       - split; [reflexivity|]. eexists. reflexivity. }
  destruct (negb _).
  { exists []. rewrite app_nil_r. split; [reflexivity|].
    destruct (FileTool._resolve_path self p m).
    - split; [apply List.Forall_nil|]. left. eexists. reflexivity.
    - split; [reflexivity|]. eexists. reflexivity. }
  destruct (FileTool._resolve_path self p m) as [path|e] eqn:Hres.
  2: { exists []. rewrite app_nil_r. conjs; try reflexivity.
       apply write_text_handler_message. }
  assert (Hmk : call_on_target path (SysMkdir (path_parent path))) by reflexivity.
  pose proof (logged_calls (SysMkdir (path_parent path)) (host_mkdir (path_parent path)) m) as Hc1.
  fold (mkdir (path_parent path) m) in Hc1.
  destruct (mkdir (path_parent path) m) as [[[]|e] m1]; cbn [fst snd] in *.
  2: { exists [SysMkdir (path_parent path)]. conjs; try assumption.
       - constructor; [exact Hmk | constructor].
       - left. apply write_text_handler_message. }
  set (mode := dict_get_default inputs (py "mode") (VStr (py "overwrite"))).
  set (call := if is_str mode (py "append") then SysAppend path content
               else SysWrite path content).
  assert (Hcall : call_on_target path call).
  { unfold call. destruct (is_str mode (py "append")); reflexivity. }
  assert (Hc2 : calls (snd (if is_str mode (py "append")
                            then append_text path content m1
                            else write_text path content m1))
                = calls m1 ++ [call]).
  { unfold call. destruct (is_str mode (py "append")); apply logged_calls. }
  destruct (if is_str mode (py "append") then append_text path content m1
            else write_text path content m1) as [[[]|e] m2]; cbn [fst snd] in *.
  2: { exists [SysMkdir (path_parent path); call]. conjs.
       - rewrite Hc2, Hc1, <- app_assoc. reflexivity.
       - constructor; [exact Hmk | constructor; [exact Hcall | constructor]].
       - left. apply write_text_handler_message. }
  exists [SysMkdir (path_parent path); call]. conjs.
  - destruct (FileTool.encoded_length content); cbn [snd];
      rewrite Hc2, Hc1, <- app_assoc; reflexivity.
  - constructor; [exact Hmk | constructor; [exact Hcall | constructor]].
  - destruct (FileTool.encoded_length content) as [n|e]; cbn [fst].
    + right. exists content, n. conjs; reflexivity.
    + left. apply write_text_handler_message.
Qed.

(** The probes of one entry are made on that entry and change
    nothing. *)
Lemma entry_size_reached (dir : fspath) (nm : pystr) (m : machine World) :
  reached_by (probe_ok dir) m (snd (FileTool.entry_size (path_child dir nm) m)).
Proof.
  assert (Hf : probe_ok dir (SysIsFile (path_child dir nm))).
  { split; [exists nm; reflexivity | reflexivity]. }
  assert (Hs : probe_ok dir (SysStat (path_child dir nm))).
  { split; [exists nm; reflexivity | reflexivity]. }
  unfold FileTool.entry_size.
  pose proof (reached_logged _ _ (host_is_file (path_child dir nm)) m Hf) as H1.
  fold (is_file (path_child dir nm) m) in H1.
  destruct (is_file (path_child dir nm) m) as [[[|]|e] m1]; cbn [snd] in *;
    try exact H1.
  pose proof (reached_logged _ _ (host_stat_size (path_child dir nm)) m1 Hs) as H2.
  fold (stat_size (path_child dir nm) m1) in H2.
  destruct (stat_size (path_child dir nm) m1) as [[n|e] m2]; cbn [snd] in *;
    exact (reached_trans _ _ _ _ H1 H2).
Qed.

Lemma describe_entry_reached (self : FileTool.t) (dir : fspath) (nm : pystr)
    (m : machine World) :
  reached_by (probe_ok dir) m (snd (FileTool.describe_entry self dir nm m))
  /\ forall entry,
       fst (FileTool.describe_entry self dir nm m) = Ok entry ->
       entry_name entry = Some (VStr nm).
Proof.
  assert (Hd : probe_ok dir (SysIsDir (path_child dir nm))).
  { split; [right; exists nm; reflexivity | reflexivity]. }
  assert (Hf : probe_ok dir (SysIsFile (path_child dir nm))).
  { split; [exists nm; reflexivity | reflexivity]. }
  unfold FileTool.describe_entry.
  destruct (relative_to _ _) as [rel|x].
  2: { split; [apply reached_refl | discriminate]. }
  pose proof (reached_logged _ _ (host_is_dir (path_child dir nm)) m Hd) as H1.
  fold (is_dir (path_child dir nm) m) in H1.
  destruct (is_dir (path_child dir nm) m) as [[isd|e] m1]; cbn [fst snd] in *.
  2: { split; [exact H1 | discriminate]. }
  pose proof (reached_logged _ _ (host_is_file (path_child dir nm)) m1 Hf) as H2.
  fold (is_file (path_child dir nm) m1) in H2.
  destruct (is_file (path_child dir nm) m1) as [[isf|e] m2]; cbn [fst snd] in *.
  2: { split; [exact (reached_trans _ _ _ _ H1 H2) | discriminate]. }
  pose proof (entry_size_reached dir nm m2) as H3.
  destruct (FileTool.entry_size (path_child dir nm) m2) as [[size|e] m3];
    cbn [fst snd] in *.
  2: { split; [exact (reached_trans _ _ _ _ H1 (reached_trans _ _ _ _ H2 H3))
              | discriminate]. }
  split; [exact (reached_trans _ _ _ _ H1 (reached_trans _ _ _ _ H2 H3))|].
  intros entry [= <-]. reflexivity.
Qed.

(** The loop over the directory listing probes entries of the
    directory only and keeps, in order, the names that match. *)
Lemma list_entries_reached (self : FileTool.t) (dir : fspath) (pattern : value)
    (names : list pystr) (m : machine World) :
  reached_by (probe_ok dir) m (snd (FileTool.list_entries self dir pattern names m))
  /\ forall entries,
       fst (FileTool.list_entries self dir pattern names m) = Ok entries ->
       map entry_name entries
       = map (fun name => Some (VStr name)) (matching_names pattern names).
Proof.
  unfold matching_names. revert m.
  induction names as [|nm names IH]; intros m; cbn [FileTool.list_entries List.filter].
  - split; [apply reached_refl|]. intros entries [= <-]. reflexivity.
  - destruct (host_fnmatch nm pattern) as [[|]|x].
    + destruct (describe_entry_reached self dir nm m) as (H1 & Hname).
      destruct (FileTool.describe_entry self dir nm m) as [[entry|x] m1];
        cbn [fst snd] in *.
      2: { split; [exact H1 | discriminate]. }
      destruct (IH m1) as (H2 & Hrest).
      destruct (FileTool.list_entries self dir pattern names m1) as [[tl|x] m2];
        cbn [fst snd] in *.
      2: { split; [exact (reached_trans _ _ _ _ H1 H2) | discriminate]. }
      split; [exact (reached_trans _ _ _ _ H1 H2)|].
      intros entries [= <-]. cbn [map].
      rewrite (Hname entry eq_refl), (Hrest tl eq_refl). reflexivity.
    + apply IH.
    + split; [apply reached_refl | discriminate].
Qed.

(** What [_list_dir] returns and logs. *)
Lemma list_dir_outcome (self : FileTool.t) (inputs : dict) (m : machine World) :
  exists new,
    calls (snd (FileTool._list_dir self inputs m)) = calls m ++ new
    /\ Forall (fun c => is_mutation c = false) new
    /\ match file_target self inputs m with
       | None =>
           new = []
           /\ exists msg, fst (FileTool._list_dir self inputs m) = fail_output msg
       | Some p =>
           Forall (call_on_target p) new
           /\ ((exists msg, fst (FileTool._list_dir self inputs m) = fail_output msg)
               \/ exists names entries,
                    fst (iterdir p (snd (is_dir p m))) = Ok names
                    /\ map entry_name entries
                       = map (fun name => Some (VStr name))
                           (matching_names
                              (dict_get_default inputs (py "pattern")
                                 (VStr (py "*"))) names)
                    /\ fst (FileTool._list_dir self inputs m)
                       = mk_output true
                           (VDict [(py "path", VStr (path_str p));
                                   (py "entries", VList entries);
                                   (py "count",
                                    VInt (Z.of_nat (length entries)))])
                           None)
       end.
Proof.
  unfold FileTool._list_dir, file_target.
  destruct (dict_get inputs (py "path")) as [p|].
  2: { exists []. rewrite app_nil_r. conjs; try reflexivity; try apply List.Forall_nil.
       eexists. reflexivity. }
  destruct (FileTool._resolve_path self p m) as [path|e] eqn:Hres.
  2: { exists []. rewrite app_nil_r. conjs; try reflexivity; try apply List.Forall_nil.
       apply list_dir_handler_fails. }
  assert (Hd : probe_ok path (SysIsDir path)).
  { split; [left; reflexivity | reflexivity]. }
  assert (Hi : probe_ok path (SysIterDir path)).
  { split; reflexivity. }
  pose proof (reached_logged _ _ (host_is_dir path) m Hd) as H1.
  fold (is_dir path m) in H1.
  destruct (is_dir path m) as [[[|]|e] m1]; cbn [fst snd] in *.
  3: { destruct (reached_split _ _ _ H1) as (new & Hc & Hon & Hro).
       exists new. conjs; try assumption. left. apply list_dir_handler_fails. }
  2: { destruct (reached_split _ _ _ H1) as (new & Hc & Hon & Hro).
       exists new. conjs; try assumption. left. eexists. reflexivity. }
  pose proof (reached_logged _ _ (host_iterdir path) m1 Hi) as H2.
  fold (iterdir path m1) in H2.
  destruct (iterdir path m1) as [[names|e] m2]; cbn [fst snd] in *.
  2: { destruct (reached_split _ _ _ (reached_trans _ _ _ _ H1 H2))
         as (new & Hc & Hon & Hro).
       exists new. conjs; try assumption. left. apply list_dir_handler_fails. }
  destruct (list_entries_reached self path
              (dict_get_default inputs (py "pattern") (VStr (py "*"))) names m2)
    as (H3 & Hnames).
  destruct (FileTool.list_entries self path _ names m2) as [[entries|e] m3];
    cbn [fst snd] in *;
    destruct (reached_split _ _ _
                (reached_trans _ _ _ _ H1 (reached_trans _ _ _ _ H2 H3)))
      as (new & Hc & Hon & Hro);
    exists new; conjs; try assumption.
  - right. exists names, entries. conjs; try reflexivity.
    apply (Hnames entries eq_refl).
  - left. apply list_dir_handler_fails.
Qed.
End FileToolMore.

Section FileToolExecute.
Context {World : Type} `{Host World}.

(** [execute] is one of the three actions or the refusal of an unknown
    action. *)
Lemma file_execute_cases (self : FileTool.t) (inputs : dict) (m : machine World) :
  let action := dict_get_default inputs (py "action") VNone in
  (is_str action (py "read_text") = true
   /\ FileTool.execute self inputs m = FileTool._read_text self inputs m)
  \/ (is_str action (py "read_text") = false
      /\ is_str action (py "write_text") = true
      /\ FileTool.execute self inputs m = FileTool._write_text self inputs m)
  \/ (is_str action (py "read_text") = false
      /\ is_str action (py "write_text") = false
      /\ is_str action (py "list_dir") = true
      /\ FileTool.execute self inputs m = FileTool._list_dir self inputs m)
  \/ (is_str action (py "read_text") = false
      /\ is_str action (py "write_text") = false
      /\ is_str action (py "list_dir") = false
      /\ exists msg, FileTool.execute self inputs m = (fail_output msg, m)).
Proof.
  intros action. unfold FileTool.execute. fold action.
  destruct (is_str action (py "read_text")); [left; split; reflexivity|].
  destruct (is_str action (py "write_text")); [right; left; conjs; reflexivity|].
  destruct (is_str action (py "list_dir")); [right; right; left; conjs; reflexivity|].
  right; right; right. conjs; try reflexivity. eexists. reflexivity.
Qed.
End FileToolExecute.

(** X12. The file tool touches only the target of the call.  When the
    [path] input is missing or does not resolve inside the workspace,
    the tool makes no call at all.  Otherwise the target [p], the
    resolved path, lies at or below the workspace root and every call
    is a call on it: the tool reads, writes, appends to or lists only
    [p], creates only the parent directory of [p], tests only [p] and
    the entries [p / name] of a directory it lists with [is_dir],
    probes only such entries with [is_file] and [stat], and starts no
    process.  (The probes of an entry follow a symbolic link at the
    entry; path resolution itself is not counted as a call.) *)
Theorem file_tool_touches_only_its_target {World : Type} `{Host World}
    (self : FileTool.t) (inputs : dict) (m : machine World) :
  exists new,
    calls (snd (FileTool.execute self inputs m)) = calls m ++ new
    /\ match file_target self inputs m with
       | None => new = []
       | Some p =>
           is_descendant p (FileTool.workspace_root self) = true
           /\ Forall (call_on_target p) new
       end.
Proof.
  pose proof (file_target_inside self inputs m) as Hin.
  destruct (file_execute_cases self inputs m)
    as [(_ & ->)|[(_ & _ & ->)|[(_ & _ & _ & ->)|(_ & _ & _ & msg & ->)]]].
  - destruct (read_text_outcome self inputs m) as (new & Hc & _ & Hcase).
    exists new. split; [exact Hc|].
    destruct (file_target self inputs m) as [p|].
    + split; [apply Hin; reflexivity | apply Hcase].
    + apply Hcase.
  - destruct (write_text_outcome self inputs m) as (new & Hc & Hcase).
    exists new. split; [exact Hc|].
    destruct (file_target self inputs m) as [p|].
    + split; [apply Hin; reflexivity | apply Hcase].
    + apply Hcase.
  - destruct (list_dir_outcome self inputs m) as (new & Hc & _ & Hcase).
    exists new. split; [exact Hc|].
    destruct (file_target self inputs m) as [p|].
    + split; [apply Hin; reflexivity | apply Hcase].
    + apply Hcase.
  - exists []. cbn [snd]. rewrite app_nil_r. split; [reflexivity|].
    destruct (file_target self inputs m) as [p|].
    + split; [apply Hin; reflexivity | apply List.Forall_nil].
    + reflexivity.
Qed.

(** X13. Only [write_text] changes the filesystem: any other action
    creates no directory and writes or appends to no file. *)
Theorem only_write_text_mutates {World : Type} `{Host World}
    (self : FileTool.t) (inputs : dict) (m : machine World) :
  is_str (dict_get_default inputs (py "action") VNone) (py "write_text") = false ->
  exists new,
    calls (snd (FileTool.execute self inputs m)) = calls m ++ new
    /\ Forall (fun c => is_mutation c = false) new.
Proof.
  intros Hw.
  destruct (file_execute_cases self inputs m)
    as [(_ & ->)|[(_ & Hw' & _)|[(_ & _ & _ & ->)|(_ & _ & _ & msg & ->)]]].
  - destruct (read_text_outcome self inputs m) as (new & Hc & Hro & _).
    exists new. split; assumption.
  - cbv zeta in Hw'. congruence.
  - destruct (list_dir_outcome self inputs m) as (new & Hc & Hro & _).
    exists new. split; assumption.
  - exists []. cbn [snd]. rewrite app_nil_r. split; [reflexivity | constructor].
Qed.

(** Reading an existing file logs one read and nothing else. *)
Lemma only_write_text_mutates_witness :
  exists new,
    calls (snd (FileTool.execute (FileTool.mk [py "ws"])
                  [(py "action", VStr (py "read_text"));
                   (py "path", VStr (py "notes.txt"))]
                  (mk_machine [([py "ws"; py "notes.txt"], py "hello")] [])))
    = [] ++ new
    /\ Forall (fun c => is_mutation c = false) new.
Proof.
  apply (only_write_text_mutates (FileTool.mk [py "ws"])
           [(py "action", VStr (py "read_text")); (py "path", VStr (py "notes.txt"))]
           (mk_machine [([py "ws"; py "notes.txt"], py "hello")] [])).
  reflexivity.
Defined.

(** The shape of the outputs of the file tool, with the path that a
    success reports. *)
Lemma file_tool_output_shape {World : Type} `{Host World}
    (self : FileTool.t) (inputs : dict) (m : machine World) :
  let out := fst (FileTool.execute self inputs m) in
  if success out then
    error out = None
    /\ exists p d,
         file_target self inputs m = Some p
         /\ is_descendant p (FileTool.workspace_root self) = true
         /\ data out = VDict d
         /\ dict_get d (py "path") = Some (VStr (path_str p))
  else
    data out = VNone /\ exists msg, error out = Some msg.
Proof.
  cbv zeta.
  pose proof (file_target_inside self inputs m) as Hin.
  destruct (file_execute_cases self inputs m)
    as [(_ & ->)|[(_ & _ & ->)|[(_ & _ & _ & ->)|(_ & _ & _ & msg & ->)]]].
  - destruct (read_text_outcome self inputs m) as (new & _ & _ & Hcase).
    destruct (file_target self inputs m) as [p|].
    + destruct Hcase as (_ & [(msg & ->)|(content & ->)]).
      * split; [reflexivity | exists msg; reflexivity].
      * split; [reflexivity|]. eexists p, _.
        conjs; [reflexivity | apply Hin; reflexivity | reflexivity | reflexivity].
    + destruct Hcase as (_ & msg & ->).
      split; [reflexivity | exists msg; reflexivity].
  - destruct (write_text_outcome self inputs m) as (new & _ & Hcase).
    destruct (file_target self inputs m) as [p|].
    + destruct Hcase as (_ & [(msg & ->)|(content & n & _ & _ & ->)]).
      * split; [reflexivity | exists msg; reflexivity].
      * split; [reflexivity|]. eexists p, _.
        conjs; [reflexivity | apply Hin; reflexivity | reflexivity | reflexivity].
    + destruct Hcase as (_ & msg & ->).
      split; [reflexivity | exists msg; reflexivity].
  - destruct (list_dir_outcome self inputs m) as (new & _ & _ & Hcase).
    destruct (file_target self inputs m) as [p|].
    + destruct Hcase as (_ & [(msg & ->)|(names & entries & _ & _ & ->)]).
      * split; [reflexivity | exists msg; reflexivity].
      * split; [reflexivity|]. eexists p, _.
        conjs; [reflexivity | apply Hin; reflexivity | reflexivity | reflexivity].
    + destruct Hcase as (_ & msg & ->).
      split; [reflexivity | exists msg; reflexivity].
  - split; [reflexivity | exists msg; reflexivity].
Qed.

(** X14. The outputs of the file tool are well formed.  A success
    carries no error and a mapping whose [path] is the absolute path
    that the action worked on: the [path] input of the call, resolved
    against the workspace root, which lies inside the workspace (for a
    read and a listing as for a write); a failure carries an error
    message and no data. *)
Theorem file_tool_outputs_are_well_formed {World : Type} `{Host World}
    (self : FileTool.t) (inputs : dict) (m : machine World) :
  let out := fst (FileTool.execute self inputs m) in
  if success out then
    error out = None
    /\ exists p d,
         file_target self inputs m = Some p
         /\ is_descendant p (FileTool.workspace_root self) = true
         /\ data out = VDict d
         /\ dict_get d (py "path") = Some (VStr (path_str p))
  else
    data out = VNone /\ exists msg, error out = Some msg.
Proof. apply file_tool_output_shape. Qed.

(** X15. A successful [write_text] makes exactly two calls, in this
    order: it creates the parent directory of the target, then writes
    the content to the target, with an append in [append] mode and with
    an overwrite otherwise; the target resolves inside the workspace. *)
Theorem write_text_creates_parent_then_writes_once {World : Type} `{Host World}
    (self : FileTool.t) (inputs : dict) (m : machine World) :
  success (fst (FileTool._write_text self inputs m)) = true ->
  exists p content,
    is_descendant p (FileTool.workspace_root self) = true
    /\ dict_get inputs (py "content") = Some content
    /\ calls (snd (FileTool._write_text self inputs m))
       = calls m
         ++ [SysMkdir (path_parent p);
             if is_str (dict_get_default inputs (py "mode") (VStr (py "overwrite")))
                  (py "append")
             then SysAppend p content else SysWrite p content].
Proof.
  intros Hok.
  pose proof (file_target_inside self inputs m) as Hin.
  destruct (write_text_outcome self inputs m) as (new & Hc & Hcase).
  destruct (file_target self inputs m) as [p|].
  - destruct Hcase as (_ & [(msg & Hf)|(content & n & Hcontent & -> & _)]).
    + rewrite Hf in Hok. discriminate.
    + exists p, content. conjs; [apply Hin; reflexivity | assumption | assumption].
  - destruct Hcase as (_ & msg & Hf). rewrite Hf in Hok. discriminate.
Qed.

Lemma write_text_creates_parent_then_writes_once_witness :
  exists p content,
    is_descendant p [py "ws"] = true
    /\ dict_get [(py "path", VStr (py "out/log.txt")); (py "content", VStr (py "line"));
                 (py "mode", VStr (py "append"))] (py "content") = Some content
    /\ calls (snd (FileTool._write_text (FileTool.mk [py "ws"])
                     [(py "path", VStr (py "out/log.txt"));
                      (py "content", VStr (py "line"));
                      (py "mode", VStr (py "append"))] SimHost.start))
       = [] ++ [SysMkdir (path_parent p); SysAppend p content].
Proof.
  apply (write_text_creates_parent_then_writes_once (FileTool.mk [py "ws"])
           [(py "path", VStr (py "out/log.txt")); (py "content", VStr (py "line"));
            (py "mode", VStr (py "append"))] SimHost.start).
  vm_compute. reflexivity.
Defined.

(** X16. A successful [list_dir] returns the entries whose name matches
    the pattern ([*] when none is given), in the order of the
    directory listing that the call obtained for its target, and its
    [count] is the number of entries returned. *)
Theorem list_dir_returns_the_matching_entries {World : Type} `{Host World}
    (self : FileTool.t) (inputs : dict) (m : machine World) :
  success (fst (FileTool._list_dir self inputs m)) = true ->
  exists p names entries,
    file_target self inputs m = Some p
    /\ is_descendant p (FileTool.workspace_root self) = true
    /\ fst (host_iterdir p (world (snd (is_dir p m)))) = Ok names
    /\ map entry_name entries
       = map (fun name => Some (VStr name))
           (matching_names (dict_get_default inputs (py "pattern") (VStr (py "*")))
              names)
    /\ data (fst (FileTool._list_dir self inputs m))
       = VDict [(py "path", VStr (path_str p));
                (py "entries", VList entries);
                (py "count", VInt (Z.of_nat (length entries)))].
Proof.
  intros Hok.
  pose proof (file_target_inside self inputs m) as Hin.
  destruct (list_dir_outcome self inputs m) as (new & _ & _ & Hcase).
  destruct (file_target self inputs m) as [p|].
  - destruct Hcase as (_ & [(msg & Hf)|(names & entries & He & Hn & Hout)]).
    + rewrite Hf in Hok. discriminate.
    + exists p, names, entries. rewrite Hout.
      conjs; [reflexivity | apply Hin; reflexivity | | exact Hn | reflexivity].
      rewrite <- He. unfold iterdir, logged.
      destruct (host_iterdir p (world (snd (is_dir p m)))). reflexivity.
  - destruct Hcase as (_ & msg & Hf). rewrite Hf in Hok. discriminate.
Qed.

Lemma list_dir_returns_the_matching_entries_witness :
  exists p names entries,
    file_target (FileTool.mk [py "ws"])
      [(py "path", VStr (py ".")); (py "pattern", VStr (py "a.txt"))]
      (mk_machine [([py "ws"; py "a.txt"], py "A");
                   ([py "ws"; py "b.txt"], py "B")] []) = Some p
    /\ is_descendant p [py "ws"] = true
    /\ fst (host_iterdir p
              (world (snd (is_dir p
                             (mk_machine [([py "ws"; py "a.txt"], py "A");
                                          ([py "ws"; py "b.txt"], py "B")] [])))))
       = Ok names
    /\ map entry_name entries
       = map (fun name => Some (VStr name))
           (matching_names (VStr (py "a.txt")) names)
    /\ data (fst (FileTool._list_dir (FileTool.mk [py "ws"])
                    [(py "path", VStr (py ".")); (py "pattern", VStr (py "a.txt"))]
                    (mk_machine [([py "ws"; py "a.txt"], py "A");
                                 ([py "ws"; py "b.txt"], py "B")] [])))
       = VDict [(py "path", VStr (path_str p));
                (py "entries", VList entries);
                (py "count", VInt (Z.of_nat (length entries)))].
Proof.
  apply (list_dir_returns_the_matching_entries (FileTool.mk [py "ws"])
           [(py "path", VStr (py ".")); (py "pattern", VStr (py "a.txt"))]
           (mk_machine [([py "ws"; py "a.txt"], py "A");
                        ([py "ws"; py "b.txt"], py "B")] [])).
  vm_compute. reflexivity.
Defined.

(** X17. Validation comes first: an unknown or missing action, a
    missing [path], and for [write_text] a missing [content] or an
    unknown [mode] make the tool fail before any call: the machine is
    returned as it was. *)
Theorem file_tool_rejects_malformed_inputs_untouched {World : Type}
    `{Host World} (self : FileTool.t) (inputs : dict) (m : machine World) :
  file_call_malformed inputs = true ->
  exists msg, FileTool.execute self inputs m = (fail_output msg, m).
Proof.
  unfold file_call_malformed, FileTool.execute, call_well_formed, dict_has.
  replace (pystr_eqb (py "write_text") (py "write_text")) with true by reflexivity.
  set (action := dict_get_default inputs (py "action") VNone).
  destruct (is_str action (py "read_text")).
  { cbn [orb]. unfold FileTool._read_text.
    destruct (dict_get inputs (py "path")); [discriminate|].
    intros _. eexists. reflexivity. }
  destruct (is_str action (py "write_text")) eqn:Hw.
  { destruct (is_str action (py "list_dir")) eqn:Hl.
    { destruct action as [ | | |s| |]; try discriminate.
      cbn [is_str] in Hw, Hl. apply pystr_eqb_true in Hw, Hl. subst s. discriminate. }
    cbn [orb]. unfold FileTool._write_text.
    destruct (dict_get inputs (py "path")); [|intros _; eexists; reflexivity].
    destruct (dict_get inputs (py "content")); [|intros _; eexists; reflexivity].
    cbn [negb orb andb]. intros Hmode. rewrite Hmode. eexists. reflexivity. }
  destruct (is_str action (py "list_dir")).
  { cbn [orb]. unfold FileTool._list_dir.
    destruct (dict_get inputs (py "path")); [discriminate|].
    intros _. eexists. reflexivity. }
  intros _. eexists. reflexivity.
Qed.

(** A write with an unknown mode to a path inside the workspace. *)
Lemma file_tool_rejects_malformed_inputs_untouched_witness :
  exists msg,
    FileTool.execute (FileTool.mk [py "ws"])
      [(py "action", VStr (py "write_text")); (py "path", VStr (py "a.txt"));
       (py "content", VStr (py "x")); (py "mode", VStr (py "truncate"))]
      SimHost.start
    = (fail_output msg, SimHost.start).
Proof.
  apply (file_tool_rejects_malformed_inputs_untouched (FileTool.mk [py "ws"])).
  reflexivity.
Defined.

(** ** The shell tool *)

Section ShellToolMore.
Context {World : Type} `{Host World}.

Lemma run_command_outcome (cmd : pystr) (timeout : value) (m : machine World) :
  calls (snd (ShellTool.run_command cmd timeout m)) = calls m ++ [SysRun cmd]
  /\ let out := fst (ShellTool.run_command cmd timeout m) in
     if success out then
       error out = None
       /\ exists stdout stderr,
            data out = VDict [(py "stdout", VStr stdout);
                              (py "stderr", VStr stderr);
                              (py "return_code", VInt 0);
                              (py "command", VStr cmd)]
     else exists msg, error out = Some msg.
Proof.
  unfold ShellTool.run_command.
  pose proof (logged_calls (SysRun cmd) (host_run cmd timeout) m) as Hc.
  fold (subprocess_run cmd timeout m) in Hc.
  destruct (subprocess_run cmd timeout m) as [[p|e] m1]; cbn [fst snd] in *.
  - split; [exact Hc|]. cbn [success error data].
    destruct (Z.eqb_spec (cp_returncode p) 0) as [E|E]; cbn [negb].
    + split; [reflexivity|]. rewrite E. eexists _, _. reflexivity.
    + eexists. reflexivity.
  - destruct (exn_cls e); cbn [fst snd];
      (split; [exact Hc | eexists; reflexivity]).
Qed.
End ShellToolMore.

(** X18. The shell tool starts a process only for a command it allows.
    For all inputs, either the machine is returned as it was, or
    exactly one process was started, for the command string of the
    inputs, whose base command is in the allow-list and not in the
    deny-list and whose lower-cased text holds none of the dangerous
    patterns. *)
Theorem shell_runs_only_allowed_commands {World : Type} `{Host World}
    (self : ShellTool.t) (inputs : dict) (m : machine World) :
  snd (ShellTool.execute self inputs m) = m
  \/ exists cmd base_cmd args,
       dict_get inputs (py "cmd") = Some (VStr cmd)
       /\ host_shlex_split (VStr cmd) = Ok (base_cmd :: args)
       /\ (base_cmd ∈ ShellTool.whitelist self)
       /\ (base_cmd ∉ ShellTool.blacklist self)
       /\ forallb (fun pattern => negb (str_contains (host_lower cmd) pattern))
            ShellTool.dangerous_patterns = true
       /\ calls (snd (ShellTool.execute self inputs m)) = calls m ++ [SysRun cmd].
Proof.
  unfold ShellTool.execute.
  destruct (dict_get inputs (py "cmd")) as [cmd|]; [|left; reflexivity].
  destruct (host_shlex_split cmd) as [[|base_cmd args]|e] eqn:Hsplit.
  - left. reflexivity.
  - destruct (bool_decide (base_cmd ∈ ShellTool.blacklist self)) eqn:Hdeny;
      [left; reflexivity|].
    destruct (bool_decide (base_cmd ∈ ShellTool.whitelist self)) eqn:Hallow;
      [|left; reflexivity].
    cbn [negb].
    destruct cmd as [ | | |cmd_s| |]; try (left; reflexivity).
    destruct (find _ ShellTool.dangerous_patterns) as [pattern|] eqn:Hscan;
      [left; reflexivity|].
    right. exists cmd_s, base_cmd, args.
    apply bool_decide_eq_false in Hdeny. apply bool_decide_eq_true in Hallow.
    conjs; try assumption; try reflexivity.
    + apply forallb_forall. intros pattern Hin.
      apply negb_true_iff.
      destruct (str_contains (host_lower cmd_s) pattern) eqn:Hc; [|reflexivity].
      pose proof (find_none _ _ Hscan pattern Hin) as Hn. cbv beta in Hn.
      congruence.
    + destruct (run_command_outcome cmd_s
                  (dict_get_default inputs (py "timeout") (VInt 30)) m) as [Hc _].
      destruct (ShellTool.run_command cmd_s _ m). exact Hc.
  - destruct (exn_cls e); left; reflexivity.
Qed.

(** X19. For a command given as a string, the shell tool returns a
    [ToolOutput] and does not raise, provided [shlex.split] raises
    nothing but [ValueError] on strings; a success then has exit code
    [0] in its data and no error, and a failure has an error
    message. *)
Theorem shell_returns_well_formed_outputs {World : Type} `{Host World}
    (self : ShellTool.t) (inputs : dict) (cmd : pystr) (m : machine World) :
  dict_get inputs (py "cmd") = Some (VStr cmd) ->
  (forall e, host_shlex_split (VStr cmd) = Raise e -> exn_cls e = ValueError) ->
  exists out,
    fst (ShellTool.execute self inputs m) = Ok out
    /\ if success out then
         error out = None
         /\ exists stdout stderr,
              data out = VDict [(py "stdout", VStr stdout);
                                (py "stderr", VStr stderr);
                                (py "return_code", VInt 0);
                                (py "command", VStr cmd)]
       else exists msg, error out = Some msg.
Proof.
  intros Hcmd Hval. unfold ShellTool.execute. rewrite Hcmd.
  destruct (host_shlex_split (VStr cmd)) as [[|base_cmd args]|e] eqn:Hsplit.
  - eexists. split; [reflexivity|]. eexists. reflexivity.
  - destruct (bool_decide (base_cmd ∈ ShellTool.blacklist self)).
    { eexists. split; [reflexivity|]. eexists. reflexivity. }
    destruct (bool_decide (base_cmd ∈ ShellTool.whitelist self)); cbn [negb].
    2: { eexists. split; [reflexivity|]. eexists. reflexivity. }
    destruct (find _ ShellTool.dangerous_patterns).
    { eexists. split; [reflexivity|]. eexists. reflexivity. }
    destruct (run_command_outcome cmd
                (dict_get_default inputs (py "timeout") (VInt 30)) m) as [_ Hout].
    destruct (ShellTool.run_command cmd _ m) as [out m1].
    exists out. split; [reflexivity | exact Hout].
  - rewrite (Hval e eq_refl). eexists. split; [reflexivity|]. eexists. reflexivity.
Qed.

Lemma shell_returns_well_formed_outputs_witness :
  exists out,
    fst (ShellTool.execute
           (ShellTool.init None None
              (mk_settings [] [] default_shell_whitelist default_shell_blacklist))
           [(py "cmd", VStr (py "ls -la"))] SimHost.start) = Ok out
    /\ if success out then
         error out = None
         /\ exists stdout stderr,
              data out = VDict [(py "stdout", VStr stdout);
                                (py "stderr", VStr stderr);
                                (py "return_code", VInt 0);
                                (py "command", VStr (py "ls -la"))]
       else exists msg, error out = Some msg.
Proof.
  apply (shell_returns_well_formed_outputs _
           [(py "cmd", VStr (py "ls -la"))] (py "ls -la") SimHost.start).
  - reflexivity.
  - intros e He. vm_compute in He. discriminate.
Defined.

(** ** The registry and the default executor *)

(** X20. [register] and [get].  Registering a tool under a free name
    succeeds, after which [get] returns that tool for its name and
    what it returned before for every other name; registering under a
    name that is taken raises [ToolError]. *)
Theorem register_then_get {World : Type} (registry : gmap pystr (Tool World))
    (tool : Tool World) :
  match ToolRegistry.register registry tool with
  | Ok registry' =>
      ToolRegistry.has registry (tool_name tool) = false
      /\ ToolRegistry.get registry' (tool_name tool) = Some tool
      /\ forall name, name <> tool_name tool ->
           ToolRegistry.get registry' name = ToolRegistry.get registry name
  | Raise e =>
      ToolRegistry.has registry (tool_name tool) = true
      /\ exn_cls e = ToolError
  end.
Proof.
  unfold ToolRegistry.register, ToolRegistry.has, ToolRegistry.get.
  destruct (registry !! tool_name tool) as [t|] eqn:Hl.
  - split; reflexivity.
  - conjs; [reflexivity | apply lookup_insert_eq |].
    intros name Hne. apply lookup_insert_ne. congruence.
Qed.

Lemma create_default_executor_spec {World : Type} `{Host World}
    (workspace_root runs_dir : fspath) (settings : Settings)
    (m : machine World) (w' : World) :
  host_mkdir runs_dir (world m) = (Ok tt, w') ->
  exists executor,
    create_default_executor workspace_root runs_dir settings m
      = (Ok executor, mk_machine w' (calls m ++ [SysMkdir runs_dir]))
    /\ Executor._step_outputs executor = ∅
    /\ Executor.workspace_root executor = workspace_root
    /\ Executor.runs_dir executor = runs_dir
    /\ ToolRegistry.get (Executor.tool_registry executor) (py "file")
       = Some (FileTool.as_tool (FileTool.mk workspace_root))
    /\ ToolRegistry.get (Executor.tool_registry executor) (py "shell")
       = Some (ShellTool.as_tool (ShellTool.init None None settings))
    /\ forall name, name <> py "file" -> name <> py "shell" ->
         ToolRegistry.get (Executor.tool_registry executor) name = None.
Proof.
  intros Hmk. unfold create_default_executor, Executor.init, mkdir, logged.
  rewrite Hmk. cbv beta iota zeta.
  cbn [Executor.tool_registry].
  unfold ToolRegistry.register.
  cbn [tool_name FileTool.as_tool ShellTool.as_tool].
  rewrite lookup_empty.
  assert (Hnames : FileTool.name <> ShellTool.name).
  { intros E. vm_compute in E. discriminate. }
  assert (Hfree : (<[FileTool.name := FileTool.as_tool (FileTool.mk workspace_root)]>
                     (∅ : gmap pystr (Tool World))) !! ShellTool.name = None).
  { etransitivity; [apply lookup_insert_ne; exact Hnames | apply lookup_empty]. }
  rewrite Hfree.
  eexists. split; [reflexivity|].
  unfold with_registry, ToolRegistry.get.
  cbn [Executor._step_outputs Executor.workspace_root Executor.runs_dir
       Executor.tool_registry].
  split; [reflexivity|]. split; [reflexivity|]. split; [reflexivity|].
  split; [|split].
  - etransitivity; [apply lookup_insert_ne | apply lookup_insert_eq].
    intros E. apply Hnames. symmetry. exact E.
  - apply lookup_insert_eq.
  - intros name Hf Hs.
    etransitivity; [apply lookup_insert_ne; intros E; apply Hs; symmetry; exact E|].
    etransitivity; [apply lookup_insert_ne; intros E; apply Hf; symmetry; exact E|].
    apply lookup_empty.
Qed.

(** X21. The default executor.  When the runs directory can be
    created, [create_default_executor] returns an executor with no
    recorded output whose registry holds the file tool, bound to the
    given workspace root, under the name [file], the shell tool with
    the allow and deny lists of the settings under the name [shell],
    and nothing else. *)
Theorem default_executor_has_file_and_shell {World : Type} `{Host World}
    (workspace_root runs_dir : fspath) (settings : Settings)
    (m : machine World) (w' : World) :
  host_mkdir runs_dir (world m) = (Ok tt, w') ->
  exists executor,
    create_default_executor workspace_root runs_dir settings m
      = (Ok executor, mk_machine w' (calls m ++ [SysMkdir runs_dir]))
    /\ Executor._step_outputs executor = ∅
    /\ Executor.workspace_root executor = workspace_root
    /\ Executor.runs_dir executor = runs_dir
    /\ ToolRegistry.get (Executor.tool_registry executor) (py "file")
       = Some (FileTool.as_tool (FileTool.mk workspace_root))
    /\ ToolRegistry.get (Executor.tool_registry executor) (py "shell")
       = Some (ShellTool.as_tool (ShellTool.init None None settings))
    /\ forall name, name <> py "file" -> name <> py "shell" ->
         ToolRegistry.get (Executor.tool_registry executor) name = None.
Proof. apply create_default_executor_spec. Qed.

Lemma default_executor_has_file_and_shell_witness :
  exists executor,
    create_default_executor [py "ws"] [py "runs"]
      (mk_settings [py "ws"] [py "runs"] default_shell_whitelist
         default_shell_blacklist) SimHost.start
      = (Ok executor, mk_machine [] ([] ++ [SysMkdir [py "runs"]]))
    /\ Executor._step_outputs executor = ∅
    /\ Executor.workspace_root executor = [py "ws"]
    /\ Executor.runs_dir executor = [py "runs"]
    /\ ToolRegistry.get (Executor.tool_registry executor) (py "file")
       = Some (FileTool.as_tool (FileTool.mk [py "ws"]))
    /\ ToolRegistry.get (Executor.tool_registry executor) (py "shell")
       = Some (ShellTool.as_tool
                 (ShellTool.init None None
                    (mk_settings [py "ws"] [py "runs"] default_shell_whitelist
                       default_shell_blacklist)))
    /\ forall name, name <> py "file" -> name <> py "shell" ->
         ToolRegistry.get (Executor.tool_registry executor) name = None.
Proof.
  apply (default_executor_has_file_and_shell [py "ws"] [py "runs"] _
           SimHost.start []).
  reflexivity.
Defined.

(** ** Steps that build on each other *)

Section StepEffects.
Context {World : Type} `{Host World} `{Serializer}.

(** What a successful step leaves behind. *)
Lemma run_step_success (st : Executor.loop_state) (step : Step.t) :
  step_failure (Executor.ls_self st) step (Executor.ls_machine st) = None ->
  exists resolved tool output,
    Executor._resolve_inputs (Executor.ls_self st) (Step.inputs step) = Ok resolved
    /\ ToolRegistry.get (Executor.tool_registry (Executor.ls_self st)) (Step.tool step)
       = Some tool
    /\ fst (tool_execute tool resolved (tick (tick (Executor.ls_machine st))))
       = Ok output
    /\ success output = true
    /\ Executor.ls_self (snd (Executor.run_step false st step))
       = Executor.record_output (Executor.ls_self st) (Step.id step) (data output)
    /\ ExecutionResult.produced_files
         (Executor.ls_result (snd (Executor.run_step false st step)))
       = ExecutionResult.produced_files (Executor.ls_result st)
         ++ match Executor.produced_path (data output) with
            | Some p => [p]
            | None => []
            end.
Proof.
  unfold Executor.run_step, step_failure, tick, TraceEntry.create.
  destruct (now (Executor.ls_machine st)) as [ts m1]. cbn [snd].
  destruct (Executor._resolve_inputs _ _) as [resolved|e]; [|discriminate].
  destruct (ToolRegistry.get _ _) as [tool|]; [|discriminate].
  unfold TraceEntry.mark_started. destruct (now m1) as [ts1 m2]. cbn [snd].
  destruct (tool_execute tool resolved m2) as [[output|e] m3] eqn:Hex; cbn [fst];
    [|discriminate].
  destruct (success output) eqn:Hs; [|discriminate].
  intros _. exists resolved, tool, output.
  destruct (TraceEntry.mark_success _ _ _) as [trace2 m4].
  cbn [snd Executor.ls_self Executor.ls_result]. rewrite Hex. cbn [fst].
  conjs; try reflexivity; try exact Hs.
  destruct (Executor.produced_path (data output)); cbn; rewrite ?app_nil_r; reflexivity.
Qed.

(** The calls of one iteration are those of its tool. *)
Lemma run_step_calls (st : Executor.loop_state) (step : Step.t) :
  calls (Executor.ls_machine (snd (Executor.run_step false st step)))
  = match Executor._resolve_inputs (Executor.ls_self st) (Step.inputs step),
          ToolRegistry.get (Executor.tool_registry (Executor.ls_self st))
            (Step.tool step) with
    | Ok resolved, Some tool =>
        calls (snd (tool_execute tool resolved (tick (tick (Executor.ls_machine st)))))
    | _, _ => calls (Executor.ls_machine st)
    end.
Proof.
  unfold Executor.run_step, tick, TraceEntry.create, Executor.fail_step,
    TraceEntry.mark_failure, TraceEntry.mark_started, TraceEntry.mark_success.
  pose proof (now_calls (Executor.ls_machine st)) as C1.
  destruct (now (Executor.ls_machine st)) as [ts m1]. cbn [snd] in *.
  destruct (Executor._resolve_inputs _ _) as [resolved|e].
  2: { pose proof (now_calls m1) as C2. destruct (now m1). cbn [snd] in *.
       cbn. congruence. }
  destruct (ToolRegistry.get _ _) as [tool|].
  2: { pose proof (now_calls m1) as C2. destruct (now m1). cbn [snd] in *.
       cbn. congruence. }
  destruct (now m1) as [ts1 m2]. cbn [snd].
  destruct (tool_execute tool resolved m2) as [[output|e] m3]; cbn [snd].
  2: { pose proof (now_calls m3) as C3. destruct (now m3). exact C3. }
  pose proof (now_calls m3) as C3.
  destruct (success output); destruct (now m3); exact C3.
Qed.
End StepEffects.

(** X22. A later step sees the output of an earlier one.  When a step
    succeeds, that is, its tool, called on the resolved inputs of the
    step, returns an output that reports success, a reference
    [ref:step:<id>] to its id (an id without a colon) resolves, in the
    state the step leaves, to the [content] of the data of that output
    when the data is a mapping with that key, and to the whole data
    otherwise. *)
Theorem later_step_sees_earlier_output {World : Type} `{Host World}
    `{Serializer} (st : Executor.loop_state) (step : Step.t) (key : pystr) :
  step_failure (Executor.ls_self st) step (Executor.ls_machine st) = None ->
  ~ In colon (Step.id step) ->
  exists resolved tool output,
    Executor._resolve_inputs (Executor.ls_self st) (Step.inputs step) = Ok resolved
    /\ ToolRegistry.get (Executor.tool_registry (Executor.ls_self st)) (Step.tool step)
       = Some tool
    /\ fst (tool_execute tool resolved (tick (tick (Executor.ls_machine st))))
       = Ok output
    /\ success output = true
    /\ Executor._resolve_inputs
         (Executor.ls_self (snd (Executor.run_step false st step)))
         [(key, VStr (py "ref:step:" ++ Step.id step))]
       = Ok [(key,
              match data output with
              | VDict d =>
                  match dict_get d (py "content") with
                  | Some content => content
                  | None => VDict d
                  end
              | payload => payload
              end)].
Proof.
  intros Hok Hid.
  destruct (run_step_success st step Hok)
    as (resolved & tool & output & Hres & Hget & Hex & Hs & Hself & _).
  exists resolved, tool, output. conjs; try assumption.
  rewrite Hself. unfold Executor._resolve_inputs.
  cbn [Executor.resolve_dict Executor.resolve_loop Executor._step_outputs
       Executor.record_output dict_set].
  rewrite (resolve_str_reference _ (Step.id step) Hid).
  rewrite lookup_insert_eq. destruct (data output); reflexivity.
Qed.

(** The first step of [plan_crash_second] succeeds with its inputs as
    payload, and [ref:step:1] then resolves to their [content]. *)
Lemma later_step_sees_earlier_output_witness :
  let st := entry_state SimHost.executor SimHost.plan_crash_second SimHost.start in
  let step := SimHost.step "1" "echo" [(py "content", VStr (py "Hello"))] in
  exists resolved tool output,
    Executor._resolve_inputs (Executor.ls_self st) (Step.inputs step) = Ok resolved
    /\ ToolRegistry.get (Executor.tool_registry (Executor.ls_self st)) (Step.tool step)
       = Some tool
    /\ fst (tool_execute tool resolved (tick (tick (Executor.ls_machine st))))
       = Ok output
    /\ success output = true
    /\ Executor._resolve_inputs
         (Executor.ls_self (snd (Executor.run_step false st step)))
         [(py "text", VStr (py "ref:step:" ++ Step.id step))]
       = Ok [(py "text",
              match data output with
              | VDict d =>
                  match dict_get d (py "content") with
                  | Some content => content
                  | None => VDict d
                  end
              | payload => payload
              end)].
Proof.
  intros st step.
  apply (later_step_sees_earlier_output st step (py "text")).
  - vm_compute. reflexivity.
  - vm_compute. intros [E|[]]. discriminate.
Defined.

(** X23. [produced_files] lists every path a successful file step
    worked on.  When a step dispatched to the file tool succeeds,
    whatever its action, exactly one entry is appended to
    [produced_files]: the absolute path of the file read or written or
    of the directory listed, that is the [path] of the resolved inputs
    of the step, resolved against the workspace root, which lies inside
    the workspace. *)
Theorem file_steps_are_listed_as_produced {World : Type} `{Host World}
    `{Serializer} (st : Executor.loop_state) (step : Step.t)
    (file_tool : FileTool.t) :
  ToolRegistry.get (Executor.tool_registry (Executor.ls_self st)) (Step.tool step)
    = Some (FileTool.as_tool file_tool) ->
  step_failure (Executor.ls_self st) step (Executor.ls_machine st) = None ->
  exists resolved p,
    Executor._resolve_inputs (Executor.ls_self st) (Step.inputs step) = Ok resolved
    /\ file_target file_tool resolved (tick (tick (Executor.ls_machine st))) = Some p
    /\ is_descendant p (FileTool.workspace_root file_tool) = true
    /\ ExecutionResult.produced_files
         (Executor.ls_result (snd (Executor.run_step false st step)))
       = ExecutionResult.produced_files (Executor.ls_result st)
         ++ [VStr (path_str p)].
Proof.
  intros Hget Hok.
  destruct (run_step_success st step Hok)
    as (resolved & tool & output & Hres & Hget' & Hout & Hs & _ & Hprod).
  rewrite Hget in Hget'. injection Hget' as <-.
  cbn [tool_execute FileTool.as_tool] in Hout.
  pose proof (file_tool_output_shape file_tool resolved
                (tick (tick (Executor.ls_machine st)))) as Hwf.
  cbv zeta in Hwf.
  destruct (FileTool.execute file_tool resolved (tick (tick (Executor.ls_machine st))))
    as [out m']. cbn [fst] in *. injection Hout as ->.
  rewrite Hs in Hwf. destruct Hwf as (_ & p & d & Hp & Hin & Hd & Hpath).
  exists resolved, p. conjs; try assumption. rewrite Hprod, Hd.
  unfold Executor.produced_path.
  destruct d as [|kv d]; [discriminate|]. cbn [truthy]. rewrite Hpath. reflexivity.
Qed.

Lemma sim_default_file_tool :
  ToolRegistry.get (Executor.tool_registry SimDefault.executor) (py "file")
  = Some (FileTool.as_tool (FileTool.mk [py "ws"])).
Proof.
  assert (Hmk : host_mkdir [py "runs"] (world SimDefault.start)
                = (Ok tt, world SimDefault.start)) by reflexivity.
  destruct (create_default_executor_spec [py "ws"] [py "runs"] SimDefault.settings
              SimDefault.start (world SimDefault.start) Hmk)
    as (ex & Hc & _ & _ & _ & Hfile & _).
  unfold SimDefault.executor. rewrite Hc. exact Hfile.
Qed.

(** The default executor reads [data/notes.txt]. *)
Lemma file_steps_are_listed_as_produced_witness :
  let st :=
    entry_state SimDefault.executor (SimHost.plan [SimDefault.read_notes])
      SimDefault.ready in
  exists resolved p,
    Executor._resolve_inputs (Executor.ls_self st)
      (Step.inputs SimDefault.read_notes) = Ok resolved
    /\ file_target (FileTool.mk [py "ws"]) resolved
         (tick (tick (Executor.ls_machine st))) = Some p
    /\ is_descendant p [py "ws"] = true
    /\ ExecutionResult.produced_files
         (Executor.ls_result (snd (Executor.run_step false st SimDefault.read_notes)))
       = ExecutionResult.produced_files (Executor.ls_result st)
         ++ [VStr (path_str p)].
Proof.
  intros st.
  apply (file_steps_are_listed_as_produced st SimDefault.read_notes
           (FileTool.mk [py "ws"])).
  - unfold st.
    destruct (entry_state_result SimDefault.executor
                (SimHost.plan [SimDefault.read_notes]) SimDefault.ready)
      as (_ & _ & ->).
    exact sim_default_file_tool.
  - vm_compute. reflexivity.
Defined.

(** The file that was only read is listed as produced. *)
Example read_file_is_listed_as_produced :
  ExecutionResult.produced_files
    (Executor.ls_result
       (snd (Executor.run_step false
               (entry_state SimDefault.executor (SimHost.plan [SimDefault.read_notes])
                  SimDefault.ready)
               SimDefault.read_notes)))
  = [VStr (py "/ws/data/notes.txt")].
Proof. vm_compute. reflexivity. Qed.

(** ** The planners *)

(** X24. Every plan of the mock planner can be dispatched as it is: it
    keeps the goal and the workspace root it was given, has at least
    one step, distinct step ids, only the tools [file] and [shell] and
    no reference; it is rated HIGH exactly when it is the single shell
    step that removes files; and each call counts once. *)
Theorem mock_plans_are_dispatchable {World : Type} `{Host World}
    (self : MockPlanner.t) (goal workspace_root : pystr) :
  let plan := fst (MockPlanner.generate_plan self goal workspace_root) in
  Plan.goal plan = goal
  /\ Plan.workspace_root plan = workspace_root
  /\ MockPlanner.call_count (snd (MockPlanner.generate_plan self goal workspace_root))
     = (MockPlanner.call_count self + 1)%Z
  /\ Plan.steps plan <> []
  /\ NoDup (map Step.id (Plan.steps plan))
  /\ Forall (fun s => Step.tool s = py "file" \/ Step.tool s = py "shell")
       (Plan.steps plan)
  /\ Forall (fun s => ref_free (VDict (Step.inputs s)) = true) (Plan.steps plan)
  /\ (Plan.risk_level plan = HIGH
      <-> map Step.inputs (Plan.steps plan) = [[(py "cmd", VStr (py "rm -rf *"))]]).
Proof.
  cbv zeta. unfold MockPlanner.generate_plan.
  destruct (str_contains goal MockPlanner.kw_summarize
            || str_contains (host_lower goal) (py "summarize")).
  - destruct (str_contains goal (py "data/notes.txt")); cbn [fst snd];
      (conjs; try reflexivity;
       [ discriminate
       | apply (bool_decide_unpack _); vm_compute; exact I
       | repeat constructor
       | repeat constructor
       | split; intros E; discriminate ]).
  - destruct (str_contains goal MockPlanner.kw_delete
              || str_contains (host_lower goal) (py "delete")
              || str_contains goal (py "rm -rf")); cbn [fst snd].
    + conjs; try reflexivity;
        [ discriminate
        | apply (bool_decide_unpack _); vm_compute; exact I
        | constructor; [right; reflexivity | constructor]
        | repeat constructor
        | split; intros _; reflexivity ].
    + conjs; try reflexivity;
        [ discriminate
        | apply (bool_decide_unpack _); vm_compute; exact I
        | repeat constructor
        | repeat constructor
        | split; intros E; discriminate ].
Qed.

Section RiskEstimate.
Context {World : Type} `{Host World}.

Lemma risk_scan_outcome (steps : list Step.t) :
  match LLMPlanner.risk_scan steps with
  | Ok true => True
  | Ok false =>
      Forall (fun c => exists cmd,
                c = VStr cmd
                /\ existsb (fun d => str_contains (host_lower cmd) d)
                     LLMPlanner.dangerous = false)
        (shell_commands steps)
  | Raise _ =>
      Exists (fun c => match c with VStr _ => False | _ => True end)
        (shell_commands steps)
  end.
Proof.
  unfold shell_commands.
  induction steps as [|step rest IH];
    cbn [LLMPlanner.risk_scan List.filter map].
  - constructor.
  - destruct (pystr_eqb (Step.tool step) (py "shell")); [|exact IH].
    cbn [map].
    destruct (dict_get_default (Step.inputs step) (py "cmd") (VStr []))
      as [ | | |cmd| |] eqn:Hc;
      try (apply Exists_cons_hd; exact I).
    destruct (existsb (fun d => str_contains (host_lower cmd) d)
                LLMPlanner.dangerous) eqn:Hd; [exact I|].
    destruct (LLMPlanner.risk_scan rest) as [[|]|e].
    + exact I.
    + constructor; [|exact IH]. exists cmd. split; [reflexivity | exact Hd].
    + apply Exists_cons_tl. exact IH.
Qed.
End RiskEstimate.

(** X25. The risk estimate of the LLM planner never lowers the level of
    the plan.  When it returns, the level is HIGH or the plan's own
    level; if it is not HIGH, every shell step has a string command
    whose lower-cased text holds none of the words [rm], [delete],
    [format], [shutdown], [reboot].  It raises only when the command of
    some shell step is not a string. *)
Theorem risk_estimate_never_lowers {World : Type} `{Host World}
    (plan : Plan.t) :
  match LLMPlanner.estimate_risk_level plan with
  | Ok level =>
      (risk_rank (RiskLevel_value (Plan.risk_level plan)) <= risk_rank level)%nat
      /\ (level = py "HIGH"
          \/ level = RiskLevel_value (Plan.risk_level plan)
             /\ Forall (fun c => exists cmd,
                          c = VStr cmd
                          /\ existsb (fun d => str_contains (host_lower cmd) d)
                               LLMPlanner.dangerous = false)
                  (shell_commands (Plan.steps plan)))
  | Raise _ =>
      Exists (fun c => match c with VStr _ => False | _ => True end)
        (shell_commands (Plan.steps plan))
  end.
Proof.
  unfold LLMPlanner.estimate_risk_level.
  pose proof (risk_scan_outcome (Plan.steps plan)) as Hscan.
  destruct (LLMPlanner.risk_scan (Plan.steps plan)) as [[|]|e].
  - split; [|left; reflexivity].
    destruct (Plan.risk_level plan); vm_compute; lia.
  - split; [lia|]. right. split; [reflexivity | exact Hscan].
  - exact Hscan.
Qed.

(** A plan rated LOW whose shell step runs [cat Build/Format.md] is
    rated HIGH by the estimate: lower-cased, the command holds the word
    [format]. *)
Example risk_estimate_raises_on_a_word :
  LLMPlanner.estimate_risk_level
    (SimHost.plan [SimHost.step "1" "shell"
                     [(py "cmd", VStr (py "cat Build/Format.md"))]])
  = Ok (py "HIGH").
Proof. vm_compute. reflexivity. Qed.

(** ** The mock planner, the default executor and the shell policy *)

Section Refusal.
Context {World : Type} `{Host World} `{Serializer}.

Lemma shell_denies (self : ShellTool.t) (inputs : dict) (cmd : value)
    (base_cmd : pystr) (args : list pystr) (m : machine World) :
  dict_get inputs (py "cmd") = Some cmd ->
  host_shlex_split cmd = Ok (base_cmd :: args) ->
  base_cmd ∈ ShellTool.blacklist self ->
  ShellTool.execute self inputs m
  = (Ok (fail_output (ShellTool.blacklisted_message base_cmd)), m).
Proof.
  intros Hcmd Hsplit Hdeny. unfold ShellTool.execute. rewrite Hcmd, Hsplit.
  rewrite bool_decide_eq_true_2 by exact Hdeny. reflexivity.
Qed.

Lemma create_default_executor_inv (workspace_root runs_dir : fspath)
    (settings : Settings) (m0 m : machine World) (executor : Executor.t World) :
  create_default_executor workspace_root runs_dir settings m0 = (Ok executor, m) ->
  Executor._step_outputs executor = ∅
  /\ ToolRegistry.get (Executor.tool_registry executor) (py "shell")
     = Some (ShellTool.as_tool (ShellTool.init None None settings)).
Proof.
  unfold create_default_executor, Executor.init.
  destruct (mkdir runs_dir m0) as [[[]|e] m1]; [|discriminate].
  cbn [Executor.tool_registry]. unfold ToolRegistry.register.
  cbn [tool_name FileTool.as_tool ShellTool.as_tool].
  rewrite lookup_empty.
  assert (Hnames : FileTool.name <> ShellTool.name).
  { intros E. vm_compute in E. discriminate. }
  assert (Hfree : (<[FileTool.name := FileTool.as_tool (FileTool.mk workspace_root)]>
                     (∅ : gmap pystr (Tool World))) !! ShellTool.name = None).
  { etransitivity; [apply lookup_insert_ne; exact Hnames | apply lookup_empty]. }
  rewrite Hfree. intros [= <- <-].
  split; [reflexivity|]. apply lookup_insert_eq.
Qed.

Lemma run_steps_single_calls (st : Executor.loop_state) (step : Step.t) :
  Executor.run_steps false [step] st = snd (Executor.run_step false st step).
Proof.
  simpl. destruct (Executor.run_step false st step) as [[|] st']; reflexivity.
Qed.
End Refusal.

(** X26. The plan the mock planner rates HIGH is refused by the default
    executor.  When the deny-list of the settings holds [rm] and the
    tokenizer gives [rm] as the base command of [rm -rf *], running
    that plan yields a FAILURE whose single trace entry carries the
    "blacklisted" message, and the only calls made are the four of the
    persistence layer: no process is started and no file of the
    workspace is touched. *)
Theorem mock_delete_plan_is_refused {World : Type} `{Host World} `{Serializer}
    (planner : MockPlanner.t) (goal root_name : pystr)
    (workspace_root runs_dir : fspath) (settings : Settings)
    (m0 m : machine World) (executor : Executor.t World)
    (args : list pystr) :
  create_default_executor workspace_root runs_dir settings m0 = (Ok executor, m) ->
  persistence_ok executor ->
  In (py "rm") (shell_blacklist settings) ->
  host_shlex_split (VStr (py "rm -rf *")) = Ok (py "rm" :: args) ->
  Plan.risk_level (fst (MockPlanner.generate_plan planner goal root_name)) = HIGH ->
  let plan := fst (MockPlanner.generate_plan planner goal root_name) in
  exists res self' m' tr ts,
    let run_dir := path_child (Executor.runs_dir executor) ts in
    Executor.execute_plan executor plan false m = (Ok res, self', m')
    /\ ExecutionResult.overall_status res = FAILURE
    /\ ExecutionResult.traces res = [tr]
    /\ TraceEntry.status tr = FAILURE
    /\ TraceEntry.error tr = Some (ShellTool.blacklisted_message (py "rm"))
    /\ calls m'
       = calls m
         ++ [SysMkdir run_dir;
             SysWrite (path_child run_dir (py "plan.json")) (VStr (plan_json plan));
             SysWrite (path_child run_dir (py "trace.jsonl"))
               (VStr (Executor.trace_lines (ExecutionResult.traces res)));
             SysWrite (path_child run_dir (py "result.json"))
               (VStr (result_json res))].
Proof.
  intros Hcreate Hp Hrm Hsplit Hhigh plan.
  assert (Hplan : plan = MockPlanner.delete_plan goal root_name).
  { unfold plan in *. unfold MockPlanner.generate_plan in *.
    destruct (str_contains goal MockPlanner.kw_summarize
              || str_contains (host_lower goal) (py "summarize")).
    - destruct (str_contains goal (py "data/notes.txt")); discriminate.
    - destruct (str_contains goal MockPlanner.kw_delete
                || str_contains (host_lower goal) (py "delete")
                || str_contains goal (py "rm -rf")); [reflexivity | discriminate]. }
  clearbody plan. subst plan.
  set (plan := MockPlanner.delete_plan goal root_name).
  set (step := Step.mk (py "1") (py "Attempt to delete files") (py "shell")
                 [(py "cmd", VStr (py "rm -rf *"))] (Some (py "file_deletion"))).
  assert (Hsteps : Plan.steps plan = [step]) by reflexivity.
  destruct (create_default_executor_inv _ _ _ _ _ _ Hcreate) as (_ & Hshell).
  destruct (execute_plan_logged executor plan false m Hp)
    as (ts & m' & Hrun & C1 & C2).
  cbv zeta in Hrun, C1, C2.
  destruct (entry_state_result executor plan m) as (Hnil & _ & Hself).
  set (st0 := entry_state executor plan m) in *.
  assert (Hdeny : py "rm" ∈ ShellTool.blacklist (ShellTool.init None None settings)).
  { cbn [ShellTool.init ShellTool.blacklist ShellTool.names_or].
    apply elem_of_list_to_set. apply list_elem_of_In. exact Hrm. }
  assert (Hres : Executor._resolve_inputs (Executor.ls_self st0) (Step.inputs step)
                 = Ok (Step.inputs step)).
  { apply resolve_inputs_plain_identity; [reflexivity | vm_compute; reflexivity]. }
  assert (Hexec : forall mach,
            tool_execute (ShellTool.as_tool (ShellTool.init None None settings))
              (Step.inputs step) mach
            = (Ok (fail_output (ShellTool.blacklisted_message (py "rm"))), mach)).
  { intros mach. cbn [tool_execute ShellTool.as_tool].
    apply (shell_denies _ _ (VStr (py "rm -rf *")) (py "rm") args);
      [reflexivity | exact Hsplit | exact Hdeny]. }
  assert (Hfail : step_failure (Executor.ls_self st0) step (Executor.ls_machine st0)
                  = Some (ToolFailed (fail_output (ShellTool.blacklisted_message (py "rm"))))).
  { unfold step_failure. rewrite Hres, Hself.
    change (Step.tool step) with (py "shell"). rewrite Hshell, Hexec. reflexivity. }
  destruct (run_steps_spec (Plan.steps plan) st0) as (trs & Htrs & _ & Hcase).
  destruct (run_steps_identity false (Plan.steps plan) st0) as (trs' & Htrs' & _ & Hlen).
  assert (trs' = trs) as ->.
  { rewrite Htrs in Htrs'. apply app_inv_head in Htrs'. congruence. }
  rewrite Hsteps in Hcase, Hlen. cbn [first_failure] in Hcase.
  rewrite Hfail in Hcase.
  destruct Hcase as (ok & tr & -> & _ & Hst & Herr & _).
  rewrite length_app in Hlen. cbn [length] in Hlen.
  destruct ok as [|t ok]; [|simpl in Hlen; lia].
  rewrite Hnil in Htrs. cbn [app] in Htrs.
  set (st := Executor.run_steps false (Plan.steps plan) st0) in *.
  destruct (finalize_spec (Executor.ls_result st) (Executor.ls_machine st))
    as (Ftr & _ & _ & _ & _ & Fo).
  assert (Hcalls : calls (Executor.ls_machine st) = calls (Executor.ls_machine st0)).
  { unfold st. rewrite Hsteps, run_steps_single_calls, run_step_calls.
    rewrite Hres, Hself. change (Step.tool step) with (py "shell").
    rewrite Hshell, Hexec. cbn [snd]. rewrite !tick_calls. reflexivity. }
  eexists _, _, m', tr, ts. cbv zeta. split; [exact Hrun|].
  rewrite Fo, Ftr, Htrs. cbn [count_status]. rewrite Hst. cbn [StepStatus_eqb].
  conjs; try reflexivity; try assumption.
  rewrite C2, Hcalls, C1, <- app_assoc, Ftr, Htrs. reflexivity.
Qed.

Lemma sim_default_created :
  create_default_executor [py "ws"] [py "runs"] SimDefault.settings SimDefault.start
  = (Ok SimDefault.executor, SimDefault.ready).
Proof.
  assert (Hmk : host_mkdir [py "runs"] (world SimDefault.start)
                = (Ok tt, world SimDefault.start)) by reflexivity.
  destruct (create_default_executor_spec [py "ws"] [py "runs"] SimDefault.settings
              SimDefault.start (world SimDefault.start) Hmk)
    as (ex & Hc & _).
  unfold SimDefault.executor, SimDefault.ready. rewrite Hc. reflexivity.
Qed.

Lemma mock_delete_plan_is_refused_witness :
  let plan := fst (MockPlanner.generate_plan MockPlanner.init
                     (py "please Delete the old logs") (py "/ws")) in
  exists res self' m' tr ts,
    let run_dir := path_child (Executor.runs_dir SimDefault.executor) ts in
    Executor.execute_plan SimDefault.executor plan false SimDefault.ready
      = (Ok res, self', m')
    /\ ExecutionResult.overall_status res = FAILURE
    /\ ExecutionResult.traces res = [tr]
    /\ TraceEntry.status tr = FAILURE
    /\ TraceEntry.error tr = Some (ShellTool.blacklisted_message (py "rm"))
    /\ calls m'
       = calls SimDefault.ready
         ++ [SysMkdir run_dir;
             SysWrite (path_child run_dir (py "plan.json")) (VStr (plan_json plan));
             SysWrite (path_child run_dir (py "trace.jsonl"))
               (VStr (Executor.trace_lines (ExecutionResult.traces res)));
             SysWrite (path_child run_dir (py "result.json"))
               (VStr (result_json res))].
Proof.
  apply (mock_delete_plan_is_refused MockPlanner.init
           (py "please Delete the old logs") (py "/ws") [py "ws"] [py "runs"]
           SimDefault.settings SimDefault.start SimDefault.ready
           SimDefault.executor [py "-rf"; py "*"]).
  - exact sim_default_created.
  - apply sim_persistence_ok.
  - vm_compute. tauto.
  - vm_compute. reflexivity.
  - vm_compute. reflexivity.
Defined.

(** ** Loading what was saved *)

Section RoundTrips.
Context {World : Type} `{Host World} `{Serializer} `{Parser}.

Lemma logged_result {A : Type} (c : syscall) (f : World -> result A * World)
    (m m1 : machine World) (r : result A) :
  logged c f m = (r, m1) -> f (world m) = (r, world m1).
Proof.
  unfold logged. destruct (f (world m)) as [r0 w]. intros [= <- <-]. reflexivity.
Qed.

Lemma read_back (p : fspath) (s : pystr) (w : World) (m1 : machine World) :
  (forall q t w0 w1, host_write_text q (VStr t) w0 = (Ok tt, w1) ->
                     fst (host_read_text q w1) = Ok t) ->
  host_write_text p (VStr s) w = (Ok tt, world m1) ->
  fst (read_text p m1) = Ok s.
Proof.
  intros Hlaw Hw. unfold read_text, logged.
  specialize (Hlaw p s w (world m1) Hw).
  destruct (host_read_text p (world m1)). exact Hlaw.
Qed.
End RoundTrips.

(** X27. Saving a plan and loading it back.  On a host where a text
    that was written is the text then read, and with a parser that
    inverts the serializer on this plan, [load_plan] applied to
    [plan.json] of the run directory that [_save_plan] returned yields
    the plan that was saved. *)
Theorem load_plan_after_save_plan {World : Type} `{Host World} `{Serializer}
    `{Parser} (self : Executor.t World) (plan : Plan.t) (m m1 : machine World)
    (run_dir : fspath) :
  (forall q t w0 w1, host_write_text q (VStr t) w0 = (Ok tt, w1) ->
                     fst (host_read_text q w1) = Ok t) ->
  plan_parse (plan_json plan) = Ok plan ->
  Executor._save_plan self plan m = (Ok run_dir, m1) ->
  fst (load_plan (path_child run_dir (py "plan.json")) m1) = Ok plan.
Proof.
  intros Hlaw Hparse. unfold Executor._save_plan.
  destruct (timestamp m) as [ts m0].
  destruct (mkdir _ m0) as [[[]|e] m2]; [|discriminate].
  destruct (write_text _ _ m2) as [[[]|e] m3] eqn:Hw; [|discriminate].
  intros [= <- <-]. apply logged_result in Hw.
  unfold load_plan.
  pose proof (read_back _ _ _ m3 Hlaw Hw) as Hr.
  destruct (read_text _ m3) as [r m4]. cbn [fst] in Hr. subst r.
  rewrite Hparse. reflexivity.
Qed.

Lemma sim_read_after_write (q : fspath) (t : pystr) (w0 w1 : SimHost.World) :
  host_write_text q (VStr t) w0 = (Ok tt, w1) ->
  fst (host_read_text q w1) = Ok t.
Proof.
  cbn [host_write_text host_read_text SimHost.host]. intros [= <-].
  assert (Hl : SimHost.lookup_file q (SimHost.store_file q t w0) = Some t).
  { induction w0 as [|[p c] w0 IH]; simpl.
    - rewrite bool_decide_eq_true_2 by reflexivity. reflexivity.
    - destruct (bool_decide (p = q)) eqn:E; simpl.
      + rewrite bool_decide_eq_true_2 by reflexivity. reflexivity.
      + rewrite E. exact IH. }
  rewrite Hl. reflexivity.
Qed.

(** The summary plan of the mock planner is printed as JSON text by
    [_save_plan]; [load_plan] reads the text and parses it back. *)
Lemma load_plan_after_save_plan_witness :
  fst (@load_plan _ SimHost.host SimJson.parser
         (path_child
            (path_child [py "runs"] (py "20250125-120000")) (py "plan.json"))
         (snd (@Executor._save_plan _ SimHost.host SimJson.serializer
                 SimHost.executor SimJson.summary SimHost.start)))
  = Ok SimJson.summary.
Proof.
  apply (@load_plan_after_save_plan _ SimHost.host SimJson.serializer
           SimJson.parser SimHost.executor SimJson.summary SimHost.start).
  - exact sim_read_after_write.
  - vm_compute. reflexivity.
  - vm_compute. reflexivity.
Defined.

(** The text format: a value is printed as compact JSON and parsed
    back; a text that is no plan does not load. *)
Example json_text :
  SimJson.print (VList [VInt (-12); VBool true; VNone; VList []; VDict []])
  = py "[-12,true,null,[],{}]"
  /\ SimJson.parse (py "[-12,true,null,[],{}]")
     = Some (VList [VInt (-12); VBool true; VNone; VList []; VDict []])
  /\ is_ok (@plan_parse SimJson.parser []) = false
  /\ is_ok (@plan_parse SimJson.parser (py "{plan}")) = false
  /\ is_ok (@plan_parse SimJson.parser
              (@plan_json SimJson.serializer SimJson.summary)) = true.
Proof. vm_compute. repeat split. Qed.

(** X28. Saving a result and loading it back.  Under the same two
    conditions, [load_trace] applied to the run directory to which
    [_save_traces] wrote yields the result that was saved: what is read
    back is the summary [result.json], written last, and not the lines
    of [trace.jsonl]. *)
Theorem load_trace_after_save_traces {World : Type} `{Host World} `{Serializer}
    `{Parser} (run_dir : fspath) (res : ExecutionResult.t)
    (m m1 : machine World) :
  (forall q t w0 w1, host_write_text q (VStr t) w0 = (Ok tt, w1) ->
                     fst (host_read_text q w1) = Ok t) ->
  result_parse (result_json res) = Ok res ->
  Executor._save_traces run_dir res m = (Ok tt, m1) ->
  fst (load_trace run_dir m1) = Ok res.
Proof.
  intros Hlaw Hparse. unfold Executor._save_traces.
  destruct (write_text _ _ m) as [[[]|e] m2]; [|discriminate].
  intros Hw. apply logged_result in Hw.
  unfold load_trace.
  pose proof (read_back _ _ _ m1 Hlaw Hw) as Hr.
  destruct (read_text _ m1) as [r m4]. cbn [fst] in Hr. subst r.
  rewrite Hparse. reflexivity.
Qed.

(** The result of a run with one success and one failure is printed
    by [_save_traces], with its two trace entries, and parsed back by
    [load_trace]. *)
Lemma load_trace_after_save_traces_witness :
  fst (@load_trace _ SimHost.host SimJson.parser [py "runs"; py "r1"]
         (snd (@Executor._save_traces _ SimHost.host SimJson.serializer
                 [py "runs"; py "r1"] SimJson.crashed SimHost.start)))
  = Ok SimJson.crashed.
Proof.
  apply (@load_trace_after_save_traces _ SimHost.host SimJson.serializer
           SimJson.parser [py "runs"; py "r1"] SimJson.crashed SimHost.start).
  - exact sim_read_after_write.
  - vm_compute. reflexivity.
  - vm_compute. reflexivity.
Defined.
